(** * QGChat server: dialog engine, conversation state store, job orchestrator

    A shallow embedding of [server/src/server.js] and of the conversation
    and document functions of [server/src/db.js].

    - JavaScript strings are sequences of UTF-16 code units ([list N]);
      the literals of the source are written as Rocq strings and decoded
      by [u].
    - JavaScript values are the inductive [value]; objects are finite maps
      from property names to values.  The conversion to text is given for
      the values that have a text form ([converts]); where the source
      converts a value of a request, a property is stated for such values.
    - [toLowerCase] is the conversion of the ASCII letters; the parser of
      the set command is also given over any conversion ([parseKV_in]).
    - Numbers are the integers and NaN.  Numeric literals with a fraction,
      an exponent or a radix prefix, and integers beyond the exact range of
      a double, are outside this number type.
    - [new Date().toISOString()] is the section variable [now]: the reading
      of the system clock at the call.
    - The text of a file or of a TEXT column is represented by the JSON
      document it holds, or marked as text that [JSON.parse] rejects.
    - The request handlers of the orchestrator run in a state monad over
      [world]; each one appends what it did to the [trace] of the world.
      [spawn] throws for a command or an argument it refuses; the events of
      a launched process are delivered by the environment.
    - Paths are those of POSIX, and [path.join] normalizes its result.
    - The table of documents is the list of its rows, told apart by their
      ids; the id of a new row is an argument of [insertDocument]. *)

From Stdlib Require Import ZArith NArith Ascii String Decimal DecimalPos Lia
  Sorted.
From stdpp Require Import gmap strings list fin_maps.

#[local] Set Warnings "-register-all".
#[local] Open Scope N_scope.

(* ===================================================================== *)
(** ** JavaScript strings *)
(* ===================================================================== *)

Abbreviation jsstring := (list N).

(** UTF-8 bytes to UTF-16 code units. *)
Fixpoint utf8_decode (bs : list N) : jsstring :=
  match bs with
  | [] => []
  | b0 :: r0 =>
    if b0 <? 128 then b0 :: utf8_decode r0
    else if b0 <? 224 then
      match r0 with
      | b1 :: r1 => ((b0 - 192) * 64 + (b1 - 128)) :: utf8_decode r1
      | _ => []
      end
    else if b0 <? 240 then
      match r0 with
      | b1 :: b2 :: r2 =>
        ((b0 - 224) * 4096 + (b1 - 128) * 64 + (b2 - 128)) :: utf8_decode r2
      | _ => []
      end
    else
      match r0 with
      | b1 :: b2 :: b3 :: r3 =>
        let cp := (b0 - 240) * 262144 + (b1 - 128) * 4096
                  + (b2 - 128) * 64 + (b3 - 128) - 65536 in
        (55296 + cp / 1024) :: (56320 + cp mod 1024) :: utf8_decode r3
      | _ => []
      end
  end.

(** A literal of the source. *)
Definition u (s : string) : jsstring :=
  utf8_decode (List.map N_of_ascii (list_ascii_of_string s)).

(** The double quote and the line feed of a template literal. *)
Definition dq : jsstring := [34].
Definition nl : jsstring := [10].

(** [\s] of a regular expression and the characters [trim] removes:
    WhiteSpace and LineTerminator of ECMAScript. *)
Definition is_space (c : N) : bool :=
  (c =? 9) || (c =? 10) || (c =? 11) || (c =? 12) || (c =? 13) || (c =? 32)
  || (c =? 160) || (c =? 5760) || ((8192 <=? c) && (c <=? 8202))
  || (c =? 8232) || (c =? 8233) || (c =? 8239) || (c =? 8287)
  || (c =? 12288) || (c =? 65279).

(** The characters [.] does not match. *)
Definition is_line_terminator (c : N) : bool :=
  (c =? 10) || (c =? 13) || (c =? 8232) || (c =? 8233).

(** [\d] *)
Definition is_digit (c : N) : bool := (48 <=? c) && (c <=? 57).

(** [\w], which decides [\b] *)
Definition is_word (c : N) : bool :=
  is_digit c || ((65 <=? c) && (c <=? 90)) || ((97 <=? c) && (c <=? 122))
  || (c =? 95).

(** [[-‐–—]] *)
Definition is_dash (c : N) : bool :=
  (c =? 45) || (c =? 8208) || (c =? 8211) || (c =? 8212).

(** Canonicalize of the [i] flag.  The patterns of the source hold ASCII
    letters and caseless characters only, for which comparing the upper
    cases of the ASCII range is exact. *)
Definition canon (c : N) : N :=
  if (97 <=? c) && (c <=? 122) then c - 32 else c.

(** [String.prototype.toLowerCase] on the ASCII range.  The engine reads
    the keys [questions], [difficulty] and [type] of a parsed command and
    no others; no text with a character outside ASCII lower-cases to one
    of them. *)
Definition lower_unit (c : N) : N :=
  if (65 <=? c) && (c <=? 90) then c + 32 else c.

Definition toLowerCase (s : jsstring) : jsstring := List.map lower_unit s.

(** [\s*], greedy. *)
Fixpoint trim_start (s : jsstring) : jsstring :=
  match s with
  | c :: r => if is_space c then trim_start r else s
  | [] => []
  end.

(** [String.prototype.trim] *)
Definition trim (s : jsstring) : jsstring :=
  rev (trim_start (rev (trim_start s))).

Definition nonempty (s : jsstring) : bool :=
  match s with [] => false | _ :: _ => true end.

(** *** Pieces of regular expressions *)

(** A literal under the [i] flag, at the head of [s]: the rest after it. *)
Fixpoint lit (p s : jsstring) : option jsstring :=
  match p, s with
  | [], _ => Some s
  | a :: p', c :: s' => if canon a =? canon c then lit p' s' else None
  | _ :: _, [] => None
  end.

(** [^p$] *)
Definition full (p s : jsstring) : bool :=
  match lit p s with Some [] => true | _ => false end.

(** A pattern without [^]: tried at every position. *)
Fixpoint search (f : jsstring -> bool) (s : jsstring) : bool :=
  f s || match s with [] => false | _ :: r => search f r end.

(** [.*] followed by [f]. *)
Fixpoint dot_star (f : jsstring -> bool) (s : jsstring) : bool :=
  f s || match s with
         | c :: r => negb (is_line_terminator c) && dot_star f r
         | [] => false
         end.

(** [\s+], greedy. *)
Definition space_plus (s : jsstring) : option jsstring :=
  match s with
  | c :: r => if is_space c then Some (trim_start r) else None
  | [] => None
  end.

(** [(\d+)], greedy: the captured digits. *)
Fixpoint digits_prefix (s : jsstring) : jsstring :=
  match s with
  | c :: r => if is_digit c then c :: digits_prefix r else []
  | [] => []
  end.

(** [\b] after a word character. *)
Definition word_end (s : jsstring) : bool :=
  match s with [] => true | c :: _ => negb (is_word c) end.

(** [^(1[-‐–—]?d)\b] *)
Definition branch_tag (d : N) (s : jsstring) : bool :=
  match s with
  | c0 :: c1 :: r1 =>
    (c0 =? 49)
    && (((c1 =? d) && word_end r1)
        || (is_dash c1
            && match r1 with
               | c2 :: r2 => (c2 =? d) && word_end r2
               | [] => false
               end))
  | _ => false
  end.

Definition has (p s : jsstring) : bool := bool_decide (is_Some (lit p s)).

(** [String.prototype.split] with a separator class [[...]+]. *)
Fixpoint split_runs (sep : N -> bool) (in_sep : bool) (s : jsstring)
  : list jsstring :=
  match s with
  | [] => [[]]
  | c :: r =>
    if sep c then
      if in_sep then split_runs sep true r else [] :: split_runs sep true r
    else
      match split_runs sep false r with
      | p :: ps => (c :: p) :: ps
      | [] => [[c]]
      end
  end.

(** [String.prototype.split] with a one-character separator. *)
Fixpoint split_char (d : N) (s : jsstring) : list jsstring :=
  match s with
  | [] => [[]]
  | c :: r =>
    if c =? d then [] :: split_char d r
    else
      match split_char d r with
      | p :: ps => (c :: p) :: ps
      | [] => [[c]]
      end
  end.

(** *** Numbers and their decimal text *)

Inductive num : Type := NaN | Int (z : Z).

Fixpoint uint_units (d : Decimal.uint) : jsstring :=
  match d with
  | Nil => []
  | D0 r => 48 :: uint_units r
  | D1 r => 49 :: uint_units r
  | D2 r => 50 :: uint_units r
  | D3 r => 51 :: uint_units r
  | D4 r => 52 :: uint_units r
  | D5 r => 53 :: uint_units r
  | D6 r => 54 :: uint_units r
  | D7 r => 55 :: uint_units r
  | D8 r => 56 :: uint_units r
  | D9 r => 57 :: uint_units r
  end.

Definition Z_to_js (z : Z) : jsstring :=
  match z with
  | Z0 => [48]
  | Zpos p => uint_units (Pos.to_uint p)
  | Zneg p => 45 :: uint_units (Pos.to_uint p)
  end.

Definition digits_value (s : jsstring) : N :=
  fold_left (fun acc c => acc * 10 + (c - 48)) s 0.

Definition all_digits (s : jsstring) : bool := nonempty s && forallb is_digit s.

(** StringToNumber on decimal integer literals: surrounding white space is
    dropped, the empty text is 0, a sign is allowed. *)
Definition StringToNumber (s : jsstring) : num :=
  let t := trim s in
  match t with
  | [] => Int 0
  | c :: r =>
    if c =? 45 then
      if all_digits r then Int (- Z.of_N (digits_value r)) else NaN
    else if c =? 43 then
      if all_digits r then Int (Z.of_N (digits_value r)) else NaN
    else if all_digits t then Int (Z.of_N (digits_value t)) else NaN
  end.

Definition num_to_js (n : num) : jsstring :=
  match n with NaN => u "NaN" | Int z => Z_to_js z end.

(* ===================================================================== *)
(** ** JavaScript values *)
(* ===================================================================== *)

Inductive value : Type :=
| VUndef
| VNull
| VBool (b : bool)
| VNum (n : num)
| VStr (s : jsstring)
| VArr (l : list value)
| VObj (m : gmap jsstring value).

(** ToBoolean *)
Definition truthy (v : value) : bool :=
  match v with
  | VUndef | VNull => false
  | VBool b => b
  | VNum NaN => false
  | VNum (Int z) => negb (z =? 0)%Z
  | VStr s => nonempty s
  | VArr _ | VObj _ => true
  end.

Fixpoint join_comma (l : list jsstring) : jsstring :=
  match l with
  | [] => []
  | [x] => x
  | x :: r => x ++ 44 :: join_comma r
  end.

(** ToString, as a template literal applies it, for a value that has a
    text form ([converts] below). *)
Fixpoint ToString (v : value) : jsstring :=
  match v with
  | VUndef => u "undefined"
  | VNull => u "null"
  | VBool true => u "true"
  | VBool false => u "false"
  | VNum n => num_to_js n
  | VStr s => s
  | VArr l =>
    join_comma
      (List.map (fun x => match x with
                          | VUndef | VNull => []
                          | _ => ToString x
                          end) l)
  | VObj _ => u "[object Object]"
  end.

(** Whether ToString returns.  The conversion of an object calls its
    [toString] and, where that is no function, its [valueOf]: an object
    read from JSON with a property [toString] of its own has a value there
    that is no function, the inherited [valueOf] returns the object, and
    the conversion throws a TypeError.  An array joins the conversions of
    its elements. *)
Fixpoint converts (v : value) : bool :=
  match v with
  | VArr l => forallb converts l
  | VObj m => bool_decide (m !! u "toString" = None)
  | _ => true
  end.

(** ToNumber, which [Number(x)] applies. *)
Definition ToNumber (v : value) : num :=
  match v with
  | VUndef => NaN
  | VNull => Int 0
  | VBool true => Int 1
  | VBool false => Int 0
  | VNum n => n
  | VStr s => StringToNumber s
  | VArr _ => StringToNumber (ToString v)
  | VObj _ => NaN
  end.

(** [a ?? b] *)
Definition nullish (a b : value) : value :=
  match a with VUndef | VNull => b | _ => a end.

(** [a || b] *)
Definition or_else (a b : value) : value := if truthy a then a else b.

(** [m.k] on a mapping, for a name that no prototype defines: an absent
    property reads as [undefined]. *)
Definition prop (m : gmap jsstring value) (k : jsstring) : value :=
  default VUndef (m !! k).

(** [v.k] for a value that is not [null] or [undefined] and a name that
    no prototype defines. *)
Definition get (v : value) (k : jsstring) : value :=
  match v with VObj m => prop m k | _ => VUndef end.

(** [JSON.parse(JSON.stringify(v))]: NaN becomes null, a property holding
    [undefined] is dropped, [undefined] in an array becomes null. *)
Fixpoint jsonify (v : value) : value :=
  match v with
  | VNum NaN => VNull
  | VArr l =>
    VArr (List.map (fun x => match x with
                             | VUndef => VNull
                             | _ => jsonify x
                             end) l)
  | VObj m =>
    VObj (omap (fun x => match x with
                         | VUndef => None
                         | _ => Some (jsonify x)
                         end) m)
  | _ => v
  end.

(** The text of a file or of a TEXT column. *)
Inductive text : Type :=
| JsonText (doc : value)     (* the text of the JSON document [doc] *)
| Garbage (raw : jsstring).  (* text that is not JSON *)

Definition JSON_stringify (v : value) : text := JsonText (jsonify v).

(** [JSON.parse]: [None] when it throws a SyntaxError. *)
Definition JSON_parse (t : text) : option value :=
  match t with JsonText v => Some v | Garbage _ => None end.

(* ===================================================================== *)
(** ** The dialog engine *)
(* ===================================================================== *)

(** [out[k] = v] on an object literal: the name [__proto__] reaches the
    setter of [Object.prototype], which ignores a string. *)
Definition js_set (k v : jsstring) (out : gmap jsstring jsstring)
  : gmap jsstring jsstring :=
  if bool_decide (k = u "__proto__") then out else <[k := v]> out.

(** [command.replace(/^set\s*:\s*/i, "")] *)
Definition strip_set (command : jsstring) : jsstring :=
  match r ← lit (u "set") command; lit (u ":") (trim_start r) with
  | Some r => trim_start r
  | None => command
  end.

(** [[,\s]] *)
Definition is_kv_sep (c : N) : bool := (c =? 44) || is_space c.

(** [x && x.trim()] *)
Definition and_trim (x : jsstring) : jsstring :=
  match x with [] => [] | _ => trim x end.

(** The body of the [for] loop of [parseKV]. *)
Definition parseKV_step (out : gmap jsstring jsstring) (kv : jsstring)
  : gmap jsstring jsstring :=
  match List.map and_trim (split_char 61 kv) with
  | k :: v :: _ =>
    if nonempty k && nonempty v then js_set (toLowerCase k) v out else out
  | _ => out
  end.

Definition parseKV (command : jsstring) : gmap jsstring jsstring :=
  let m := strip_set command in
  let kvs :=
    List.filter nonempty (List.map trim (split_runs is_kv_sep false m)) in
  fold_left parseKV_step kvs ∅.

(** [kvs], the pairs the loop of [parseKV] runs over, for the text [m] that
    is left of the command. *)
Definition kvs (m : jsstring) : list jsstring :=
  List.filter nonempty (List.map trim (split_runs is_kv_sep false m)).

(** [parseKV] over the function [lower] for [k.toLowerCase()].  The
    conversion of the runtime maps letters outside ASCII as well, which
    [toLowerCase] above leaves as they are; what is proved of [parseKV_in]
    for every [lower] holds for the conversion of the runtime, and
    [parseKV] is [parseKV_in toLowerCase]. *)
Definition parseKV_step_in (lower : jsstring -> jsstring)
    (out : gmap jsstring jsstring) (kv : jsstring) : gmap jsstring jsstring :=
  match List.map and_trim (split_char 61 kv) with
  | k :: v :: _ =>
    if nonempty k && nonempty v then js_set (lower k) v out else out
  | _ => out
  end.

Definition parseKV_in (lower : jsstring -> jsstring) (command : jsstring)
  : gmap jsstring jsstring :=
  fold_left (parseKV_step_in lower) (kvs (strip_set command)) ∅.

(** The result of a rule: [{ reply, newState, metaPatch }]; [metaPatch] is
    [None] where the object literal has no such property. *)
Record intent : Type := Intent {
  reply : jsstring;
  newState : jsstring;
  metaPatch : option (gmap jsstring value)
}.

Definition ROOT_MENU : jsstring := u "ROOT_MENU".
Definition FLOW_EXISTING_DOC_SELECT : jsstring := u "FLOW_EXISTING_DOC_SELECT".
Definition FLOW_EXISTING_DOC_CONFIG : jsstring := u "FLOW_EXISTING_DOC_CONFIG".
Definition FLOW_UPLOAD_DOC_WAIT : jsstring := u "FLOW_UPLOAD_DOC_WAIT".
Definition FLOW_UPLOAD_DOC_CONFIG : jsstring := u "FLOW_UPLOAD_DOC_CONFIG".
Definition FLOW_QG_DONE : jsstring := u "FLOW_QG_DONE".

(** [state === name] in the [switch]. *)
Definition state_is (state : value) (name : jsstring) : bool :=
  match state with VStr s => bool_decide (s = name) | _ => false end.

(** [{ questions: 10, difficulty: "middle", type: "mcq" }] *)
Definition default_config : value :=
  VObj (<[u "questions" := VNum (Int 10)]>
        (<[u "difficulty" := VStr (u "middle")]>
         (<[u "type" := VStr (u "mcq")]> ∅))).

(** [questions=${c.questions}, difficulty=${c.difficulty}, type=${c.type}] *)
Definition config_line (c : value) : jsstring :=
  u "questions=" ++ ToString (get c (u "questions"))
  ++ u ", difficulty=" ++ ToString (get c (u "difficulty"))
  ++ u ", type=" ++ ToString (get c (u "type")).

(** [/(^(1[-‐–—]?1)\b|既存.*資料.*(問題|作成)|既存資料.*作成)/i] *)
Definition is11 (t : jsstring) : bool :=
  branch_tag 49 t
  || search (fun s =>
       match lit (u "既存") s with
       | Some r =>
         dot_star (fun s1 =>
           match lit (u "資料") s1 with
           | Some r1 =>
             dot_star (fun s2 => has (u "問題") s2 || has (u "作成") s2) r1
           | None => false
           end) r
       | None => false
       end) t
  || search (fun s =>
       match lit (u "既存資料") s with
       | Some r => dot_star (has (u "作成")) r
       | None => false
       end) t.

(** [/(^(1[-‐–—]?2)\b|新規.*資料.*(アップロード|問題|作成)|アップロード.*問題)/i] *)
Definition is12 (t : jsstring) : bool :=
  branch_tag 50 t
  || search (fun s =>
       match lit (u "新規") s with
       | Some r =>
         dot_star (fun s1 =>
           match lit (u "資料") s1 with
           | Some r1 =>
             dot_star (fun s2 => has (u "アップロード") s2
                                 || has (u "問題") s2
                                 || has (u "作成") s2) r1
           | None => false
           end) r
       | None => false
       end) t
  || search (fun s =>
       match lit (u "アップロード") s with
       | Some r => dot_star (has (u "問題")) r
       | None => false
       end) t.

(** [/(ヘルプ|使い方|help)/i] *)
Definition help (t : jsstring) : bool :=
  search (fun s => has (u "ヘルプ") s || has (u "使い方") s || has (u "help") s) t.

(** [/^(戻る|back)$/i] *)
Definition back (t : jsstring) : bool := full (u "戻る") t || full (u "back") t.

(** [/^(home|メニュー)$/i] *)
Definition home (t : jsstring) : bool := full (u "home") t || full (u "メニュー") t.

(** [/^(run|実行)$/i] *)
Definition run (t : jsstring) : bool := full (u "run") t || full (u "実行") t.

(** [/^kw\s*:\s*(\d+)/i]: the captured group. *)
Definition colon_digits (r : jsstring) : option jsstring :=
  r1 ← lit (u ":") (trim_start r);
  match digits_prefix (trim_start r1) with
  | [] => None
  | ds => Some ds
  end.

(** [/^select\s+doc\s*:\s*(\d+)/i.exec(t)]: group 1. *)
Definition selectDoc (t : jsstring) : option jsstring :=
  r ← lit (u "select") t; r1 ← space_plus r; r2 ← lit (u "doc") r1;
  colon_digits r2.

(** [/^uploaded\s*:\s*(\d+)/i.exec(t)]: group 1. *)
Definition uploaded (t : jsstring) : option jsstring :=
  r ← lit (u "uploaded") t; colon_digits r.

(** [/^set\s*:/i.test(t) ? parseKV(t) : null] *)
Definition setCmd (t : jsstring) : option (gmap jsstring jsstring) :=
  match r ← lit (u "set") t; lit (u ":") (trim_start r) with
  | Some _ => Some (parseKV t)
  | None => None
  end.

(** [setCmd.k] *)
Definition kv_prop (m : gmap jsstring jsstring) (k : jsstring) : value :=
  match m !! k with Some s => VStr s | None => VUndef end.

(** The [config] object a [set:] command builds. *)
Definition merged_config (s : gmap jsstring jsstring) (prev : value) : value :=
  VObj (<[u "questions" :=
            VNum (ToNumber (nullish (nullish (kv_prop s (u "questions"))
                                             (get prev (u "questions")))
                                    (VNum (Int 10))))]>
        (<[u "difficulty" :=
             nullish (nullish (kv_prop s (u "difficulty"))
                              (get prev (u "difficulty")))
                     (VStr (u "middle"))]>
         (<[u "type" :=
              nullish (nullish (kv_prop s (u "type")) (get prev (u "type")))
                      (VStr (u "mcq"))]> ∅))).

(** [meta.lastChoice === "1-1" ? "FLOW_EXISTING_DOC_CONFIG"
                               : "FLOW_UPLOAD_DOC_CONFIG"] *)
Definition done_back_target (meta : gmap jsstring value) : jsstring :=
  match prop meta (u "lastChoice") with
  | VStr s =>
    if bool_decide (s = u "1-1") then FLOW_EXISTING_DOC_CONFIG
    else FLOW_UPLOAD_DOC_CONFIG
  | _ => FLOW_UPLOAD_DOC_CONFIG
  end.

Section Engine.

(** [new Date().toISOString()] at the time of the call. *)
Variable now : jsstring.

Definition go_home : option intent :=
  Some (Intent (u "メニューに戻ります。") ROOT_MENU None).

(** The block shared by [case "ROOT_MENU":] and [default:]. *)
Definition root_menu (t : jsstring) : option intent :=
  if is11 t then
    Some (Intent
      (u "既存資料から問題を作成します。" ++ nl
       ++ u "資料を選択してください（例: " ++ dq ++ u "select doc: 123" ++ dq
       ++ u "）。" ++ nl
       ++ u "- 最近使った資料: 101, 102, 103" ++ nl
       ++ u "- 設定は後から " ++ dq
       ++ u "set: questions=10, difficulty=middle, type=mcq" ++ dq
       ++ u " で変更可能です。")
      FLOW_EXISTING_DOC_SELECT
      (Some {[ u "lastChoice" := VStr (u "1-1") ]}))
  else if is12 t then
    Some (Intent
      (u "新規資料のアップロードから開始します。" ++ nl
       ++ u "アップロード完了後、" ++ dq ++ u "uploaded: <docId>" ++ dq
       ++ u " と入力してください（例: " ++ dq ++ u "uploaded: 201" ++ dq
       ++ u "）。")
      FLOW_UPLOAD_DOC_WAIT
      (Some {[ u "lastChoice" := VStr (u "1-2") ]}))
  else if help t then
    Some (Intent
      (u "ヘルプ: 1-1 既存資料 / 1-2 新規アップロード から開始します。")
      ROOT_MENU None)
  else None.

(** The [set:] rule of the two config states. *)
Definition set_rule (s : gmap jsstring jsstring)
    (meta : gmap jsstring value) (stay : jsstring) : option intent :=
  let prev := or_else (prop meta (u "config")) (VObj ∅) in
  let config := merged_config s prev in
  Some (Intent
    (u "設定を更新しました。" ++ nl
     ++ config_line config ++ nl
     ++ u "問題生成する場合は " ++ dq ++ u "run" ++ dq
     ++ u " と入力してください。")
    stay
    (Some {[ u "config" := config ]})).

(** The [run] rule of the two config states. *)
Definition run_rule (meta : gmap jsstring value) : option intent :=
  let cfg := or_else (prop meta (u "config")) default_config in
  Some (Intent
    (u "問題生成を開始します（ダミー）。" ++ nl
     ++ u "資料=" ++ ToString (prop meta (u "docId")) ++ u ", "
     ++ config_line cfg ++ nl
     ++ u "生成が完了しました。結果をプレビューできます。")
    FLOW_QG_DONE
    (Some {[ u "lastRunAt" := VStr now ]})).

Definition matchRuleIntent (text : jsstring) (state : value)
    (meta : gmap jsstring value) : option intent :=
  let t := trim text in
  if state_is state ROOT_MENU then root_menu t
  else if state_is state FLOW_EXISTING_DOC_SELECT then
    if home t then go_home
    else if back t then Some (Intent (u "一つ前に戻ります。") ROOT_MENU None)
    else
      match selectDoc t with
      | Some d =>
        let docId := VNum (StringToNumber d) in
        let current := or_else (prop meta (u "config")) default_config in
        Some (Intent
          (u "資料 " ++ ToString docId ++ u " を選択しました。" ++ nl
           ++ u "現在の設定: " ++ config_line current ++ nl
           ++ u "変更する場合は " ++ dq
           ++ u "set: questions=20, difficulty=hard" ++ dq
           ++ u "、問題生成は " ++ dq ++ u "run" ++ dq
           ++ u " と入力してください。")
          FLOW_EXISTING_DOC_CONFIG
          (Some {[ u "docId" := docId ]}))
      | None =>
        Some (Intent (u "資料を「select doc: <id>」で指定してください。")
                     FLOW_EXISTING_DOC_SELECT None)
      end
  else if state_is state FLOW_EXISTING_DOC_CONFIG then
    if home t then go_home
    else if back t then
      Some (Intent (u "資料選択に戻ります。") FLOW_EXISTING_DOC_SELECT None)
    else
      match setCmd t with
      | Some s => set_rule s meta FLOW_EXISTING_DOC_CONFIG
      | None => if run t then run_rule meta else None
      end
  else if state_is state FLOW_UPLOAD_DOC_WAIT then
    if home t then go_home
    else if back t then go_home
    else
      match uploaded t with
      | Some d =>
        let docId := VNum (StringToNumber d) in
        let current := or_else (prop meta (u "config")) default_config in
        Some (Intent
          (u "アップロード完了を受け付けました。docId=" ++ ToString docId ++ nl
           ++ u "現在の設定: " ++ config_line current ++ nl
           ++ u "必要に応じて " ++ dq ++ u "set: ..." ++ dq
           ++ u " で更新し、" ++ dq ++ u "run" ++ dq
           ++ u " で生成を開始してください。")
          FLOW_UPLOAD_DOC_CONFIG
          (Some {[ u "docId" := docId ]}))
      | None =>
        Some (Intent
          (u "アップロード完了後は「uploaded: <docId>」と入力してください。")
          FLOW_UPLOAD_DOC_WAIT None)
      end
  else if state_is state FLOW_UPLOAD_DOC_CONFIG then
    if home t then go_home
    else if back t then
      Some (Intent (u "アップロード待ちに戻ります。") FLOW_UPLOAD_DOC_WAIT None)
    else
      match setCmd t with
      | Some s => set_rule s meta FLOW_UPLOAD_DOC_CONFIG
      | None => if run t then run_rule meta else None
      end
  else if state_is state FLOW_QG_DONE then
    if home t then go_home
    else if back t then
      Some (Intent (u "設定に戻ります。") (done_back_target meta) None)
    else None
  else root_menu t.

End Engine.

(* ===================================================================== *)
(** ** The conversation state store ([db.js]) *)
(* ===================================================================== *)

(** A row of [conversations]: the columns the state functions use. *)
Record conv_row : Type := ConvRow {
  row_user : Z;
  row_state : option jsstring;   (* TEXT, [None] for NULL *)
  row_meta : option text         (* TEXT, [None] for NULL *)
}.

(** A row of [documents]. *)
Record doc_row : Type := DocRow {
  doc_id : Z;
  doc_user : Z;
  doc_title : jsstring;
  doc_stored_filename : jsstring;
  doc_original_name : jsstring
}.

Record database : Type := Database {
  conversations : gmap Z conv_row;   (* by [id], the primary key *)
  documents : list doc_row
}.

(** [SELECT ... FROM conversations WHERE id = ? AND user_id = ?]; NaN
    equals no id. *)
Definition select_conv (db : database) (user_id : Z) (conversationId : num)
  : option (Z * conv_row) :=
  match conversationId with
  | Int id =>
    match conversations db !! id with
    | Some r => if bool_decide (row_user r = user_id) then Some (id, r) else None
    | None => None
    end
  | NaN => None
  end.

(** [getConversation], without the messages it joins in. *)
Definition getConversation (db : database) (user_id : Z) (conversationId : num)
  : option conv_row :=
  snd <$> select_conv db user_id conversationId.

(** [function safeJSON(s) { try { return JSON.parse(s); } catch { return null; } }] *)
Definition safeJSON (t : text) : value := default VNull (JSON_parse t).

(** The truth value of a TEXT column: the empty text is falsy. *)
Definition text_truthy (t : text) : bool :=
  match t with JsonText _ => true | Garbage raw => nonempty raw end.

(** [getConversationState]: the pair [{ state, meta }]. *)
Definition getConversationState (db : database) (user_id : Z)
    (conversationId : num) : value * value :=
  match select_conv db user_id conversationId with
  | None => (VNull, VNull)
  | Some (_, row) =>
    (match row_state row with
     | Some s => or_else (VStr s) VNull
     | None => VNull
     end,
     match row_meta row with
     | Some t => if text_truthy t then safeJSON t else VNull
     | None => VNull
     end)
  end.

(** [setConversationState]: [state] is a text or null, [meta] an object or
    null.  [UPDATE conversations SET state = ?, meta = COALESCE(?, meta)]. *)
Definition setConversationState (db : database) (user_id : Z)
    (conversationId : num) (state : option jsstring)
    (meta : option (gmap jsstring value)) : database * bool :=
  match select_conv db user_id conversationId with
  | None => (db, false)
  | Some (id, row) =>
    let metaStr := (fun m => JSON_stringify (VObj m)) <$> meta in
    let row' := ConvRow (row_user row) state
                  (match metaStr with Some t => Some t | None => row_meta row end) in
    (Database (<[id := row']> (conversations db)) (documents db), true)
  end.

(** [listDocuments(user_id, 1)[0]]: the row of the user with the largest
    id, if the user has one. *)
Definition latest_document (db : database) (user_id : Z) : option doc_row :=
  fold_left
    (fun best d =>
       if bool_decide (doc_user d = user_id) then
         match best with
         | Some b => if (doc_id b <? doc_id d)%Z then Some d else best
         | None => Some d
         end
       else best)
    (documents db) None.

(** The own properties an object spread [{ ...v }] copies. *)
Definition index_map (l : list value) : gmap jsstring value :=
  list_to_map (imap (fun i x => (Z_to_js (Z.of_nat i), x)) l).

Definition props (v : value) : gmap jsstring value :=
  match v with
  | VObj m => m
  | VArr l => index_map l
  | VStr s => index_map (List.map (fun c => VStr [c]) s)
  | _ => ∅
  end.

(** [{ ...meta, ...patch }]: the properties of [patch] win. *)
Definition merge_meta (meta patch : gmap jsstring value) : gmap jsstring value :=
  patch ∪ meta.

(** A value that is a text or null, as a column. *)
Definition as_column (v : value) : option jsstring :=
  match v with VStr s => Some s | _ => None end.

(** The rule part of [POST /api/chat] (lines 327-334), for a conversation
    [conv_id] the handler has found: the new database and the reply, or
    [None] where the handler goes on to the external responder. *)
Definition chat_rule (now : jsstring) (db : database) (user_id conv_id : Z)
    (userMessage : jsstring) : database * option jsstring :=
  let '(state, meta) := getConversationState db user_id (Int conv_id) in
  match matchRuleIntent now userMessage (or_else state (VStr ROOT_MENU))
          (props (or_else meta (VObj ∅))) with
  | Some hit =>
    let newMeta :=
      merge_meta (props (or_else meta (VObj ∅))) (default ∅ (metaPatch hit)) in
    (fst (setConversationState db user_id (Int conv_id)
            (as_column (or_else (VStr (newState hit)) state)) (Some newMeta)),
     Some (reply hit))
  | None => (db, None)
  end.

(* ===================================================================== *)
(** ** The job orchestrator and the progress endpoint *)
(* ===================================================================== *)

(** What a handler did, in order. *)
Inductive effect : Type :=
| Wrote (path : jsstring) (record : value)
    (* [fs.writeFileSync(path, JSON.stringify(record))] *)
| Spawned (bin : value) (args : list value).
    (* [spawn(bin, args, ...)] *)

Record world : Type := World {
  db : database;
  files : gmap jsstring text;            (* the files, by path *)
  convJobMap : gmap jsstring jsstring;   (* [`${userId}:${convId}`] to jobId *)
  trace : list effect
}.

Inductive outcome (A : Type) : Type :=
| Ret (a : A)
| Throw (e : jsstring).
Arguments Ret {A} a.
Arguments Throw {A} e.

(** A handler: it returns or throws, and leaves a world. *)
Definition M (A : Type) : Type := world -> outcome A * world.

Definition ret {A} (a : A) : M A := fun w => (Ret a, w).

Definition throw {A} (e : jsstring) : M A := fun w => (Throw e, w).

Definition bind {A B} (m : M A) (k : A -> M B) : M B :=
  fun w =>
    match m w with
    | (Ret a, w') => k a w'
    | (Throw e, w') => (Throw e, w')
    end.

Notation "x <- m ;; k" := (bind m (fun x => k))
  (at level 100, m at next level, right associativity).
Notation "m ;;; k" := (bind m (fun _ => k))
  (at level 100, right associativity).

Definition read_db : M database := fun w => (Ret (db w), w).

Definition write_db (d : database) : M unit :=
  fun w => (Ret tt, World d (files w) (convJobMap w) (trace w)).

Definition writeFileSync (path : jsstring) (record : value) : M unit :=
  fun w =>
    (Ret tt,
     World (db w) (<[path := JSON_stringify record]> (files w)) (convJobMap w)
           (trace w ++ [Wrote path record])).

Definition convJobMap_set (key jobId : jsstring) : M unit :=
  fun w =>
    (Ret tt, World (db w) (files w) (<[key := jobId]> (convJobMap w)) (trace w)).

(** The launch of a process with a file and arguments that [spawn]
    accepts. *)
Definition launch (bin : value) (args : list value) : M unit :=
  fun w =>
    (Ret tt,
     World (db w) (files w) (convJobMap w) (trace w ++ [Spawned bin args])).

(** A text with a NUL. *)
Definition has_nul (v : value) : bool :=
  match v with VStr s => existsb (N.eqb 0) s | _ => false end.

(** What [child_process.spawn] refuses: a file that is no text or the
    empty text, a text with a NUL as the file or among the arguments, and
    an argument that has no text form. *)
Definition spawn_rejects (bin : value) (args : list value) : bool :=
  match bin with VStr (_ :: _) => false | _ => true end
  || has_nul bin
  || existsb (fun a => has_nul a || negb (converts a)) args.

(** [spawn(bin, args, ...)]: it throws a TypeError for what it refuses,
    synchronously, and launches the process otherwise. *)
Definition spawn (bin : value) (args : list value) : M unit :=
  if spawn_rejects bin args then throw (u "TypeError") else launch bin args.

(** [{ stage, message }] *)
Definition record (stage message : jsstring) : value :=
  VObj (<[u "stage" := VStr stage]> (<[u "message" := VStr message]> ∅)).

Definition unknown_record : value := record (u "unknown") [].

(** A response: [res.status(code).json(body)]. *)
Inductive response : Type := Json (status : N) (body : value).

(** Two hexadecimal digits per byte. *)
Definition hex_digit (n : N) : N := if n <? 10 then 48 + n else 87 + n.

Definition hex (bytes : list N) : jsstring :=
  flat_map (fun b => [hex_digit (b / 16 mod 16); hex_digit (b mod 16)]) bytes.

(** The closure of the exit and error callbacks of a job. *)
Record job : Type := Job {
  progPath : jsstring;
  job_user : Z;
  courseName : value;
  videoName : value
}.

(** The record a start request writes first. *)
Definition initial_record : value :=
  record (u "analysis") (u "内容分析処理: OCRを開始").

(** [`${req.user.id}:${conversationId}`], the key of [convJobMap]. *)
Definition registry_key (uid : Z) (conversationId : value) : jsstring :=
  Z_to_js uid ++ 58 :: ToString conversationId.

(** The [jobId] of the progress endpoint: the query parameter, or, when
    there is none, [convJobMap.get(key)] for the text [key] of the template
    [`${req.user.id}:${Number(conversationId)}`]. *)
Definition resolved_job_at (w : world) (qJobId conversationId : value)
    (key : jsstring) : value :=
  if negb (truthy qJobId) && truthy conversationId then
    match convJobMap w !! key with
    | Some j => VStr j
    | None => VUndef
    end
  else qJobId.

(** The same with the key as [ToNumber] and [ToString] give it. *)
Definition resolved_job (w : world) (uid : Z) (qJobId conversationId : value)
  : value :=
  resolved_job_at w qJobId conversationId
    (registry_key uid (VNum (ToNumber conversationId))).

(** [path.join] of POSIX joins its arguments with [/] and normalizes the
    result: the segments between the separators are read from the left,
    an empty segment and [.] are dropped, and [..] removes the segment
    before it (or stays, in a relative path that has none). *)
Fixpoint join_with (d : N) (l : list jsstring) : jsstring :=
  match l with
  | [] => []
  | [x] => x
  | x :: r => x ++ d :: join_with d r
  end.

Definition path_step (above : bool) (res : list jsstring) (seg : jsstring)
  : list jsstring :=
  if bool_decide (seg = []) || bool_decide (seg = u ".") then res
  else if bool_decide (seg = u "..") then
    match last res with
    | Some l =>
      if bool_decide (l = u "..") then (if above then res ++ [seg] else res)
      else removelast res
    | None => if above then [seg] else []
    end
  else res ++ [seg].

(** [path.normalize] *)
Definition normalize (p : jsstring) : jsstring :=
  match p with
  | [] => u "."
  | c :: _ =>
    let absolute := c =? 47 in
    let trailing := match last p with Some e => e =? 47 | None => false end in
    let body :=
      join_with 47
        (fold_left (path_step (negb absolute)) (split_char 47 p) []) in
    match body with
    | [] => if absolute then u "/" else if trailing then u "./" else u "."
    | _ =>
      (if absolute then [47] else []) ++ body
      ++ (if trailing then [47] else [])
    end
  end.

(** [path.join(a, b)] *)
Definition path_join (a b : jsstring) : jsstring :=
  normalize (match a, b with
             | [], _ => b
             | _, [] => a
             | _, _ => a ++ 47 :: b
             end).

Section Server.

(** [process.cwd()] and [process.env.PYTHON_BIN]. *)
Variable cwd : jsstring.
Variable PYTHON_BIN : value.

Definition UPLOAD_DIR : jsstring := path_join cwd (u "uploads").
Definition PROGRESS_DIR : jsstring := path_join cwd (u "progress").

(** [path.join(dir, v)]: a TypeError unless [v] is a string. *)
Definition path_join_value (dir : jsstring) (v : value) : M jsstring :=
  match v with
  | VStr s => ret (path_join dir s)
  | _ => throw (u "TypeError")
  end.

(** [progressFile(jobId)] *)
Definition progressFile (jobId : value) : jsstring :=
  path_join PROGRESS_DIR (ToString jobId ++ u ".json").

Definition pyBin : value := or_else PYTHON_BIN (VStr (u "python3")).

Definition error_body (msg : jsstring) : value :=
  VObj {[ u "error" := VStr msg ]}.

(** [POST /api/process/start] for the authenticated user [uid], the
    [conversationId] of the body and the bytes [crypto.randomBytes(8)]
    returns. *)
Definition process_start (uid : Z) (conversationId : value)
    (random : list N) : M response :=
  d <- read_db ;;
  match getConversation d uid (ToNumber conversationId) with
  | None => ret (Json 404 (error_body (u "conversation not found")))
  | Some _ =>
    let st := getConversationState d uid (ToNumber conversationId) in
    let meta := or_else (snd st) (VObj ∅) in
    let stored0 := get meta (u "stored_filename") in
    let videoName0 := or_else (get meta (u "docTitle")) (get meta (u "videoName")) in
    let continue (stored videoName : value) : M response :=
      let courseName := or_else (get meta (u "courseName")) (VStr (u "未設定")) in
      let jobId := hex random in
      let progPath := progressFile (VStr jobId) in
      writeFileSync progPath initial_record ;;;
      convJobMap_set (registry_key uid conversationId) jobId ;;;
      videoPath <- path_join_value UPLOAD_DIR stored ;;
      spawn pyBin
        [VStr (u "processor/worker.py");
         VStr (u "--db"); VStr (path_join cwd (u "chat.sqlite3"));
         VStr (u "--user-id"); VStr (Z_to_js uid);
         VStr (u "--course"); courseName;
         VStr (u "--video-name"); videoName;
         VStr (u "--video-path"); VStr videoPath;
         VStr (u "--progress"); VStr progPath] ;;;
      ret (Json 200 (VObj (<[u "ok" := VBool true]>
                           (<[u "jobId" := VStr jobId]> ∅))))
    in
    if truthy stored0 then continue stored0 videoName0
    else
      match latest_document d uid with
      | None =>
        ret (Json 400 (error_body (u "no uploaded document found for the user")))
      | Some latest =>
        let stored := VStr (doc_stored_filename latest) in
        let videoName :=
          or_else (or_else (VStr (doc_original_name latest))
                           (VStr (doc_title latest))) stored in
        write_db
          (fst (setConversationState d uid (ToNumber conversationId)
                  (as_column (fst st))
                  (Some (<[u "docTitle" := videoName]>
                         (<[u "stored_filename" := stored]> (props meta)))))) ;;;
        continue stored videoName
      end
  end.

(** [w1.on("error", (e) => ...)]; [e] is the text [String(e)]. *)
Definition w1_on_error (j : job) (e : jsstring) : M unit :=
  writeFileSync (progPath j) (record (u "error") e).

(** [`... exit ${code}`]: the exit code, or null after a signal. *)
Definition code_text (code : option Z) : jsstring :=
  match code with Some c => Z_to_js c | None => u "null" end.

(** [qa.on("error", (e) => ...)] *)
Definition qa_on_error (j : job) (e : jsstring) : M unit :=
  writeFileSync (progPath j) (record (u "error") e).

(** [qa.on("exit", (c2) => ...)] *)
Definition qa_on_exit (j : job) (c2 : option Z) : M unit :=
  writeFileSync (progPath j)
    (if bool_decide (c2 = Some 0%Z) then record (u "done") (u "完了")
     else record (u "error") (u "qa exit " ++ code_text c2)).

(** [w1.on("exit", (code) => ...)].  The callback exists once the first
    [spawn] of the job has returned, so the file and the arguments of the
    second [spawn], which are among those of the first, are accepted. *)
Definition w1_on_exit (j : job) (code : option Z) : M unit :=
  if bool_decide (code = Some 0%Z) then
    writeFileSync (progPath j) (record (u "qa") (u "問題生成: 開始")) ;;;
    launch pyBin
      [VStr (u "processor/makeQA.py");
       VStr (u "--db"); VStr (path_join cwd (u "chat.sqlite3"));
       VStr (u "--user-id"); VStr (Z_to_js (job_user j));
       VStr (u "--course"); courseName j;
       VStr (u "--video-name"); videoName j;
       VStr (u "--progress"); VStr (progPath j)]
  else
    writeFileSync (progPath j)
      (record (u "error") (u "worker exit " ++ code_text code)).

(** [GET /api/process/progress] for the query parameters [jobId] and
    [conversationId] and the text [key] of the template
    [`${req.user.id}:${Number(conversationId)}`].  A parameter is a text
    where the query names it once; where a query parser builds an array or
    an object for it, [Number(conversationId)] and the template of
    [progressFile] throw a TypeError for one without a text form. *)
Definition progress_at (qJobId conversationId : value) (key : jsstring)
    (w : world) : outcome response :=
  if negb (truthy qJobId) && truthy conversationId
     && negb (converts conversationId)
  then Throw (u "TypeError")
  else
    let jobId := resolved_job_at w qJobId conversationId key in
    if negb (truthy jobId) then Ret (Json 200 unknown_record)
    else if negb (converts jobId) then Throw (u "TypeError")
    else
      let fp := progressFile jobId in
      match files w !! fp with
      | None => Ret (Json 200 unknown_record)
      | Some t =>
        match JSON_parse t with
        | Some j => Ret (Json 200 j)
        | None => Ret (Json 200 unknown_record)
        end
      end.

(** The same for the authenticated user [uid], with the key as [ToNumber]
    and [ToString] give it. *)
Definition process_progress (uid : Z) (qJobId conversationId : value)
    (w : world) : outcome response :=
  progress_at qJobId conversationId
    (registry_key uid (VNum (ToNumber conversationId))) w.

(** What happens to the server: a start request, an event of a child
    process, or a stage process rewriting its progress file. *)
Inductive event : Type :=
| Start (uid : Z) (conversationId : value) (random : list N)
| W1Error (j : job) (e : jsstring)
| W1Exit (j : job) (code : option Z)
| QaError (j : job) (e : jsstring)
| QaExit (j : job) (code : option Z)
| StageWrote (path : jsstring) (t : text).

Definition deliver (w : world) (ev : event) : world :=
  match ev with
  | Start uid c r => snd (process_start uid c r w)
  | W1Error j e => snd (w1_on_error j e w)
  | W1Exit j code => snd (w1_on_exit j code w)
  | QaError j e => snd (qa_on_error j e w)
  | QaExit j code => snd (qa_on_exit j code w)
  | StageWrote p t =>
    World (db w) (<[p := t]> (files w)) (convJobMap w) (trace w)
  end.

Definition run_events (w : world) (evs : list event) : world :=
  fold_left deliver evs w.

End Server.

(* ===================================================================== *)
(** ** Vocabulary of the properties *)
(* ===================================================================== *)

(** The six states the [switch] of the engine names. *)
Definition dialog_states : list jsstring :=
  [ROOT_MENU; FLOW_EXISTING_DOC_SELECT; FLOW_EXISTING_DOC_CONFIG;
   FLOW_UPLOAD_DOC_WAIT; FLOW_UPLOAD_DOC_CONFIG; FLOW_QG_DONE].

(** A result without the time stamp of its patch. *)
Definition unstamped (r : option intent) : option intent :=
  (fun i => Intent (reply i) (newState i)
              (delete (u "lastRunAt") <$> metaPatch i)) <$> r.

(** The time stamp of the patch of a result, if it has one. *)
Definition stamp (r : option intent) : option value :=
  i ← r; p ← metaPatch i; p !! u "lastRunAt".

(** The stage of a record. *)
Definition stage_of (r : value) : value := get r (u "stage").

(** The stages the orchestrator writes. *)
Definition written_stages : list jsstring :=
  [u "analysis"; u "qa"; u "done"; u "error"].

(** The stages the specification lists. *)
Definition listed_stages : list jsstring :=
  [u "extraction"; u "generation"; u "done"; u "error"; u "unknown"].

(** Every record written in a trace has one of the stages [l]. *)
Definition stages_within (l : list jsstring) (tr : list effect) : Prop :=
  Forall (fun e => match e with
                   | Wrote _ r => exists s, stage_of r = VStr s /\ In s l
                   | Spawned _ _ => True
                   end) tr.

(** The effect launches stage 2 with the progress file [p]. *)
Definition launches_stage2 (p : jsstring) (e : effect) : bool :=
  match e with
  | Spawned _ (VStr script :: args) =>
    bool_decide (script = u "processor/makeQA.py")
    && match last args with
       | Some (VStr q) => bool_decide (q = p)
       | _ => false
       end
  | _ => false
  end.

(** The effect writes a record of the generation stage to [p]. *)
Definition writes_stage2 (p : jsstring) (e : effect) : bool :=
  match e with
  | Wrote p' r =>
    bool_decide (p' = p)
    && match stage_of r with
       | VStr s => bool_decide (s = u "qa") || bool_decide (s = u "generation")
       | _ => false
       end
  | _ => false
  end.

(** Neither happens in a trace. *)
Definition stage2_free (p : jsstring) (tr : list effect) : Prop :=
  Forall (fun e => launches_stage2 p e = false /\ writes_stage2 p e = false) tr.

(** The failure of stage 1 an event reports: the job and the diagnostic. *)
Definition stage1_failure (ev : event) : option (job * jsstring) :=
  match ev with
  | W1Error j e => Some (j, e)
  | W1Exit j code =>
    if bool_decide (code = Some 0%Z) then None
    else Some (j, u "worker exit " ++ code_text code)
  | _ => None
  end.

(** [{ questions: q, difficulty: d, type: t }] *)
Definition config_object (q : Z) (d t : jsstring) : value :=
  VObj (<[u "questions" := VNum (Int q)]>
        (<[u "difficulty" := VStr d]> (<[u "type" := VStr t]> ∅))).

(** No character of [s] is a separator of pairs. *)
Definition unbroken (s : jsstring) : Prop :=
  Forall (fun c => is_kv_sep c = false) s.

(** A piece of a pair, empty or not: no separator of pairs, no [=]. *)
Definition piece (s : jsstring) : Prop :=
  Forall (fun c => is_kv_sep c = false /\ c <> 61) s.

(** A text that [/^set\s*:\s*/i] matches as a whole. *)
Definition set_head (h : jsstring) : Prop :=
  exists s a b,
    h = s ++ a ++ 58 :: b /\ full (u "set") s = true
    /\ Forall (fun c => is_space c = true) a
    /\ Forall (fun c => is_space c = true) b.

(** The text is empty or ends with a separator of pairs. *)
Definition sep_last (s : jsstring) : Prop :=
  match last s with Some c => is_kv_sep c = true | None => True end.

(** The text is empty or begins with a separator of pairs. *)
Definition sep_first (s : jsstring) : Prop :=
  match s with c :: _ => is_kv_sep c = true | [] => True end.

(** The pair [t] does not assign the key [k]. *)
Definition leaves_key (lower : jsstring -> jsstring) (k t : jsstring)
  : Prop :=
  forall out, parseKV_step_in lower out t !! k = out !! k.

(** The [meta] column of the conversation [id]. *)
Definition stored_meta (d : database) (id : Z) : option text :=
  r ← conversations d !! id; row_meta r.

(** A conversation of user 1 whose metadata is [{ a: 1 }]. *)
Definition sample_db : database :=
  Database {[ 1%Z := ConvRow 1 (Some FLOW_QG_DONE)
                       (Some (JsonText (VObj {[ u "a" := VNum (Int 1) ]}))) ]}
           [].

(** A server that has started no job, with a half-written progress file. *)
Definition idle_world : world :=
  World sample_db
        {[ u "/srv/progress/0badc0de.json" := Garbage (u "{ stage: ") ]}
        ∅ [].


(** The event is the exit of stage 1 with code 0 for the progress file [p]. *)
Definition stage1_success (p : jsstring) (ev : event) : bool :=
  match ev with
  | W1Exit j code => bool_decide (code = Some 0%Z) && bool_decide (progPath j = p)
  | _ => false
  end.

(** What a start request leaves behind. *)
Inductive start_result (cwd : jsstring) (PYTHON_BIN : value) (uid : Z)
    (conversationId : value) (random : list N) (w : world)
  : outcome response -> world -> Prop :=
| start_refused (status : N) (body : value) :
    status <> 200 ->
    start_result cwd PYTHON_BIN uid conversationId random w
      (Ret (Json status body)) w
| start_thrown (e : jsstring) (d : database) :
    start_result cwd PYTHON_BIN uid conversationId random w (Throw e)
      (World d
         (<[progressFile cwd (VStr (hex random))
            := JSON_stringify initial_record]> (files w))
         (<[registry_key uid conversationId := hex random]> (convJobMap w))
         (trace w ++ [Wrote (progressFile cwd (VStr (hex random))) initial_record]))
| start_launched (d : database) (args : list value) :
    last args = Some (VStr (progressFile cwd (VStr (hex random)))) ->
    start_result cwd PYTHON_BIN uid conversationId random w
      (Ret (Json 200 (VObj (<[u "ok" := VBool true]>
                            (<[u "jobId" := VStr (hex random)]> ∅)))))
      (World d
         (<[progressFile cwd (VStr (hex random))
            := JSON_stringify initial_record]> (files w))
         (<[registry_key uid conversationId := hex random]> (convJobMap w))
         (trace w ++ [Wrote (progressFile cwd (VStr (hex random))) initial_record;
                      Spawned (pyBin PYTHON_BIN)
                        (VStr (u "processor/worker.py") :: args)])).

(** The effects a delivered event adds to the trace. *)
Inductive added (cwd : jsstring) (PYTHON_BIN : value)
  : event -> list effect -> Prop :=
| added_start_none uid c r : added cwd PYTHON_BIN (Start uid c r) []
| added_start_write uid c r :
    added cwd PYTHON_BIN (Start uid c r)
      [Wrote (progressFile cwd (VStr (hex r))) initial_record]
| added_start_launch uid c r args :
    added cwd PYTHON_BIN (Start uid c r)
      [Wrote (progressFile cwd (VStr (hex r))) initial_record;
       Spawned (pyBin PYTHON_BIN) (VStr (u "processor/worker.py") :: args)]
| added_failure ev j diag :
    stage1_failure ev = Some (j, diag) ->
    added cwd PYTHON_BIN ev [Wrote (progPath j) (record (u "error") diag)]
| added_success j args :
    last args = Some (VStr (progPath j)) ->
    added cwd PYTHON_BIN (W1Exit j (Some 0%Z))
      [Wrote (progPath j) (record (u "qa") (u "問題生成: 開始"));
       Spawned (pyBin PYTHON_BIN) (VStr (u "processor/makeQA.py") :: args)]
| added_qa_error j e :
    added cwd PYTHON_BIN (QaError j e) [Wrote (progPath j) (record (u "error") e)]
| added_qa_done j :
    added cwd PYTHON_BIN (QaExit j (Some 0%Z))
      [Wrote (progPath j) (record (u "done") (u "完了"))]
| added_qa_failed j code :
    code <> Some 0%Z ->
    added cwd PYTHON_BIN (QaExit j code)
      [Wrote (progPath j) (record (u "error") (u "qa exit " ++ code_text code))]
| added_stage_wrote p t : added cwd PYTHON_BIN (StageWrote p t) [].

(** User 1 owns conversation 5, whose metadata names an uploaded file. *)
Definition ready_db : database :=
  Database
    {[ 5%Z := ConvRow 1 (Some FLOW_UPLOAD_DOC_CONFIG)
                (Some (JsonText (VObj
                   (<[u "stored_filename"
                      := VStr (u "1_1743498000000_lecture01.mp4")]>
                    (<[u "docTitle" := VStr (u "lecture01.mp4")]>
                     (<[u "courseName" := VStr (u "algebra")]> ∅)))))) ]}
    [].

(** The server after boot: no file, no registry entry, nothing done. *)
Definition ready_world : world := World ready_db ∅ ∅ [].

(** Two results of [crypto.randomBytes(8)]. *)
Definition bytes1 : list N := [1; 35; 69; 103; 137; 171; 205; 239].
Definition bytes2 : list N := [254; 220; 186; 152; 118; 84; 50; 16].

(** The closure of the job the first of them names. *)
Definition job1 : job :=
  Job (u "/srv/progress/0123456789abcdef.json") 1 (VStr (u "algebra"))
      (VStr (u "lecture01.mp4")).

(** Two starts for conversation 5, referred to by the text 05. *)
Definition started_twice : world :=
  run_events (u "/srv") VUndef ready_world
    [Start 1 (VStr (u "05")) bytes1; Start 1 (VStr (u "05")) bytes2].

(* ===================================================================== *)
(** ** The conversation routes and the scenario endpoints *)
(* ===================================================================== *)

(** [deleteConversation] *)
Definition deleteConversation (db : database) (user_id : Z)
    (conversationId : num) : database * bool :=
  match select_conv db user_id conversationId with
  | None => (db, false)
  | Some (id, _) =>
    (Database (delete id (conversations db)) (documents db), true)
  end.

(** [Number.isFinite], on the numbers of this development. *)
Definition isFinite (n : num) : bool :=
  match n with Int _ => true | NaN => false end.

(** [DELETE /api/conversations/:id] for the authenticated user [uid]. *)
Definition conversation_delete (uid : Z) (id : jsstring) : M response :=
  let convId := ToNumber (VStr id) in
  if negb (isFinite convId) then ret (Json 400 (error_body (u "invalid id")))
  else
    d <- read_db ;;
    let '(d', ok) := deleteConversation d uid convId in
    if negb ok then ret (Json 404 (error_body (u "conversation not found")))
    else
      write_db d' ;;;
      ret (Json 200 (VObj {[ u "ok" := VBool true ]})).

(** [Object.fromEntries]: a later entry replaces an earlier one. *)
Definition fromEntries (l : list (jsstring * jsstring))
  : gmap jsstring jsstring :=
  fold_left (fun m kv => <[kv.1 := kv.2]> m) l ∅.

(** The entries of [FE_TO_BE], in the order [Object.entries] lists them:
    the integer keys first. *)
Definition FE_TO_BE_entries : list (jsstring * jsstring) :=
  [(u "1", FLOW_EXISTING_DOC_SELECT);
   (u "2", FLOW_UPLOAD_DOC_WAIT);
   (u "root", ROOT_MENU);
   (u "1-course", u "FLOW_EXISTING_DOC_COURSE");
   (u "1-1", FLOW_EXISTING_DOC_CONFIG);
   (u "2-course", u "FLOW_UPLOAD_DOC_COURSE");
   (u "2-1", FLOW_UPLOAD_DOC_CONFIG);
   (u "2-2", FLOW_QG_DONE);
   (u "2-3", u "FLOW_QG_TOPIC");
   (u "2-4", u "FLOW_QG_MULTI");
   (u "2-5", u "FLOW_QG_RESULTS")].

(** The table [FE_TO_BE], from front-end ids to states. *)
Definition FE_TO_BE : gmap jsstring jsstring := fromEntries FE_TO_BE_entries.

(** [Object.fromEntries(Object.entries(FE_TO_BE).map(([k, v]) => [v, k]))] *)
Definition BE_TO_FE : gmap jsstring jsstring :=
  fromEntries (List.map (fun kv => (kv.2, kv.1)) FE_TO_BE_entries).

(** The names every object literal inherits from [Object.prototype]. *)
Definition prototype_methods : list jsstring :=
  [u "constructor"; u "hasOwnProperty"; u "isPrototypeOf";
   u "propertyIsEnumerable"; u "toLocaleString"; u "toString"; u "valueOf";
   u "__defineGetter__"; u "__defineSetter__"; u "__lookupGetter__";
   u "__lookupSetter__"].

(** What [table[key]] finds. *)
Inductive found : Type :=
| Own (s : jsstring)   (* an entry of the table *)
| Method               (* a function of [Object.prototype] *)
| Proto                (* [Object.prototype] itself, under [__proto__] *)
| Absent.              (* [undefined] *)

Definition table_get (t : gmap jsstring jsstring) (key : jsstring) : found :=
  match t !! key with
  | Some s => Own s
  | None =>
    if bool_decide (key = u "__proto__") then Proto
    else if bool_decide (key ∈ prototype_methods) then Method
    else Absent
  end.

(** [GET /api/scenario] for the authenticated user [uid] and the query
    parameter [conversationId].  A function in the body is written as
    [undefined]: [res.json] leaves out a property that holds either. *)
Definition scenario_get (d : database) (uid : Z) (conversationId : value)
  : response :=
  let convId := ToNumber conversationId in
  if negb (isFinite convId) then
    Json 400 (error_body (u "invalid conversationId"))
  else
    match getConversation d uid convId with
    | None => Json 404 (error_body (u "conversation not found"))
    | Some _ =>
      let '(state, meta) := getConversationState d uid convId in
      let fe :=
        match table_get BE_TO_FE (ToString state) with
        | Own s => or_else (VStr s) (VStr (u "root"))
        | Method => VUndef
        | Proto => VObj ∅
        | Absent => VStr (u "root")
        end in
      Json 200 (VObj (<[u "id" := fe]>
                      (<[u "meta" := or_else meta (VObj ∅)]> ∅)))
    end.

(** [POST /api/scenario] for the authenticated user [uid] and the
    [conversationId], [id] and [metaPatch] of the body.  The statement of
    [setConversationState] binds texts and null only: for a state that is
    a function or an object it throws. *)
Definition scenario_post (uid : Z) (conversationId id metaPatch : value)
  : M response :=
  let convId := ToNumber conversationId in
  if negb (isFinite convId) || negb (truthy id) then
    ret (Json 400 (error_body (u "invalid params")))
  else
    d <- read_db ;;
    match getConversation d uid convId with
    | None => ret (Json 404 (error_body (u "conversation not found")))
    | Some _ =>
      let current := getConversationState d uid convId in
      let mergedMeta :=
        merge_meta (props (or_else (snd current) (VObj ∅)))
                   (props (or_else metaPatch (VObj ∅))) in
      let store (nextState : value) : M response :=
        write_db (fst (setConversationState d uid convId
                         (as_column nextState) (Some mergedMeta))) ;;;
        ret (Json 204 VUndef) in
      match table_get FE_TO_BE (ToString id) with
      | Own s => store (or_else (VStr s) (VStr ROOT_MENU))
      | Absent => store (VStr ROOT_MENU)
      | Method => throw (u "TypeError")
      | Proto => throw (u "RangeError")
      end
    end.

(* ===================================================================== *)
(** ** The documents of a user and the upload route *)
(* ===================================================================== *)

(** Sorting: a row is put in front of the first row that does not come
    strictly before it, so rows that compare equal keep their order. *)
Fixpoint insert_by (before : doc_row -> doc_row -> bool) (r : doc_row)
    (l : list doc_row) : list doc_row :=
  match l with
  | [] => [r]
  | x :: l' => if before x r then x :: insert_by before r l' else r :: l
  end.

(** The rows in the order of [before]. *)
Definition sort_by (before : doc_row -> doc_row -> bool) (l : list doc_row)
  : list doc_row :=
  fold_right (insert_by before) [] l.

(** [ORDER BY id DESC] *)
Definition id_desc (a b : doc_row) : bool := (doc_id b <? doc_id a)%Z.

(** [(a, b) => a.id - b.id] *)
Definition id_asc (a b : doc_row) : bool := (doc_id a <? doc_id b)%Z.

(** [WHERE user_id = ?] *)
Definition of_user (user_id : Z) (r : doc_row) : bool :=
  bool_decide (doc_user r = user_id).

(** [listDocumentsAll] *)
Definition listDocumentsAll (d : database) (user_id : Z) : list doc_row :=
  sort_by id_desc (List.filter (of_user user_id) (documents d)).

(** [listDocuments], for a limit that is a count. *)
Definition listDocuments (d : database) (user_id : Z) (limit : nat)
  : list doc_row :=
  take limit (listDocumentsAll d user_id).

(** [insertDocument]; [id] is the row id the table assigns. *)
Definition insertDocument (id user_id : Z)
    (title stored_filename original_name : jsstring) : M doc_row :=
  fun w =>
    let row := DocRow id user_id title stored_filename original_name in
    (Ret row,
     World (Database (conversations (db w)) (documents (db w) ++ [row]))
           (files w) (convJobMap w) (trace w)).

(** The row is not the one [DELETE FROM documents WHERE id = ? AND
    user_id = ?] removes. *)
Definition survives (id user_id : Z) (r : doc_row) : bool :=
  negb (bool_decide (doc_id r = id) && bool_decide (doc_user r = user_id)).

(** [stmt.run(row.id, user_id)] *)
Definition delete_document (id user_id : Z) : M unit :=
  fun w =>
    (Ret tt,
     World (Database (conversations (db w))
                     (List.filter (survives id user_id) (documents (db w))))
           (files w) (convJobMap w) (trace w)).

(** [try { m } catch {}] *)
Definition try_catch (m : M unit) : M unit :=
  fun w =>
    match m w with
    | (Ret _, w') => (Ret tt, w')
    | (Throw _, w') => (Ret tt, w')
    end.

(** [for (const x of l) { f(x) }] *)
Fixpoint for_each {A} (l : list A) (f : A -> M unit) : M unit :=
  match l with
  | [] => ret tt
  | x :: r => f x ;;; for_each r f
  end.

(** [deleteOldDocumentsKeepLatest], for a count [keep]. *)
Definition deleteOldDocumentsKeepLatest (user_id : Z) (keep : nat)
    (onBeforeDelete : option (doc_row -> M unit)) : M (list doc_row) :=
  d <- read_db ;;
  let all := listDocumentsAll d user_id in
  if (length all <=? keep)%nat then ret []
  else
    let toDelete := take (length all - keep) (sort_by id_asc all) in
    for_each toDelete
      (fun row =>
         match onBeforeDelete with
         | Some f => try_catch (f row)
         | None => ret tt
         end ;;;
         delete_document (doc_id row) user_id) ;;;
    ret toDelete.

Section Uploads.

Variable cwd : jsstring.

(** The callback of the upload route: [if (fs.existsSync(fp))
    fs.unlinkSync(fp)] for the stored file of the row. *)
Definition unlink_upload (row : doc_row) : M unit :=
  fun w =>
    (Ret tt,
     World (db w)
           (delete (path_join (UPLOAD_DIR cwd) (doc_stored_filename row))
                   (files w))
           (convJobMap w) (trace w)).

(** [{ id: o.id, name: o.title }] *)
Definition deleted_entry (o : doc_row) : value :=
  VObj (<[u "id" := VNum (Int (doc_id o))]>
        (<[u "name" := VStr (doc_title o)]> ∅)).

(** [POST /api/upload] for the authenticated user [uid]: [file] holds the
    original name and the stored name of the uploaded file, [id] is the
    row id the table assigns.  The statements of the database succeed, so
    the handler does not reach its [catch]. *)
Definition upload (uid id : Z) (file : option (jsstring * jsstring))
  : M response :=
  match file with
  | None => ret (Json 400 (error_body (u "file は必須です。")))
  | Some (originalname, filename) =>
    doc <- insertDocument id uid originalname filename originalname ;;
    overflow <- deleteOldDocumentsKeepLatest uid 10 (Some unlink_upload) ;;
    ret (Json 200
           (VObj (<[u "ok" := VBool true]>
                  (<[u "doc" :=
                       VObj (<[u "id" := VNum (Int (doc_id doc))]>
                             (<[u "name" := VStr (doc_title doc)]>
                              (<[u "stored_filename"
                                 := VStr (doc_stored_filename doc)]> ∅)))]>
                   (<[u "deleted" := VArr (List.map deleted_entry overflow)]>
                    ∅)))))
  end.

End Uploads.

(** [GET /api/materials]: [{ id: r.id, name: r.title || r.original_name ||
    `doc-${r.id}` }] for the ten latest documents. *)
Definition material (r : doc_row) : value :=
  VObj (<[u "id" := VNum (Int (doc_id r))]>
        (<[u "name" :=
             or_else (or_else (VStr (doc_title r)) (VStr (doc_original_name r)))
                     (VStr (u "doc-" ++ Z_to_js (doc_id r)))]> ∅)).

(** [res.json(rows.map(...))] for [listDocuments(req.user.id, 10)]. *)
Definition materials (d : database) (uid : Z) : response :=
  Json 200 (VArr (List.map material (listDocuments d uid 10))).

(* ===================================================================== *)
(** ** Names of files *)
(* ===================================================================== *)

(** [[^\w.\-()+\s]]: the characters [sanitizeName] replaces. *)
Definition name_char (c : N) : bool :=
  is_word c || (c =? 46) || (c =? 45) || (c =? 40) || (c =? 41) || (c =? 43)
  || is_space c.

(** [function sanitizeName(name) { return name.replace(/[^\w.\-()+\s]/g, "_"); }] *)
Definition sanitizeName (name : jsstring) : jsstring :=
  List.map (fun c => if name_char c then c else 95) name.

(* ===================================================================== *)
(** ** Further vocabulary of the properties *)
(* ===================================================================== *)

(** The dialog states other than the root menu. *)
Definition inner_states : list jsstring :=
  [FLOW_EXISTING_DOC_SELECT; FLOW_EXISTING_DOC_CONFIG; FLOW_UPLOAD_DOC_WAIT;
   FLOW_UPLOAD_DOC_CONFIG; FLOW_QG_DONE].

(** The state the back command of a state leads to. *)
Definition predecessor (state : jsstring) (meta : gmap jsstring value)
  : jsstring :=
  if bool_decide (state = FLOW_EXISTING_DOC_SELECT) then ROOT_MENU
  else if bool_decide (state = FLOW_EXISTING_DOC_CONFIG) then FLOW_EXISTING_DOC_SELECT
  else if bool_decide (state = FLOW_UPLOAD_DOC_WAIT) then ROOT_MENU
  else if bool_decide (state = FLOW_UPLOAD_DOC_CONFIG) then FLOW_UPLOAD_DOC_WAIT
  else done_back_target meta.

(** The states a rule of a state can lead to. *)
Definition successors (state : value) : list jsstring :=
  if state_is state FLOW_EXISTING_DOC_SELECT then
    [ROOT_MENU; FLOW_EXISTING_DOC_SELECT; FLOW_EXISTING_DOC_CONFIG]
  else if state_is state FLOW_EXISTING_DOC_CONFIG then
    [ROOT_MENU; FLOW_EXISTING_DOC_SELECT; FLOW_EXISTING_DOC_CONFIG; FLOW_QG_DONE]
  else if state_is state FLOW_UPLOAD_DOC_WAIT then
    [ROOT_MENU; FLOW_UPLOAD_DOC_WAIT; FLOW_UPLOAD_DOC_CONFIG]
  else if state_is state FLOW_UPLOAD_DOC_CONFIG then
    [ROOT_MENU; FLOW_UPLOAD_DOC_WAIT; FLOW_UPLOAD_DOC_CONFIG; FLOW_QG_DONE]
  else if state_is state FLOW_QG_DONE then
    [ROOT_MENU; FLOW_EXISTING_DOC_CONFIG; FLOW_UPLOAD_DOC_CONFIG]
  else [ROOT_MENU; FLOW_EXISTING_DOC_SELECT; FLOW_UPLOAD_DOC_WAIT].

(** The patches of the engine. *)
Inductive patch_shape (now : jsstring) : gmap jsstring value -> Prop :=
| patch_choice (tag : jsstring) :
    tag = u "1-1" \/ tag = u "1-2" ->
    patch_shape now {[ u "lastChoice" := VStr tag ]}
| patch_doc (n : num) : patch_shape now {[ u "docId" := VNum n ]}
| patch_config (q : num) (d t : value) :
    patch_shape now
      {[ u "config" := VObj (<[u "questions" := VNum q]>
                             (<[u "difficulty" := d]> (<[u "type" := t]> ∅))) ]}
| patch_run : patch_shape now {[ u "lastRunAt" := VStr now ]}.

(** The settings the engine prints have a text form. *)
Definition settings_print (meta : gmap jsstring value) : Prop :=
  let current := or_else (prop meta (u "config")) default_config in
  converts (get current (u "questions")) = true
  /\ converts (get current (u "difficulty")) = true
  /\ converts (get current (u "type")) = true.

(** The text holds no [=]. *)
Definition no_eq (s : jsstring) : Prop := Forall (fun c => c <> 61) s.

(** An entry of a parsed command: the key is [lower k] for a [k] that is
    not empty and holds no [=] and no separator of pairs, the value is not
    empty and holds none either, and the key is not [__proto__]. *)
Definition entry_ok (lower : jsstring -> jsstring) (key v : jsstring)
  : Prop :=
  (exists k, key = lower k /\ k <> [] /\ piece k)
  /\ v <> [] /\ piece v /\ key <> u "__proto__".

(** Every entry of the mapping is one. *)
Definition entries_ok (lower : jsstring -> jsstring)
    (out : gmap jsstring jsstring) : Prop :=
  forall k v, out !! k = Some v -> entry_ok lower k v.

(** The conversation [id] belongs to [owner]. *)
Definition owned_by (d : database) (id owner : Z) : Prop :=
  exists row, conversations d !! id = Some row /\ row_user row = owner.

(** What a stored state reads back as. *)
Definition state_value (state : option jsstring) : value :=
  match state with
  | Some s => or_else (VStr s) VNull
  | None => VNull
  end.

(** A server whose database holds one conversation, of user 1. *)
Definition sample_world : world := World sample_db ∅ ∅ [].

(** [{ ...(current.meta || {}), ...(metaPatch || {}) }] for the stored
    conversation [id]. *)
Definition scenario_meta (d : database) (uid id : Z) (metaPatch : value)
  : gmap jsstring value :=
  merge_meta (props (or_else (snd (getConversationState d uid (Int id))) (VObj ∅)))
             (props (or_else metaPatch (VObj ∅))).

(** The body of the answer of [GET /api/scenario]. *)
Definition scenario_body (fe : jsstring) (meta : value) : value :=
  VObj (<[u "id" := VStr fe]> (<[u "meta" := meta]> ∅)).

(** The server after a state and a metadata are stored for [id]. *)
Definition stored (w : world) (uid id : Z) (state : jsstring)
    (meta : gmap jsstring value) : world :=
  World (Database (<[id := ConvRow uid (Some state)
                             (Some (JSON_stringify (VObj meta)))]>
                     (conversations (db w))) (documents (db w)))
        (files w) (convJobMap w) (trace w).

(** The ids of the table are a key. *)
Definition ids_unique (d : database) : Prop :=
  NoDup (List.map doc_id (documents d)).

(** The rows are in strictly descending order of id. *)
Definition descending (l : list doc_row) : Prop :=
  StronglySorted (fun a b => (doc_id b < doc_id a)%Z) l.

(** The row survives the deletion of every row of [D]. *)
Definition kept (uid : Z) (D : list doc_row) (r : doc_row) : bool :=
  forallb (fun row => survives (doc_id row) uid r) D.

(** The callback, if there is one, leaves the database alone. *)
Definition quiet (cb : option (doc_row -> M unit)) : Prop :=
  forall f, cb = Some f -> forall row w, db (snd (f row w)) = db w.

(** The body of the loop of [deleteOldDocumentsKeepLatest]. *)
Definition loop_body (uid : Z) (cb : option (doc_row -> M unit))
    (row : doc_row) : M unit :=
  match cb with
  | Some f => try_catch (f row)
  | None => ret tt
  end ;;;
  delete_document (doc_id row) uid.

(** Four uploads: three of user 1, one of user 2. *)
Definition sample_docs : list doc_row :=
  [DocRow 1 1 (u "a.mp4") (u "1_1_a.mp4") (u "a.mp4");
   DocRow 2 2 (u "b.mp4") (u "2_2_b.mp4") (u "b.mp4");
   DocRow 3 1 (u "c.mp4") (u "1_3_c.mp4") (u "c.mp4");
   DocRow 4 1 (u "d.mp4") (u "1_4_d.mp4") (u "d.mp4")].

(** A server with these documents and the stored file of the first. *)
Definition docs_world : world :=
  World (Database ∅ sample_docs)
        {[ u "/srv/uploads/1_1_a.mp4" := Garbage (u "video") ]} ∅ [].

(** The path of the stored file of a row. *)
Definition stored_path (cwd : jsstring) (row : doc_row) : jsstring :=
  path_join (UPLOAD_DIR cwd) (doc_stored_filename row).

(** The row an upload inserts. *)
Definition uploaded_row (id uid : Z) (originalname filename : jsstring)
  : doc_row :=
  DocRow id uid originalname filename originalname.

(** The answer of a successful upload. *)
Definition upload_body (doc : doc_row) (overflow : list doc_row) : value :=
  VObj (<[u "ok" := VBool true]>
        (<[u "doc" :=
             VObj (<[u "id" := VNum (Int (doc_id doc))]>
                   (<[u "name" := VStr (doc_title doc)]>
                    (<[u "stored_filename" := VStr (doc_stored_filename doc)]>
                     ∅)))]>
         (<[u "deleted" := VArr (List.map deleted_entry overflow)]> ∅))).

(** The id is larger than every id of the table, as the table assigns it. *)
Definition fresh_id (d : database) (id : Z) : Prop :=
  Forall (fun r => (doc_id r < id)%Z) (documents d).

(** The files after the stored files of the rows [D] are unlinked. *)
Definition unlink_all (cwd : jsstring) (D : list doc_row)
    (fs : gmap jsstring text) : gmap jsstring text :=
  fold_left (fun fs row => delete (stored_path cwd row) fs) D fs.

(** The step of [latest_document]. *)
Definition pick (user_id : Z) (best : option doc_row) (d : doc_row)
  : option doc_row :=
  if bool_decide (doc_user d = user_id) then
    match best with
    | Some b => if (doc_id b <? doc_id d)%Z then Some d else best
    | None => Some d
    end
  else best.

(** [m] is the row of [l] with the largest id. *)
Definition largest (l : list doc_row) (m : option doc_row) : Prop :=
  match m with
  | None => l = []
  | Some r => In r l /\ Forall (fun y => (doc_id y <= doc_id r)%Z) l
  end.

(** The progress file an event writes, if it writes one. *)
Definition target (cwd : jsstring) (ev : event) : jsstring :=
  match ev with
  | Start _ _ r => progressFile cwd (VStr (hex r))
  | W1Error j _ | W1Exit j _ | QaError j _ | QaExit j _ => progPath j
  | StageWrote p _ => p
  end.


(** The poll of the front end: by the decimal text of the conversation. *)
Definition poll (cwd : jsstring) (uid n : Z) (w : world) : outcome response :=
  process_progress cwd uid VUndef (VStr (Z_to_js n)) w.

(** The job a start request launches with the bytes [random]. *)
Definition job_of (cwd : jsstring) (random : list N) (j : job) : Prop :=
  progPath j = progressFile cwd (VStr (hex random)).

(** [latest.original_name || latest.title || stored] *)
Definition fallback_name (latest : doc_row) : value :=
  or_else (or_else (VStr (doc_original_name latest)) (VStr (doc_title latest)))
          (VStr (doc_stored_filename latest)).

(** The metadata of the conversation [id], or [{}]. *)
Definition meta_or_empty (d : database) (uid id : Z) : value :=
  or_else (snd (getConversationState d uid (Int id))) (VObj ∅).

(** The arguments of stage 1. *)
Definition worker_args (cwd : jsstring) (uid : Z)
    (courseName videoName : value) (videoPath progPath : jsstring)
  : list value :=
  [VStr (u "processor/worker.py");
   VStr (u "--db"); VStr (path_join cwd (u "chat.sqlite3"));
   VStr (u "--user-id"); VStr (Z_to_js uid);
   VStr (u "--course"); courseName;
   VStr (u "--video-name"); videoName;
   VStr (u "--video-path"); VStr videoPath;
   VStr (u "--progress"); VStr progPath].

(** User 1 owns conversation 1, whose metadata names no file, and has
    uploaded documents 1, 3 and 4. *)
Definition fallback_world : world :=
  World (Database (conversations sample_db) sample_docs) ∅ ∅ [].

(** The server after boot and a scenario request of user 1 that patches
    the metadata of conversation 5 with a course name that holds a NUL,
    [{ "courseName": "a\u0000b" }] in the body. *)
Definition nul_world : world :=
  snd (scenario_post 1 (VNum (Int 5)) (VStr (u "2-1"))
         (VObj {[ u "courseName" := VStr [97; 0; 98] ]}) ready_world).

(** A start request for that conversation. *)
Definition nul_start : outcome response * world :=
  process_start (u "/srv") VUndef 1 (VNum (Int 5)) bytes1 nul_world.

(** A segment of a path that [path.join] appends as it is: not empty, not
    [.] or [..], without a separator. *)
Definition segment (s : jsstring) : Prop :=
  s <> [] /\ s <> u "." /\ s <> u ".." /\ Forall (fun c => c <> 47) s.

(** What [path.join(d, s)] puts in front of a segment [s]. *)
Definition path_prefix (d : jsstring) : jsstring :=
  match d with
  | [] => []
  | c :: _ =>
    (if c =? 47 then [47] else [])
    ++ match fold_left (path_step (negb (c =? 47))) (split_char 47 d) [] with
       | [] => []
       | st => join_with 47 st ++ [47]
       end
  end.

(** [0-9a-f] *)
Definition is_hex (c : N) : bool :=
  is_digit c || ((97 <=? c) && (c <=? 102)).

(** The bytes of a buffer. *)
Definition bytes (l : list N) : Prop := Forall (fun b => b < 256) l.

(** The name the materials list shows for a row. *)
Definition material_name (r : doc_row) : value := get (material r) (u "name").

(* ===================================================================== *)
(** ** Properties of the dialog engine *)
(* ===================================================================== *)

#[local] Arguments u : simpl never.

Lemma state_is_other (state : value) (name : jsstring) :
  state <> VStr name -> state_is state name = false.
Proof.
  intros Hne. destruct state; simpl; try reflexivity.
  apply bool_decide_eq_false. congruence.
Qed.

Lemma state_is_refl (name : jsstring) : state_is (VStr name) name = true.
Proof. simpl. apply bool_decide_eq_true. reflexivity. Qed.

(** C10: a state that is none of the six dialog states, null and undefined
    included, is handled by the rules of the root menu. *)
Theorem unknown_state_is_root_menu (now text : jsstring) (state : value)
    (meta : gmap jsstring value) :
  Forall (fun s => state <> VStr s) dialog_states ->
  matchRuleIntent now text state meta
  = matchRuleIntent now text (VStr ROOT_MENU) meta.
Proof.
  intros Hout. unfold dialog_states in Hout.
  repeat (apply Forall_cons_1 in Hout; destruct Hout as [? Hout]).
  unfold matchRuleIntent.
  rewrite !state_is_other by assumption.
  rewrite state_is_refl. reflexivity.
Qed.

Lemma unknown_state_is_root_menu_witness :
  matchRuleIntent (u "2025-04-01T09:00:00.000Z") (u "1-1")
    (VStr (u "FLOW_QG_TOPIC")) ∅
  = matchRuleIntent (u "2025-04-01T09:00:00.000Z") (u "1-1")
      (VStr ROOT_MENU) ∅
  /\ matchRuleIntent (u "2025-04-01T09:00:00.000Z") (u "help") VNull ∅
     = matchRuleIntent (u "2025-04-01T09:00:00.000Z") (u "help")
         (VStr ROOT_MENU) ∅.
Proof.
  split; apply unknown_state_is_root_menu;
    repeat constructor; vm_compute; discriminate.
Defined.

Lemma unstamped_run_rule (now1 now2 : jsstring) (meta : gmap jsstring value) :
  unstamped (run_rule now1 meta) = unstamped (run_rule now2 meta).
Proof.
  unfold run_rule, unstamped. cbn [fmap option_fmap option_map reply newState metaPatch].
  rewrite !delete_singleton_eq. reflexivity.
Qed.

Lemma stamp_run_rule (now : jsstring) (meta : gmap jsstring value) :
  stamp (run_rule now meta) = Some (VStr now).
Proof.
  unfold run_rule, stamp. cbn [mbind option_bind metaPatch].
  apply lookup_singleton_eq.
Qed.

Lemma stamp_set_rule (s : gmap jsstring jsstring) (meta : gmap jsstring value)
    (stay : jsstring) :
  stamp (set_rule s meta stay) = None.
Proof.
  unfold set_rule, stamp. cbn [mbind option_bind metaPatch].
  apply lookup_singleton_ne. vm_compute. discriminate.
Qed.

Lemma stamp_root_menu (t : jsstring) : stamp (root_menu t) = None.
Proof.
  unfold root_menu, stamp.
  repeat case_match; cbn [mbind option_bind metaPatch]; try reflexivity;
    apply lookup_singleton_ne; vm_compute; discriminate.
Qed.

Lemma stamp_no_patch (r s : jsstring) : stamp (Some (Intent r s None)) = None.
Proof. reflexivity. Qed.

Lemma stamp_other_patch (r s k : jsstring) (v : value) :
  k <> u "lastRunAt" -> stamp (Some (Intent r s (Some {[ k := v ]}))) = None.
Proof.
  intros Hk. unfold stamp. cbn [mbind option_bind metaPatch].
  apply lookup_singleton_ne. exact Hk.
Qed.

(** One leaf of the case analysis of [matchRuleIntent]. *)
Ltac clock_leaf :=
  lazymatch goal with
  | |- unstamped (run_rule _ _) = unstamped (run_rule _ _) =>
    apply unstamped_run_rule
  | |- unstamped ?x = unstamped ?x => exact eq_refl
  | |- stamp (run_rule _ _) = None \/ _ => right; apply stamp_run_rule
  | |- stamp (root_menu _) = None \/ _ => left; apply stamp_root_menu
  | |- stamp (set_rule _ _ _) = None \/ _ => left; apply stamp_set_rule
  | |- stamp go_home = None \/ _ => left; apply stamp_no_patch
  | |- stamp (Some (Intent _ _ None)) = None \/ _ => left; apply stamp_no_patch
  | |- stamp (Some (Intent _ _ (Some _))) = None \/ _ =>
    left; apply stamp_other_patch; vm_compute; discriminate
  | |- stamp None = None \/ _ => left; exact eq_refl
  end.

(** C1 (as amended): the reply, the next state and the patch apart from its
    time stamp are a function of the text, the state and the metadata alone;
    the time stamp of a patch, where there is one, is the reading of the
    clock at the call. *)
Theorem matchRuleIntent_clock (now1 now2 text : jsstring) (state : value)
    (meta : gmap jsstring value) :
  unstamped (matchRuleIntent now1 text state meta)
  = unstamped (matchRuleIntent now2 text state meta)
  /\ (stamp (matchRuleIntent now1 text state meta) = None
      \/ stamp (matchRuleIntent now1 text state meta) = Some (VStr now1)).
Proof.
  unfold matchRuleIntent.
  repeat match goal with
         | |- context [if ?b then _ else _] => destruct b
         | |- context [match ?o with Some _ => _ | None => _ end] => destruct o
         end.
  all: split.
  all: clock_leaf.
Qed.

(** C1, the claim as stated: two calls with the same three arguments return
    different patches when the clock has moved between them. *)
Lemma matchRuleIntent_not_deterministic :
  stamp (matchRuleIntent (u "2025-04-01T09:00:00.000Z") (u "run")
           (VStr FLOW_EXISTING_DOC_CONFIG) ∅)
  = Some (VStr (u "2025-04-01T09:00:00.000Z"))
  /\ stamp (matchRuleIntent (u "2025-04-01T09:00:01.000Z") (u "run")
              (VStr FLOW_EXISTING_DOC_CONFIG) ∅)
     = Some (VStr (u "2025-04-01T09:00:01.000Z"))
  /\ matchRuleIntent (u "2025-04-01T09:00:00.000Z") (u "run")
       (VStr FLOW_EXISTING_DOC_CONFIG) ∅
     <> matchRuleIntent (u "2025-04-01T09:00:01.000Z") (u "run")
          (VStr FLOW_EXISTING_DOC_CONFIG) ∅.
Proof.
  split; [vm_compute; reflexivity|].
  split; [vm_compute; reflexivity|].
  intros H. apply (f_equal stamp) in H. vm_compute in H. discriminate.
Qed.

Lemma state_is_distinct (a b : jsstring) : a <> b -> state_is (VStr a) b = false.
Proof. intros Hne. apply state_is_other. congruence. Qed.

Lemma lit_canon (p s r : jsstring) :
  lit p s = Some r -> List.map canon s = List.map canon p ++ List.map canon r.
Proof.
  revert s. induction p as [|a p IH]; intros s Hlit.
  - simpl in Hlit. injection Hlit as ->. reflexivity.
  - destruct s as [|c s]; simpl in Hlit; [discriminate|].
    destruct (canon a =? canon c) eqn:Hac; [|discriminate].
    apply N.eqb_eq in Hac. simpl. rewrite Hac. f_equal. apply IH. exact Hlit.
Qed.

Lemma full_canon (p s : jsstring) :
  full p s = true -> List.map canon s = List.map canon p.
Proof.
  unfold full. destruct (lit p s) as [[|c r]|] eqn:Hlit; try discriminate.
  intros _. apply lit_canon in Hlit. rewrite Hlit. apply app_nil_r.
Qed.

(** The patterns of [back] and [home] accept no common text. *)
Lemma back_not_home (t : jsstring) : back t = true -> home t = false.
Proof.
  unfold back, home. intros Hb.
  apply orb_true_iff in Hb.
  apply orb_false_iff.
  split.
  - destruct (full (u "home") t) eqn:Hh; [exfalso|reflexivity].
    apply full_canon in Hh.
    destruct Hb as [Hb|Hb]; apply full_canon in Hb; rewrite Hb in Hh;
      vm_compute in Hh; discriminate.
  - destruct (full (u "メニュー") t) eqn:Hh; [exfalso|reflexivity].
    apply full_canon in Hh.
    destruct Hb as [Hb|Hb]; apply full_canon in Hb; rewrite Hb in Hh;
      vm_compute in Hh; discriminate.
Qed.

Lemma done_back_target_spec (meta : gmap jsstring value) :
  (done_back_target meta = FLOW_EXISTING_DOC_CONFIG
   <-> meta !! u "lastChoice" = Some (VStr (u "1-1")))
  /\ (meta !! u "lastChoice" <> Some (VStr (u "1-1"))
      -> done_back_target meta = FLOW_UPLOAD_DOC_CONFIG).
Proof.
  assert (Hne : FLOW_UPLOAD_DOC_CONFIG <> FLOW_EXISTING_DOC_CONFIG)
    by (vm_compute; discriminate).
  unfold done_back_target, prop.
  destruct (meta !! u "lastChoice") as [v|]; cbn [default id].
  - destruct v as [| |b|n|s|l|m];
      try (split; [split; [intros E; exfalso; exact (Hne E)|discriminate]
                  |intros _; exact eq_refl]).
    destruct (bool_decide (s = u "1-1")) eqn:Hs.
    + apply bool_decide_eq_true in Hs. subst s.
      split; [split; intros _; exact eq_refl|].
      intros Hc. exfalso. apply Hc. exact eq_refl.
    + apply bool_decide_eq_false in Hs.
      split; [|intros _; exact eq_refl].
      split; [intros E; exfalso; exact (Hne E)|].
      intros E. exfalso. apply Hs. congruence.
  - split; [split; [intros E; exfalso; exact (Hne E)|discriminate]
           |intros _; exact eq_refl].
Qed.

(** C9: in [FLOW_QG_DONE] the back command goes to the config state of the
    existing-document branch exactly when the recorded branch tag is "1-1",
    and to the config state of the upload branch for every other tag, an
    absent one included. *)
Theorem back_from_done (now text : jsstring) (meta : gmap jsstring value) :
  back (trim text) = true ->
  exists r,
    matchRuleIntent now text (VStr FLOW_QG_DONE) meta = Some r
    /\ reply r = u "設定に戻ります。"
    /\ metaPatch r = None
    /\ (newState r = FLOW_EXISTING_DOC_CONFIG
        <-> meta !! u "lastChoice" = Some (VStr (u "1-1")))
    /\ (meta !! u "lastChoice" <> Some (VStr (u "1-1"))
        -> newState r = FLOW_UPLOAD_DOC_CONFIG).
Proof.
  intros Hback.
  unfold matchRuleIntent.
  rewrite !(state_is_distinct FLOW_QG_DONE) by (vm_compute; discriminate).
  rewrite state_is_refl, (back_not_home _ Hback), Hback.
  eexists. split; [exact eq_refl|].
  cbn [reply metaPatch newState].
  split; [exact eq_refl|]. split; [exact eq_refl|].
  apply done_back_target_spec.
Qed.

Lemma back_from_done_witness :
  exists r,
    matchRuleIntent (u "2025-04-01T09:00:00.000Z") (u " BACK ")
      (VStr FLOW_QG_DONE) {[ u "lastChoice" := VStr (u "1-1") ]} = Some r
    /\ newState r = FLOW_EXISTING_DOC_CONFIG.
Proof.
  destruct (back_from_done (u "2025-04-01T09:00:00.000Z") (u " BACK ")
              {[ u "lastChoice" := VStr (u "1-1") ]})
    as (r & Hr & _ & _ & Hiff & _).
  - vm_compute. reflexivity.
  - exists r. split; [exact Hr|]. apply Hiff. apply lookup_singleton_eq.
Defined.

Lemma set_rule_fresh (s : gmap jsstring jsstring) (meta : gmap jsstring value)
    (stay : jsstring) :
  truthy (prop meta (u "config")) = false ->
  exists r, set_rule s meta stay = Some r
            /\ newState r = stay
            /\ metaPatch r = Some {[ u "config" := merged_config s (VObj ∅) ]}.
Proof.
  intros Hfalsy. unfold set_rule, or_else. rewrite Hfalsy.
  eexists. split; [exact eq_refl|]. split; exact eq_refl.
Qed.

Lemma set_rule_over (s : gmap jsstring jsstring) (meta : gmap jsstring value)
    (stay : jsstring) (prev : value) :
  meta !! u "config" = Some prev -> truthy prev = true ->
  exists r, set_rule s meta stay = Some r
            /\ newState r = stay
            /\ metaPatch r = Some {[ u "config" := merged_config s prev ]}.
Proof.
  intros Hc Ht. unfold set_rule, or_else, prop. rewrite Hc. cbn [default id].
  rewrite Ht.
  eexists. split; [exact eq_refl|]. split; exact eq_refl.
Qed.

(** In a config state a [set:] command that is neither home nor back is
    answered by the set rule. *)
Lemma config_state_set (now text state : jsstring) (meta : gmap jsstring value)
    (s : gmap jsstring jsstring) :
  state = FLOW_EXISTING_DOC_CONFIG \/ state = FLOW_UPLOAD_DOC_CONFIG ->
  home (trim text) = false -> back (trim text) = false ->
  setCmd (trim text) = Some s ->
  matchRuleIntent now text (VStr state) meta = set_rule s meta state.
Proof.
  intros [-> | ->] Hh Hb Hs; unfold matchRuleIntent.
  - rewrite !(state_is_distinct FLOW_EXISTING_DOC_CONFIG)
      by (vm_compute; discriminate).
    rewrite state_is_refl, Hh, Hb, Hs. reflexivity.
  - rewrite !(state_is_distinct FLOW_UPLOAD_DOC_CONFIG)
      by (vm_compute; discriminate).
    rewrite state_is_refl, Hh, Hb, Hs. reflexivity.
Qed.

(** C5: in a config state with no prior config, "set: questions=20,
    difficulty=hard" and then, on the merged metadata, "set: difficulty=easy"
    yield the configuration questions 20, difficulty easy, type mcq. *)
Theorem set_twice_merges (now1 now2 state : jsstring)
    (meta : gmap jsstring value) :
  state = FLOW_EXISTING_DOC_CONFIG \/ state = FLOW_UPLOAD_DOC_CONFIG ->
  truthy (prop meta (u "config")) = false ->
  exists r1 p1 r2,
    matchRuleIntent now1 (u "set: questions=20, difficulty=hard") (VStr state)
      meta = Some r1
    /\ newState r1 = state
    /\ metaPatch r1 = Some p1
    /\ matchRuleIntent now2 (u "set: difficulty=easy") (VStr state)
         (merge_meta meta p1) = Some r2
    /\ newState r2 = state
    /\ metaPatch r2
       = Some {[ u "config" := config_object 20 (u "easy") (u "mcq") ]}.
Proof.
  intros Hstate Hfresh.
  destruct (set_rule_fresh (parseKV (u "set: questions=20, difficulty=hard"))
              meta state Hfresh) as (r1 & Hr1 & Hs1 & Hp1).
  assert (Hc1 : merged_config (parseKV (u "set: questions=20, difficulty=hard"))
                  (VObj ∅)
                = config_object 20 (u "hard") (u "mcq"))
    by (vm_compute; reflexivity).
  rewrite Hc1 in Hp1.
  set (p1 := ({[ u "config" := config_object 20 (u "hard") (u "mcq") ]}
              : gmap jsstring value)) in *.
  assert (Hlook : merge_meta meta p1 !! u "config"
                  = Some (config_object 20 (u "hard") (u "mcq"))).
  { unfold merge_meta, p1.
    apply lookup_union_Some_l. apply lookup_singleton_eq. }
  destruct (set_rule_over (parseKV (u "set: difficulty=easy"))
              (merge_meta meta p1) state _ Hlook eq_refl)
    as (r2 & Hr2 & Hs2 & Hp2).
  assert (Hc2 : merged_config (parseKV (u "set: difficulty=easy"))
                  (config_object 20 (u "hard") (u "mcq"))
                = config_object 20 (u "easy") (u "mcq"))
    by (vm_compute; reflexivity).
  rewrite Hc2 in Hp2.
  exists r1, p1, r2.
  split.
  { rewrite <- Hr1. apply config_state_set; [exact Hstate| | |];
      vm_compute; reflexivity. }
  split; [exact Hs1|]. split; [exact Hp1|].
  split.
  { rewrite <- Hr2. apply config_state_set; [exact Hstate| | |];
      vm_compute; reflexivity. }
  split; [exact Hs2|exact Hp2].
Qed.

Lemma set_twice_merges_witness :
  exists r1 p1 r2,
    matchRuleIntent (u "2025-04-01T09:00:00.000Z")
      (u "set: questions=20, difficulty=hard") (VStr FLOW_UPLOAD_DOC_CONFIG)
      {[ u "docId" := VNum (Int 201) ]} = Some r1
    /\ newState r1 = FLOW_UPLOAD_DOC_CONFIG
    /\ metaPatch r1 = Some p1
    /\ matchRuleIntent (u "2025-04-01T09:00:05.000Z") (u "set: difficulty=easy")
         (VStr FLOW_UPLOAD_DOC_CONFIG)
         (merge_meta {[ u "docId" := VNum (Int 201) ]} p1) = Some r2
    /\ newState r2 = FLOW_UPLOAD_DOC_CONFIG
    /\ metaPatch r2
       = Some {[ u "config" := config_object 20 (u "easy") (u "mcq") ]}.
Proof.
  apply set_twice_merges.
  - right. reflexivity.
  - vm_compute. reflexivity.
Defined.

(* ===================================================================== *)
(** ** Properties of the set-command parser *)
(* ===================================================================== *)

Lemma kv_sep_space (c : N) : is_kv_sep c = false -> is_space c = false.
Proof. unfold is_kv_sep. intros H. apply orb_false_iff in H. tauto. Qed.

Lemma space_kv_sep (c : N) : is_space c = true -> is_kv_sep c = true.
Proof. unfold is_kv_sep. intros ->. apply orb_true_r. Qed.

Lemma piece_unbroken (s : jsstring) : piece s -> unbroken s.
Proof. intros H. eapply Forall_impl; [exact H|]. simpl. tauto. Qed.

Lemma piece_no_eq (s : jsstring) : piece s -> Forall (fun c => c <> 61) s.
Proof. intros H. eapply Forall_impl; [exact H|]. simpl. tauto. Qed.

Lemma trim_start_head (c : N) (s : jsstring) :
  is_space c = false -> trim_start (c :: s) = c :: s.
Proof. intros H. simpl. rewrite H. reflexivity. Qed.

Lemma trim_start_unbroken (s : jsstring) : unbroken s -> trim_start s = s.
Proof.
  intros H. destruct H as [|c s Hc _]; [reflexivity|].
  apply trim_start_head, kv_sep_space, Hc.
Qed.

Lemma trim_unbroken (s : jsstring) : unbroken s -> trim s = s.
Proof.
  intros H. unfold trim. rewrite (trim_start_unbroken s H).
  rewrite trim_start_unbroken; [apply rev_involutive|].
  unfold unbroken. apply Forall_rev. exact H.
Qed.

Lemma trim_start_spaces (a s : jsstring) :
  Forall (fun c => is_space c = true) a -> trim_start (a ++ s) = trim_start s.
Proof.
  induction 1 as [|c a Hc _ IH]; [reflexivity|].
  cbn [app trim_start]. rewrite Hc. exact IH.
Qed.

Lemma split_char_app (d : N) (a b : jsstring) :
  Forall (fun c => c <> d) a ->
  split_char d (a ++ d :: b) = a :: split_char d b.
Proof.
  induction 1 as [|c a Hc Ha IH]; simpl.
  - rewrite N.eqb_refl. reflexivity.
  - apply N.eqb_neq in Hc. rewrite Hc, IH. reflexivity.
Qed.

Lemma split_char_plain (d : N) (s : jsstring) :
  Forall (fun c => c <> d) s -> split_char d s = [s].
Proof.
  induction 1 as [|c s Hc _ IH]; [reflexivity|].
  cbn [split_char]. apply N.eqb_neq in Hc. rewrite Hc, IH. reflexivity.
Qed.

Lemma and_trim_piece (s : jsstring) : piece s -> and_trim s = s.
Proof.
  intros Hs. destruct s as [|c s]; [reflexivity|].
  unfold and_trim. apply trim_unbroken, piece_unbroken, Hs.
Qed.

Lemma js_set_other (k k' v : jsstring) (out : gmap jsstring jsstring) :
  k' <> k -> js_set k' v out !! k = out !! k.
Proof.
  intros Hne. unfold js_set. destruct (bool_decide (k' = u "__proto__")).
  - reflexivity.
  - apply lookup_insert_ne. exact Hne.
Qed.

(** *** The pairs of a command *)

Lemma split_runs_nonnil (s : jsstring) : forall b,
  split_runs is_kv_sep b s <> [].
Proof.
  induction s as [|c s IH]; intros b; cbn [split_runs]; [discriminate|].
  destruct (is_kv_sep c).
  - destruct b; [apply IH|discriminate].
  - destruct (split_runs is_kv_sep false s); discriminate.
Qed.

Lemma split_runs_unbroken (s : jsstring) : forall b,
  Forall unbroken (split_runs is_kv_sep b s).
Proof.
  induction s as [|c s IH]; intros b; cbn [split_runs];
    [repeat constructor|].
  destruct (is_kv_sep c) eqn:Hc.
  - destruct b; [apply IH|constructor; [constructor|apply IH]].
  - specialize (IH false).
    destruct (split_runs is_kv_sep false s) as [|p ps];
      [repeat constructor; exact Hc|].
    apply Forall_cons_1 in IH. destruct IH as [Hp Hps].
    constructor; [constructor; assumption|exact Hps].
Qed.

Lemma split_runs_token (t s : jsstring) :
  t <> [] -> unbroken t ->
  split_runs is_kv_sep false (t ++ s)
  = match split_runs is_kv_sep false s with
    | p :: ps => (t ++ p) :: ps
    | [] => [t]
    end.
Proof.
  intros Hne Hu. induction Hu as [|c t Hc Ht IH]; [congruence|].
  cbn [app split_runs]. rewrite Hc.
  destruct t as [|c' t'].
  - cbn [app]. destruct (split_runs is_kv_sep false s); reflexivity.
  - rewrite IH by discriminate.
    destruct (split_runs is_kv_sep false s); reflexivity.
Qed.

(** A text that ends with a separator ends with an empty piece. *)
Lemma split_runs_length (a : jsstring) (c : N) : forall b : bool,
  is_kv_sep c = true ->
  ((if b then 1 else 2) <= length (split_runs is_kv_sep b (a ++ [c])))%nat.
Proof.
  induction a as [|d a IH]; intros b Hc; cbn [app split_runs].
  - rewrite Hc. destruct b; cbn [split_runs length]; lia.
  - destruct (is_kv_sep d).
    + specialize (IH true Hc). cbv iota in IH. destruct b; cbn [length]; lia.
    + specialize (IH false Hc). cbv iota in IH.
      destruct (split_runs is_kv_sep false (a ++ [c])) as [|p ps];
        cbn [length] in *; destruct b; lia.
Qed.

Lemma split_runs_cut (a : jsstring) (c : N) (x : jsstring) : forall b,
  is_kv_sep c = true ->
  split_runs is_kv_sep b (a ++ c :: x)
  = removelast (split_runs is_kv_sep b (a ++ [c]))
    ++ split_runs is_kv_sep true x.
Proof.
  induction a as [|d a IH]; intros b Hc; cbn [app split_runs].
  - rewrite Hc. destruct b; reflexivity.
  - destruct (is_kv_sep d).
    + destruct b; [apply IH, Hc|]. rewrite (IH true Hc).
      pose proof (split_runs_nonnil (a ++ [c]) true) as Hne.
      destruct (split_runs is_kv_sep true (a ++ [c])); [congruence|].
      reflexivity.
    + rewrite (IH false Hc).
      pose proof (split_runs_length a c false Hc) as Hlen.
      destruct (split_runs is_kv_sep false (a ++ [c])) as [|p [|q ps]];
        cbn [length] in Hlen; [lia|lia|]. reflexivity.
Qed.

Lemma kvs_runs (s : jsstring) :
  kvs s = List.filter nonempty (split_runs is_kv_sep false s).
Proof.
  unfold kvs. pose proof (split_runs_unbroken s false) as H.
  induction H as [|p ps Hp _ IH]; [reflexivity|].
  cbn [List.map List.filter]. rewrite (trim_unbroken p Hp), IH. reflexivity.
Qed.

Lemma runs_sep (c : N) (r : jsstring) (b : bool) :
  is_kv_sep c = true ->
  List.filter nonempty (split_runs is_kv_sep b (c :: r))
  = List.filter nonempty (split_runs is_kv_sep true r).
Proof. intros Hc. cbn [split_runs]. rewrite Hc. destruct b; reflexivity. Qed.

Lemma runs_flag (s : jsstring) :
  List.filter nonempty (split_runs is_kv_sep true s)
  = List.filter nonempty (split_runs is_kv_sep false s).
Proof.
  destruct s as [|c r]; [reflexivity|]. destruct (is_kv_sep c) eqn:Hc.
  - rewrite !runs_sep by exact Hc. reflexivity.
  - cbn [split_runs]. rewrite Hc. reflexivity.
Qed.

Lemma kvs_sep (c : N) (r : jsstring) :
  is_kv_sep c = true -> kvs (c :: r) = kvs r.
Proof.
  intros Hc. rewrite !kvs_runs, (runs_sep c r false Hc). apply runs_flag.
Qed.

Lemma kvs_trim_start (s : jsstring) : kvs (trim_start s) = kvs s.
Proof.
  induction s as [|c s IH]; [reflexivity|]. cbn [trim_start].
  destruct (is_space c) eqn:Hc; [|reflexivity].
  rewrite IH. symmetry. apply kvs_sep, space_kv_sep, Hc.
Qed.

(** The pairs before a separator and the pairs after it. *)
Lemma kvs_before (before x : jsstring) :
  sep_last before -> kvs (before ++ x) = kvs before ++ kvs x.
Proof.
  unfold sep_last.
  destruct before as [|c a _] using rev_ind; [reflexivity|].
  rewrite last_snoc. intros Hc.
  rewrite <- app_assoc. cbn [app]. rewrite !kvs_runs.
  rewrite (split_runs_cut a c x false Hc).
  pose proof (split_runs_cut a c [] false Hc) as H0. cbn [split_runs] in H0.
  remember (removelast (split_runs is_kv_sep false (a ++ [c]))) as L.
  rewrite H0, !List.filter_app, runs_flag. cbn [List.filter nonempty].
  rewrite app_nil_r. reflexivity.
Qed.

(** A pair in front of a separator or at the end. *)
Lemma kvs_pair (t after : jsstring) :
  t <> [] -> unbroken t -> sep_first after ->
  kvs (t ++ after) = t :: kvs after.
Proof.
  intros Hne Hu Hafter. rewrite !kvs_runs, (split_runs_token t after Hne Hu).
  assert (Ht : nonempty t = true) by (destruct t; [congruence|reflexivity]).
  destruct after as [|c r].
  - cbn [split_runs List.filter]. rewrite app_nil_r, Ht. reflexivity.
  - cbn [sep_first] in Hafter. cbn [split_runs]. rewrite Hafter.
    cbn [List.filter]. rewrite app_nil_r, Ht. reflexivity.
Qed.

Lemma lit_app (p s r x : jsstring) :
  lit p s = Some r -> lit p (s ++ x) = Some (r ++ x).
Proof.
  revert s. induction p as [|a p IH]; intros s H.
  - cbn [lit] in H |- *. injection H as <-. reflexivity.
  - destruct s as [|c s]; cbn [lit app] in H |- *; [discriminate|].
    destruct (canon a =? canon c); [apply IH, H|discriminate].
Qed.

(** What [replace] removes from a command with a head. *)
Lemma strip_set_head (h body : jsstring) :
  set_head h -> strip_set (h ++ body) = trim_start body.
Proof.
  intros (s & a & b & -> & Hs & Ha & Hb). unfold strip_set, full in *.
  destruct (lit (u "set") s) as [[|c r]|] eqn:E; try discriminate.
  rewrite <- !app_assoc. rewrite (lit_app _ _ _ _ E).
  cbn [mbind option_bind app]. rewrite (trim_start_spaces a _ Ha).
  cbn [app]. rewrite trim_start_head by reflexivity.
  change (u ":") with [58]. cbn [lit]. rewrite N.eqb_refl.
  apply trim_start_spaces, Hb.
Qed.

Lemma parseKV_lower (command : jsstring) :
  parseKV command = parseKV_in toLowerCase command.
Proof. reflexivity. Qed.

Section Pairs.

Variable lower : jsstring -> jsstring.

Lemma parseKV_in_head (h body : jsstring) :
  set_head h ->
  parseKV_in lower (h ++ body) = fold_left (parseKV_step_in lower) (kvs body) ∅.
Proof.
  intros Hh. unfold parseKV_in.
  rewrite (strip_set_head h body Hh), kvs_trim_start. reflexivity.
Qed.

(** The loop body on a pair [k=v=rest]: the value is the piece between the
    first and the second [=]. *)
Lemma parseKV_step_in_pair (out : gmap jsstring jsstring)
    (k v rest : jsstring) :
  piece k -> piece v ->
  parseKV_step_in lower out (k ++ 61 :: v ++ 61 :: rest)
  = if nonempty k && nonempty v then js_set (lower k) v out else out.
Proof.
  intros Hk Hv. unfold parseKV_step_in.
  rewrite (split_char_app 61 k) by (apply piece_no_eq, Hk).
  rewrite (split_char_app 61 v) by (apply piece_no_eq, Hv).
  cbn [List.map]. rewrite (and_trim_piece k Hk), (and_trim_piece v Hv).
  reflexivity.
Qed.

(** The loop body on a pair [k=v]. *)
Lemma parseKV_step_in_simple (out : gmap jsstring jsstring) (k v : jsstring) :
  piece k -> piece v ->
  parseKV_step_in lower out (k ++ 61 :: v)
  = if nonempty k && nonempty v then js_set (lower k) v out else out.
Proof.
  intros Hk Hv. unfold parseKV_step_in.
  rewrite (split_char_app 61 k) by (apply piece_no_eq, Hk).
  rewrite (split_char_plain 61 v) by (apply piece_no_eq, Hv).
  cbn [List.map]. rewrite (and_trim_piece k Hk), (and_trim_piece v Hv).
  reflexivity.
Qed.

Lemma fold_leaves_key (k : jsstring) (l : list jsstring) :
  Forall (leaves_key lower k) l ->
  forall out, fold_left (parseKV_step_in lower) l out !! k = out !! k.
Proof.
  induction 1 as [|t l Ht _ IH]; intros out; [reflexivity|].
  cbn [fold_left]. rewrite IH. apply Ht.
Qed.

Lemma pair_unbroken (k v rest : jsstring) :
  piece k -> piece v -> unbroken rest ->
  k ++ 61 :: v ++ 61 :: rest <> [] /\ unbroken (k ++ 61 :: v ++ 61 :: rest).
Proof.
  intros Hk Hv Hrest. split; [destruct k; discriminate|].
  unfold unbroken. apply Forall_app. split; [apply piece_unbroken, Hk|].
  constructor; [reflexivity|]. apply Forall_app.
  split; [apply piece_unbroken, Hv|]. constructor; [reflexivity|exact Hrest].
Qed.

(** C4 (as amended): after the head [set:] the command is split into pairs
    at the runs of commas and white space; a pair is split at every [=] and
    its first two pieces are the key and the value.  For a pair [k=v=rest],
    whose value holds a [=], standing anywhere in a command: the value
    stored is [v], the text between the first and the second [=], under the
    key in lower case, provided the key and [v] are not empty, the key in
    lower case is not [__proto__] and no later pair assigns that key; and a
    pair whose key or [v] is empty, or whose key in lower case is
    [__proto__], stores nothing: the command parses as without it.  The
    lower case is whatever [toLowerCase] of the runtime returns. *)
Theorem parseKV_pair (head before after k v rest : jsstring) :
  set_head head -> sep_last before -> sep_first after ->
  piece k -> piece v -> unbroken rest ->
  (k <> [] -> v <> [] -> lower k <> u "__proto__" ->
   Forall (leaves_key lower (lower k)) (kvs after) ->
   parseKV_in lower
     (head ++ before ++ (k ++ 61 :: v ++ 61 :: rest) ++ after) !! lower k
   = Some v)
  /\ (k = [] \/ v = [] \/ lower k = u "__proto__" ->
      parseKV_in lower
        (head ++ before ++ (k ++ 61 :: v ++ 61 :: rest) ++ after)
      = parseKV_in lower (head ++ before ++ after)).
Proof.
  intros Hhead Hbefore Hafter Hk Hv Hrest.
  destruct (pair_unbroken k v rest Hk Hv Hrest) as [Hne Hu].
  rewrite !(parseKV_in_head head _ Hhead), !(kvs_before before _ Hbefore).
  rewrite (kvs_pair _ after Hne Hu Hafter), !fold_left_app.
  cbn [fold_left]. rewrite (parseKV_step_in_pair _ k v rest Hk Hv).
  split.
  - intros Hk0 Hv0 Hproto Hleave. rewrite (fold_leaves_key _ _ Hleave).
    destruct k; [congruence|]. destruct v; [congruence|].
    cbn [nonempty andb]. unfold js_set.
    rewrite bool_decide_eq_false_2 by exact Hproto. apply lookup_insert_eq.
  - intros [->|[->|Hproto]].
    + reflexivity.
    + rewrite andb_false_r. reflexivity.
    + unfold js_set. rewrite bool_decide_eq_true_2 by exact Hproto.
      destruct (nonempty k && nonempty v); reflexivity.
Qed.

End Pairs.

Ltac piece_text :=
  repeat (constructor; [split; [reflexivity|discriminate]|]); constructor.

Lemma parseKV_pair_witness :
  parseKV_in toLowerCase
    (u "Set : " ++ u "questions=20,  "
     ++ (u "Difficulty" ++ 61 :: u "hard" ++ 61 :: u "x=y") ++ u " , type=tf,")
    !! toLowerCase (u "Difficulty")
  = Some (u "hard")
  /\ parseKV_in toLowerCase
       (u "set:" ++ u "b=1 " ++ (u "a" ++ 61 :: [] ++ 61 :: u "c") ++ [])
     = parseKV_in toLowerCase (u "set:" ++ u "b=1 " ++ []).
Proof.
  split.
  - refine (proj1 (parseKV_pair toLowerCase (u "Set : ") (u "questions=20,  ")
                     (u " , type=tf,") (u "Difficulty") (u "hard") (u "x=y")
                     _ _ _ _ _ _) _ _ _ _).
    + exists (u "Set"), (u " "), (u " ").
      vm_compute. repeat split; repeat constructor.
    + vm_compute. reflexivity.
    + vm_compute. reflexivity.
    + vm_compute. piece_text.
    + vm_compute. piece_text.
    + vm_compute. repeat constructor.
    + vm_compute. discriminate.
    + vm_compute. discriminate.
    + vm_compute. discriminate.
    + assert (Hkvs : kvs (u " , type=tf,") = [u "type" ++ 61 :: u "tf"])
        by (vm_compute; reflexivity).
      rewrite Hkvs. constructor; [|constructor]. intros out.
      rewrite parseKV_step_in_simple by (vm_compute; piece_text).
      change (nonempty (u "type") && nonempty (u "tf")) with true.
      cbv iota. apply js_set_other. vm_compute. discriminate.
  - refine (proj2 (parseKV_pair toLowerCase (u "set:") (u "b=1 ") []
                     (u "a") [] (u "c") _ _ _ _ _ _) _).
    + exists (u "set"), [], [].
      vm_compute. repeat split; repeat constructor.
    + vm_compute. reflexivity.
    + exact I.
    + vm_compute. piece_text.
    + constructor.
    + vm_compute. repeat constructor.
    + right. left. reflexivity.
Defined.

(** C4, the claim as stated: for "a=b=c" the parsed value is "b", not the
    remainder "b=c" after the first [=]. *)
Lemma parseKV_drops_remainder :
  parseKV (u "set: a=b=c") !! u "a" = Some (u "b")
  /\ u "b" <> u "b=c".
Proof. split; [vm_compute; reflexivity|vm_compute; discriminate]. Qed.

(* ===================================================================== *)
(** ** Properties of the state store *)
(* ===================================================================== *)

Lemma select_conv_found (d : database) (uid id : Z) (row : conv_row) :
  conversations d !! id = Some row -> row_user row = uid ->
  select_conv d uid (Int id) = Some (id, row).
Proof.
  intros Hrow Hu. unfold select_conv. rewrite Hrow.
  rewrite bool_decide_eq_true_2 by exact Hu. reflexivity.
Qed.

Lemma setConversationState_meta (d : database) (uid id : Z) (row : conv_row)
    (state : option jsstring) (P : gmap jsstring value) :
  conversations d !! id = Some row -> row_user row = uid ->
  setConversationState d uid (Int id) state (Some P)
  = (Database (<[id := ConvRow uid state (Some (JSON_stringify (VObj P)))]>
                 (conversations d)) (documents d), true).
Proof.
  intros Hrow Hu. unfold setConversationState.
  rewrite (select_conv_found d uid id row Hrow Hu).
  cbn [fmap option_fmap option_map]. rewrite Hu. reflexivity.
Qed.

Lemma merge_meta_lookup (M P : gmap jsstring value) (k : jsstring) :
  merge_meta M P !! k = match P !! k with Some v => Some v | None => M !! k end.
Proof.
  unfold merge_meta. destruct (P !! k) as [v|] eqn:HP.
  - apply lookup_union_Some_l. exact HP.
  - apply lookup_union_r. exact HP.
Qed.

(** C2 (as amended): [setConversationState] stores the supplied mapping as
    the whole metadata, and keeps the stored metadata when it is given
    null; the shallow merge is made by its callers, the chat handler
    passing [{ ...M, ...patch }], in which a key of the patch has the value
    of the patch and every other key of [M] keeps its value. *)
Theorem setConversationState_replaces (now : jsstring) (d : database)
    (uid id : Z) (row : conv_row) (M P : gmap jsstring value)
    (state : option jsstring) (userMessage : jsstring) (hit : intent) :
  conversations d !! id = Some row -> row_user row = uid ->
  row_meta row = Some (JsonText (VObj M)) ->
  matchRuleIntent now userMessage
    (or_else (fst (getConversationState d uid (Int id))) (VStr ROOT_MENU)) M
  = Some hit ->
  stored_meta (fst (setConversationState d uid (Int id) state (Some P))) id
  = Some (JSON_stringify (VObj P))
  /\ stored_meta (fst (setConversationState d uid (Int id) state None)) id
     = Some (JsonText (VObj M))
  /\ stored_meta (fst (chat_rule now d uid id userMessage)) id
     = Some (JSON_stringify (VObj (merge_meta M (default ∅ (metaPatch hit)))))
  /\ forall k, merge_meta M P !! k
               = match P !! k with Some v => Some v | None => M !! k end.
Proof.
  intros Hrow Hu HM Hhit.
  split; [|split; [|split]].
  - rewrite (setConversationState_meta d uid id row state P Hrow Hu).
    unfold stored_meta. cbn [fst conversations].
    rewrite lookup_insert_eq. reflexivity.
  - unfold setConversationState.
    rewrite (select_conv_found d uid id row Hrow Hu).
    unfold stored_meta. cbn [fst conversations fmap option_fmap option_map].
    rewrite lookup_insert_eq. exact HM.
  - unfold chat_rule.
    assert (Hget : snd (getConversationState d uid (Int id)) = VObj M).
    { unfold getConversationState.
      rewrite (select_conv_found d uid id row Hrow Hu). rewrite HM.
      reflexivity. }
    destruct (getConversationState d uid (Int id)) as [st meta] eqn:Hst.
    cbn [fst snd] in Hhit, Hget. subst meta.
    change (or_else (VObj M) (VObj ∅)) with (VObj M).
    change (props (VObj M)) with M.
    rewrite Hhit.
    cbn [fst].
    rewrite (setConversationState_meta d uid id row _ _ Hrow Hu).
    unfold stored_meta. cbn [fst conversations].
    rewrite lookup_insert_eq. reflexivity.
  - intros k. apply merge_meta_lookup.
Qed.

Lemma setConversationState_replaces_witness :
  stored_meta (fst (setConversationState sample_db 1 (Int 1)
                      (Some ROOT_MENU) (Some {[ u "b" := VNum (Int 2) ]}))) 1
  = Some (JSON_stringify (VObj {[ u "b" := VNum (Int 2) ]}))
  /\ stored_meta (fst (chat_rule (u "2025-04-01T09:00:00.000Z") sample_db 1 1
                         (u "home"))) 1
     = Some (JSON_stringify (VObj (merge_meta {[ u "a" := VNum (Int 1) ]} ∅))).
Proof.
  destruct (setConversationState_replaces (u "2025-04-01T09:00:00.000Z")
              sample_db 1 1
              (ConvRow 1 (Some FLOW_QG_DONE)
                 (Some (JsonText (VObj {[ u "a" := VNum (Int 1) ]}))))
              {[ u "a" := VNum (Int 1) ]} {[ u "b" := VNum (Int 2) ]}
              (Some ROOT_MENU) (u "home")
              (Intent (u "メニューに戻ります。") ROOT_MENU None))
    as (H1 & _ & H3 & _).
  - vm_compute. reflexivity.
  - reflexivity.
  - reflexivity.
  - vm_compute. reflexivity.
  - split; [exact H1|exact H3].
Defined.

(** C2, the claim as stated: after the call with [{ b: 2 }] the key [a] of
    the stored metadata [{ a: 1 }] is gone. *)
Lemma setConversationState_drops_keys :
  get (snd (getConversationState sample_db 1 (Int 1))) (u "a") = VNum (Int 1)
  /\ get (snd (getConversationState
                 (fst (setConversationState sample_db 1 (Int 1)
                         (Some FLOW_QG_DONE) (Some {[ u "b" := VNum (Int 2) ]})))
                 1 (Int 1))) (u "a") = VUndef
  /\ get (snd (getConversationState
                 (fst (setConversationState sample_db 1 (Int 1)
                         (Some FLOW_QG_DONE) (Some {[ u "b" := VNum (Int 2) ]})))
                 1 (Int 1))) (u "b") = VNum (Int 2).
Proof. repeat split; vm_compute; reflexivity. Qed.

(* ===================================================================== *)
(** ** Properties of the progress endpoint *)
(* ===================================================================== *)





(* ===================================================================== *)
(** ** Properties of the orchestrator *)
(* ===================================================================== *)

(** The progress endpoint, in terms of the job it resolves. *)
Ltac unfold_progress :=
  unfold process_progress, progress_at;
  cbn [converts truthy negb andb]; rewrite ?andb_false_r;
  repeat match goal with
         | |- context [resolved_job_at ?w ?q ?c
                         (registry_key ?i (VNum (ToNumber ?c)))] =>
           change (resolved_job_at w q c (registry_key i (VNum (ToNumber c))))
             with (resolved_job w i q c)
         end.

Lemma process_start_result (cwd : jsstring) (PYTHON_BIN : value) (uid : Z)
    (c : value) (random : list N) (w : world) :
  start_result cwd PYTHON_BIN uid c random w
    (fst (process_start cwd PYTHON_BIN uid c random w))
    (snd (process_start cwd PYTHON_BIN uid c random w)).
Proof.
  cbv beta iota zeta delta [process_start bind read_db ret throw writeFileSync
    convJobMap_set spawn launch path_join_value write_db].
  destruct (getConversation (db w) uid (ToNumber c)) as [conv|].
  2:{ cbn [fst snd]. apply start_refused. discriminate. }
  set (meta := or_else (snd (getConversationState (db w) uid (ToNumber c)))
                       (VObj ∅)).
  destruct (truthy (get meta (u "stored_filename"))).
  - destruct (get meta (u "stored_filename")) as [| |b|n|s|l|m].
    all: cbn [fst snd db files convJobMap trace].
    all: try apply start_thrown.
    destruct (spawn_rejects _ _); cbn [fst snd db files convJobMap trace].
    + apply start_thrown.
    + rewrite <- app_assoc. apply start_launched. reflexivity.
  - destruct (latest_document (db w) uid) as [latest|].
    2:{ cbn [fst snd]. apply start_refused. discriminate. }
    cbn [fst snd db files convJobMap trace].
    destruct (spawn_rejects _ _); cbn [fst snd db files convJobMap trace].
    + apply start_thrown.
    + rewrite <- app_assoc. apply start_launched. reflexivity.
Qed.

Lemma stage_of_record (s m : jsstring) : stage_of (record s m) = VStr s.
Proof. unfold stage_of, record, get, prop. rewrite lookup_insert_eq. reflexivity. Qed.

Lemma deliver_added cwd PB w ev :
  exists delta, added cwd PB ev delta
                /\ trace (deliver cwd PB w ev) = trace w ++ delta.
Proof.
  destruct ev as [uid c r|j e|j code|j e|j code|p t]; cbn [deliver].
  - pose proof (process_start_result cwd PB uid c r w) as H.
    destruct (process_start cwd PB uid c r w) as [o w']. cbn [fst snd] in *.
    inversion H; subst.
    + exists []. split; [constructor|]. symmetry. apply app_nil_r.
    + eexists. split; [apply added_start_write|]. reflexivity.
    + eexists. split; [apply added_start_launch|]. reflexivity.
  - eexists. split; [apply (added_failure _ _ _ j e); reflexivity|]. reflexivity.
  - unfold w1_on_exit. destruct (bool_decide (code = Some 0%Z)) eqn:Hc.
    + apply bool_decide_eq_true in Hc. subst code.
      eexists. split; [apply added_success|].
      2:{ cbv beta iota zeta delta [bind writeFileSync launch].
          cbn [snd trace]. rewrite <- app_assoc. reflexivity. }
      reflexivity.
    + eexists. split.
      * apply (added_failure _ _ _ j). cbn [stage1_failure]. rewrite Hc. reflexivity.
      * reflexivity.
  - eexists. split; [apply added_qa_error|]. reflexivity.
  - unfold qa_on_exit. destruct (bool_decide (code = Some 0%Z)) eqn:Hc.
    + apply bool_decide_eq_true in Hc. subst code.
      eexists. split; [apply added_qa_done|]. reflexivity.
    + apply bool_decide_eq_false in Hc.
      eexists. split; [apply added_qa_failed; exact Hc|]. reflexivity.
  - exists []. split; [constructor|]. symmetry. apply app_nil_r.
Qed.

Lemma record_within (p s m : jsstring) (l : list jsstring) :
  In s l -> stages_within l [Wrote p (record s m)].
Proof.
  intros Hin. constructor; [|constructor].
  exists s. split; [apply stage_of_record|exact Hin].
Qed.

Lemma added_stages cwd PB ev delta :
  added cwd PB ev delta -> stages_within written_stages delta.
Proof.
  unfold written_stages.
  destruct 1; try (apply record_within; simpl; tauto); try constructor.
  - exists (u "analysis"). split; [apply stage_of_record|simpl; tauto].
  - constructor; [exact I|constructor].
  - exists (u "qa"). split; [apply stage_of_record|simpl; tauto].
  - constructor; [exact I|constructor].
Qed.

Lemma not_stage2_record (p p' s m : jsstring) :
  s <> u "qa" -> s <> u "generation" ->
  writes_stage2 p (Wrote p' (record s m)) = false.
Proof.
  intros H1 H2. unfold writes_stage2. rewrite stage_of_record.
  rewrite (bool_decide_eq_false_2 _ H1), (bool_decide_eq_false_2 _ H2).
  apply andb_false_r.
Qed.

Lemma added_stage2_free cwd PB ev delta p :
  added cwd PB ev delta -> stage1_success p ev = false -> stage2_free p delta.
Proof.
  destruct 1; intros Hok; unfold stage2_free.
  - constructor.
  - constructor; [|constructor]. split; [reflexivity|].
    apply not_stage2_record; vm_compute; discriminate.
  - constructor; [|constructor; [|constructor]].
    + split; [reflexivity|]. apply not_stage2_record; vm_compute; discriminate.
    + split; [|reflexivity]. cbn [launches_stage2].
      rewrite bool_decide_eq_false_2 by (vm_compute; discriminate). reflexivity.
  - constructor; [|constructor]. split; [reflexivity|].
    apply not_stage2_record; vm_compute; discriminate.
  - cbn [stage1_success] in Hok.
    rewrite bool_decide_eq_true_2 in Hok by reflexivity. cbn [andb] in Hok.
    apply bool_decide_eq_false in Hok.
    constructor; [|constructor; [|constructor]].
    + split; [reflexivity|]. unfold writes_stage2.
      rewrite (bool_decide_eq_false_2 _ Hok). reflexivity.
    + split; [|reflexivity]. cbn [launches_stage2]. rewrite H.
      rewrite (bool_decide_eq_false_2 _ Hok). apply andb_false_r.
  - constructor; [|constructor]. split; [reflexivity|].
    apply not_stage2_record; vm_compute; discriminate.
  - constructor; [|constructor]. split; [reflexivity|].
    apply not_stage2_record; vm_compute; discriminate.
  - constructor; [|constructor]. split; [reflexivity|].
    apply not_stage2_record; vm_compute; discriminate.
  - constructor.
Qed.

Lemma run_events_stages cwd PB evs : forall w,
  stages_within written_stages (trace w) ->
  stages_within written_stages (trace (run_events cwd PB w evs)).
Proof.
  induction evs as [|ev evs IH]; intros w Hw; [exact Hw|].
  cbn [run_events fold_left]. apply IH.
  destruct (deliver_added cwd PB w ev) as (delta & Hadd & ->).
  apply Forall_app. split; [exact Hw|]. eapply added_stages, Hadd.
Qed.

Lemma run_events_stage2_free cwd PB p evs : forall w,
  stage2_free p (trace w) ->
  Forall (fun ev => stage1_success p ev = false) evs ->
  stage2_free p (trace (run_events cwd PB w evs)).
Proof.
  induction evs as [|ev evs IH]; intros w Hw Hevs; [exact Hw|].
  apply Forall_cons_1 in Hevs. destruct Hevs as [Hev Hevs].
  cbn [run_events fold_left]. apply IH; [|exact Hevs].
  destruct (deliver_added cwd PB w ev) as (delta & Hadd & ->).
  apply Forall_app. split; [exact Hw|]. eapply added_stage2_free; eassumption.
Qed.

Lemma jsonify_record (s m : jsstring) : jsonify (record s m) = record s m.
Proof.
  unfold record. cbn [jsonify]. f_equal.
Qed.

(** C3 (as amended): the records the orchestrator writes have the stages
    analysis, qa, done and error; a started job first writes the record of
    stage "analysis" and then launches stage 1, and on the success of stage
    1 the record of stage "qa" is written before stage 2 is launched. *)
Theorem orchestrator_records (cwd : jsstring) (PYTHON_BIN : value) (w : world)
    (uid : Z) (conversationId : value) (random : list N) (body : value)
    (w' : world) (j : job) (evs : list event) :
  process_start cwd PYTHON_BIN uid conversationId random w
  = (Ret (Json 200 body), w') ->
  stages_within written_stages (trace w) ->
  (exists args,
      trace w'
      = trace w
        ++ [Wrote (progressFile cwd (VStr (hex random)))
              (record (u "analysis") (u "内容分析処理: OCRを開始"));
            Spawned (pyBin PYTHON_BIN) (VStr (u "processor/worker.py") :: args)])
  /\ (exists args,
         trace (deliver cwd PYTHON_BIN w' (W1Exit j (Some 0%Z)))
         = trace w'
           ++ [Wrote (progPath j) (record (u "qa") (u "問題生成: 開始"));
               Spawned (pyBin PYTHON_BIN)
                 (VStr (u "processor/makeQA.py") :: args)])
  /\ stages_within written_stages (trace (run_events cwd PYTHON_BIN w' evs)).
Proof.
  intros Hstart Hw.
  pose proof (process_start_result cwd PYTHON_BIN uid conversationId random w)
    as Hres.
  rewrite Hstart in Hres. cbn [fst snd] in Hres.
  inversion Hres as [status b Hne | | d args Hlast]; subst; [congruence|].
  split; [exists args; reflexivity|].
  split.
  - eexists. cbv beta iota zeta delta [deliver w1_on_exit bind writeFileSync launch].
    rewrite bool_decide_eq_true_2 by reflexivity.
    cbn [snd trace]. rewrite <- !app_assoc. reflexivity.
  - apply run_events_stages. cbn [trace].
    apply Forall_app. split; [exact Hw|].
    apply (added_stages cwd PYTHON_BIN (Start uid conversationId random)).
    apply added_start_launch.
Qed.

Lemma orchestrator_records_witness :
  (exists args,
      trace (snd (process_start (u "/srv") VUndef 1 (VNum (Int 5)) bytes1
                    ready_world))
      = trace ready_world
        ++ [Wrote (progressFile (u "/srv") (VStr (hex bytes1)))
              (record (u "analysis") (u "内容分析処理: OCRを開始"));
            Spawned (pyBin VUndef) (VStr (u "processor/worker.py") :: args)])
  /\ (exists args,
         trace (deliver (u "/srv") VUndef
                  (snd (process_start (u "/srv") VUndef 1 (VNum (Int 5)) bytes1
                          ready_world))
                  (W1Exit job1 (Some 0%Z)))
         = trace (snd (process_start (u "/srv") VUndef 1 (VNum (Int 5)) bytes1
                         ready_world))
           ++ [Wrote (progPath job1) (record (u "qa") (u "問題生成: 開始"));
               Spawned (pyBin VUndef) (VStr (u "processor/makeQA.py") :: args)])
  /\ stages_within written_stages
       (trace (run_events (u "/srv") VUndef
                 (snd (process_start (u "/srv") VUndef 1 (VNum (Int 5)) bytes1
                         ready_world))
                 [W1Exit job1 (Some 0%Z); QaExit job1 (Some 0%Z)])).
Proof.
  apply (orchestrator_records (u "/srv") VUndef ready_world 1 (VNum (Int 5))
           bytes1
           (VObj (<[u "ok" := VBool true]>
                  (<[u "jobId" := VStr (hex bytes1)]> ∅)))).
  - vm_compute. reflexivity.
  - constructor.
Defined.

(** C3, the claim as stated: the first record of a started job has the stage
    "analysis", which is not among the listed stages, and the record written
    on the success of stage 1 has the stage "qa". *)
Lemma first_record_is_analysis :
  head (trace (snd (process_start (u "/srv") VUndef 1 (VNum (Int 5)) bytes1
                      ready_world)))
  = Some (Wrote (u "/srv/progress/0123456789abcdef.json")
            (record (u "analysis") (u "内容分析処理: OCRを開始")))
  /\ ~ In (u "analysis") listed_stages
  /\ record (u "analysis") (u "内容分析処理: OCRを開始")
     <> record (u "extraction") (u "starting")
  /\ head (trace (deliver (u "/srv") VUndef ready_world
                    (W1Exit job1 (Some 0%Z))))
     = Some (Wrote (u "/srv/progress/0123456789abcdef.json")
               (record (u "qa") (u "問題生成: 開始")))
  /\ ~ In (u "qa") listed_stages.
Proof.
  split; [vm_compute; reflexivity|].
  split; [vm_compute; intuition discriminate|].
  split.
  { intros H. apply (f_equal stage_of) in H. rewrite !stage_of_record in H.
    vm_compute in H. discriminate. }
  split; [vm_compute; reflexivity|].
  vm_compute; intuition discriminate.
Qed.

Lemma stage1_failure_deliver cwd PB w ev j diag :
  stage1_failure ev = Some (j, diag) ->
  deliver cwd PB w ev
  = World (db w)
          (<[progPath j := JSON_stringify (record (u "error") diag)]> (files w))
          (convJobMap w)
          (trace w ++ [Wrote (progPath j) (record (u "error") diag)]).
Proof.
  destruct ev as [uid c r|j' e|j' code|j' e|j' code|p t]; cbn [stage1_failure];
    try discriminate.
  - intros [= -> ->]. reflexivity.
  - destruct (bool_decide (code = Some 0%Z)) eqn:Hc; [discriminate|].
    intros [= -> <-]. cbn [deliver]. unfold w1_on_exit. rewrite Hc. reflexivity.
Qed.

Lemma stage1_failure_not_success (p : jsstring) ev j diag :
  stage1_failure ev = Some (j, diag) -> stage1_success p ev = false.
Proof.
  destruct ev as [uid c r|j' e|j' code|j' e|j' code|p' t]; cbn [stage1_failure];
    try discriminate; try reflexivity.
  cbn [stage1_success]. destruct (bool_decide (code = Some 0%Z)); [discriminate|].
  reflexivity.
Qed.

(** A read by job id returns the document of the file of the job. *)
Lemma process_progress_by_id cwd (w : world) (uid : Z) (jobId : jsstring)
    (t : text) (v : value) :
  jobId <> [] ->
  files w !! progressFile cwd (VStr jobId) = Some t ->
  JSON_parse t = Some v ->
  process_progress cwd uid (VStr jobId) VUndef w = Ret (Json 200 v).
Proof.
  intros Hid Hfile Hparse. unfold_progress.
  assert (Hres : resolved_job w uid (VStr jobId) VUndef = VStr jobId).
  { unfold resolved_job, resolved_job_at. destruct (truthy (VStr jobId)); reflexivity. }
  rewrite Hres.
  assert (Ht : truthy (VStr jobId) = true)
    by (destruct jobId; [congruence|reflexivity]).
  rewrite Ht. cbn [negb converts]. rewrite Hfile, Hparse. reflexivity.
Qed.

(** C6: a launch of stage 1 that fails inside [spawn] is not recorded.  The
    course name of the conversation holds a NUL, which [spawn] refuses by
    throwing: the start request throws after it has written the record of
    stage "analysis" and registered the job, the trace holds that one write
    and no record of stage "error", and the job reads as in analysis, by
    its id and by its conversation. *)
Theorem launch_failure_unrecorded :
  get (meta_or_empty (db nul_world) 1 5) (u "courseName") = VStr [97; 0; 98]
  /\ fst nul_start = Throw (u "TypeError")
  /\ trace (snd nul_start)
     = [Wrote (progressFile (u "/srv") (VStr (hex bytes1))) initial_record]
  /\ convJobMap (snd nul_start) !! u "1:5" = Some (hex bytes1)
  /\ process_progress (u "/srv") 1 (VStr (hex bytes1)) VUndef (snd nul_start)
     = Ret (Json 200 (record (u "analysis") (u "内容分析処理: OCRを開始")))
  /\ poll (u "/srv") 1 5 (snd nul_start)
     = Ret (Json 200 (record (u "analysis") (u "内容分析処理: OCRを開始"))).
Proof. vm_compute. repeat split. Qed.

(** X27: when stage 1 of a job reports its failure, by its error event or
    by an exit with a code other than 0, the orchestrator writes the record
    of stage "error" with the diagnostic, a read of the job's progress
    returns that record, and as long as stage 1 of the job does not also
    exit with code 0 the trace holds no launch of stage 2 and no record of
    the generation stage for the job. *)
Theorem stage1_failure_halts (cwd : jsstring) (PYTHON_BIN : value)
    (w0 : world) (before after : list event) (ev : event) (j : job)
    (diag jobId : jsstring) (uid : Z) :
  stage1_failure ev = Some (j, diag) ->
  stage2_free (progPath j) (trace w0) ->
  Forall (fun e => stage1_success (progPath j) e = false) (before ++ after) ->
  progPath j = progressFile cwd (VStr jobId) -> jobId <> [] ->
  trace (deliver cwd PYTHON_BIN (run_events cwd PYTHON_BIN w0 before) ev)
  = trace (run_events cwd PYTHON_BIN w0 before)
    ++ [Wrote (progPath j) (record (u "error") diag)]
  /\ process_progress cwd uid (VStr jobId) VUndef
       (deliver cwd PYTHON_BIN (run_events cwd PYTHON_BIN w0 before) ev)
     = Ret (Json 200 (record (u "error") diag))
  /\ stage2_free (progPath j)
       (trace (run_events cwd PYTHON_BIN w0 (before ++ ev :: after))).
Proof.
  intros Hfail Hfree Hevs Hpath Hid.
  split; [|split].
  - rewrite (stage1_failure_deliver _ _ _ _ _ _ Hfail). reflexivity.
  - rewrite (stage1_failure_deliver _ _ _ _ _ _ Hfail).
    eapply process_progress_by_id; [exact Hid| |].
    + cbn [files]. rewrite <- Hpath. apply lookup_insert_eq.
    + unfold JSON_stringify. cbn [JSON_parse]. rewrite jsonify_record.
      reflexivity.
  - apply run_events_stage2_free; [exact Hfree|].
    apply Forall_app in Hevs. destruct Hevs as [Hb Ha].
    apply Forall_app. split; [exact Hb|].
    constructor; [|exact Ha].
    eapply stage1_failure_not_success, Hfail.
Qed.

Lemma stage1_failure_halts_witness :
  trace (deliver (u "/srv") VUndef
           (run_events (u "/srv") VUndef ready_world
              [Start 1 (VNum (Int 5)) bytes1])
           (W1Exit job1 (Some 1%Z)))
  = trace (run_events (u "/srv") VUndef ready_world
             [Start 1 (VNum (Int 5)) bytes1])
    ++ [Wrote (progPath job1)
          (record (u "error") (u "worker exit " ++ code_text (Some 1%Z)))]
  /\ process_progress (u "/srv") 1 (VStr (hex bytes1)) VUndef
       (deliver (u "/srv") VUndef
          (run_events (u "/srv") VUndef ready_world
             [Start 1 (VNum (Int 5)) bytes1])
          (W1Exit job1 (Some 1%Z)))
     = Ret (Json 200
              (record (u "error") (u "worker exit " ++ code_text (Some 1%Z))))
  /\ stage2_free (progPath job1)
       (trace (run_events (u "/srv") VUndef ready_world
                 ([Start 1 (VNum (Int 5)) bytes1]
                  ++ W1Exit job1 (Some 1%Z)
                     :: [StageWrote (progPath job1) (Garbage (u "{")); 
                         Start 1 (VNum (Int 5)) bytes2]))).
Proof.
  apply stage1_failure_halts.
  - reflexivity.
  - constructor.
  - repeat constructor.
  - vm_compute. reflexivity.
  - vm_compute. discriminate.
Defined.

(** C8, on the failing input: two jobs are started for conversation 5 with
    the reference "05" in the body; the registry holds the second job under
    the key "1:05", the progress endpoint looks under "1:5" and answers
    with the unknown record for the conversation, while both jobs are still
    read by their ids. *)
Lemma registry_key_not_normalised :
  fst (process_start (u "/srv") VUndef 1 (VStr (u "05")) bytes1 ready_world)
  = Ret (Json 200 (VObj (<[u "ok" := VBool true]>
                         (<[u "jobId" := VStr (u "0123456789abcdef")]> ∅))))
  /\ convJobMap started_twice = {[ u "1:05" := u "fedcba9876543210" ]}
  /\ process_progress (u "/srv") 1 VUndef (VStr (u "05")) started_twice
     = Ret (Json 200 (record (u "unknown") []))
  /\ process_progress (u "/srv") 1 VUndef (VStr (u "5")) started_twice
     = Ret (Json 200 (record (u "unknown") []))
  /\ process_progress (u "/srv") 1 (VStr (u "fedcba9876543210")) VUndef
       started_twice
     = Ret (Json 200 initial_record)
  /\ process_progress (u "/srv") 1 (VStr (u "0123456789abcdef")) VUndef
       started_twice
     = Ret (Json 200 initial_record).
Proof. repeat split; vm_compute; reflexivity. Qed.

(** *** Paths *)

Lemma split_char_nonnil (d : N) (s : jsstring) : split_char d s <> [].
Proof.
  destruct s as [|c s]; cbn [split_char]; [discriminate|].
  destruct (c =? d); [discriminate|].
  destruct (split_char d s); discriminate.
Qed.

Lemma split_char_cat (d : N) (a b : jsstring) :
  split_char d (a ++ d :: b) = split_char d a ++ split_char d b.
Proof.
  induction a as [|c a IH]; cbn [app split_char].
  - rewrite N.eqb_refl. reflexivity.
  - destruct (c =? d); [rewrite IH; reflexivity|].
    rewrite IH. pose proof (split_char_nonnil d a) as Hne.
    destruct (split_char d a) as [|p ps]; [congruence|reflexivity].
Qed.

Lemma join_with_snoc (d : N) (l : list jsstring) (t : jsstring) :
  join_with d (l ++ [t])
  = match l with [] => t | _ => join_with d l ++ d :: t end.
Proof.
  induction l as [|x l IH]; [reflexivity|].
  cbn [app]. destruct l as [|y l]; [reflexivity|].
  cbn [app join_with] in IH |- *. rewrite IH. rewrite <- app_assoc. reflexivity.
Qed.

Lemma path_step_segment (above : bool) (res : list jsstring) (t : jsstring) :
  segment t -> path_step above res t = res ++ [t].
Proof.
  intros (H1 & H2 & H3 & _). unfold path_step.
  rewrite !bool_decide_eq_false_2 by assumption. reflexivity.
Qed.

Lemma last_segment (a t : jsstring) :
  segment t ->
  match last (a ++ t) with Some e => e =? 47 | None => false end = false.
Proof.
  intros (H1 & _ & _ & H4).
  destruct t as [|c t] using rev_ind; [congruence|].
  rewrite app_assoc, last_snoc. apply N.eqb_neq.
  apply Forall_app in H4. destruct H4 as [_ H4].
  apply Forall_cons_1 in H4. tauto.
Qed.

(** [path.join] appends a segment to a prefix that the segment does not
    change. *)
Lemma path_join_segment (d t : jsstring) :
  segment t -> path_join d t = path_prefix d ++ t.
Proof.
  intros Ht. pose proof Ht as (H1 & H2 & H3 & H4).
  unfold path_join, path_prefix.
  destruct t as [|c0 t0] eqn:Et; [congruence|]. rewrite <- Et in *.
  destruct d as [|c d].
  - rewrite Et. unfold normalize. rewrite <- Et.
    assert (Hc : (c0 =? 47) = false).
    { apply N.eqb_neq. rewrite Et in H4. apply Forall_cons_1 in H4. tauto. }
    rewrite Hc. cbn [negb].
    rewrite (split_char_plain 47 t H4). cbn [fold_left].
    rewrite (path_step_segment true [] t Ht). cbn [app join_with].
    pose proof (last_segment [] t Ht) as Hl. cbn [app] in Hl. rewrite Hl.
    rewrite Et. cbn [app]. rewrite app_nil_r. reflexivity.
  - replace (match t with [] => c :: d | _ :: _ => (c :: d) ++ 47 :: t end)
      with ((c :: d) ++ 47 :: t) by (rewrite Et; reflexivity).
    unfold normalize. cbn [app].
    change (c :: d ++ 47 :: t) with ((c :: d) ++ 47 :: t).
    rewrite (split_char_cat 47 (c :: d) t), (split_char_plain 47 t H4).
    rewrite fold_left_app. cbn [fold_left].
    rewrite (path_step_segment _ _ t Ht), join_with_snoc.
    pose proof (last_segment ((c :: d) ++ [47]) t Ht) as Hl.
    rewrite <- app_assoc in Hl. cbn [app] in Hl. cbn [app]. rewrite Hl.
    destruct (fold_left (path_step (negb (c =? 47))) (split_char 47 (c :: d)) [])
      as [|x st].
    + rewrite Et. cbn [app]. rewrite app_nil_r.
      destruct (c =? 47); reflexivity.
    + assert (Hne : join_with 47 (x :: st) ++ 47 :: t <> [])
        by (destruct (join_with 47 (x :: st)); discriminate).
      destruct (join_with 47 (x :: st) ++ 47 :: t) as [|y r] eqn:Ej;
        [congruence|].
      rewrite <- Ej, app_nil_r, <- !app_assoc. reflexivity.
Qed.

Lemma json_segment (a : jsstring) :
  Forall (fun c => c <> 47) a -> segment (a ++ u ".json").
Proof.
  intros Ha. unfold segment. change (u ".json") with [46; 106; 115; 111; 110].
  change (u "..") with [46; 46]. change (u ".") with [46].
  repeat split.
  - destruct a; discriminate.
  - intros H. apply (f_equal (@length N)) in H.
    rewrite length_app in H. cbn in H. lia.
  - intros H. apply (f_equal (@length N)) in H.
    rewrite length_app in H. cbn in H. lia.
  - apply Forall_app. split; [exact Ha|].
    repeat constructor; discriminate.
Qed.

(** The progress file of a job id without a separator. *)
Lemma progressFile_segment cwd (a : jsstring) :
  Forall (fun c => c <> 47) a ->
  progressFile cwd (VStr a) = path_prefix (PROGRESS_DIR cwd) ++ a ++ u ".json".
Proof.
  intros Ha. unfold progressFile. cbn [ToString].
  apply path_join_segment, json_segment, Ha.
Qed.

Lemma progressFile_inj cwd (a b : jsstring) :
  Forall (fun c => c <> 47) a -> Forall (fun c => c <> 47) b ->
  progressFile cwd (VStr a) = progressFile cwd (VStr b) -> a = b.
Proof.
  intros Ha Hb. rewrite (progressFile_segment cwd a Ha),
    (progressFile_segment cwd b Hb). intros H.
  apply app_inv_head in H. apply app_inv_tail in H. exact H.
Qed.

Lemma hex_no_slash (l : list N) : Forall (fun c => c <> 47) (hex l).
Proof.
  induction l as [|b l IH]; [constructor|].
  change (hex (b :: l))
    with (hex_digit (b / 16 mod 16) :: hex_digit (b mod 16) :: hex l).
  assert (H : forall n, hex_digit n <> 47).
  { intros n. unfold hex_digit. destruct (N.ltb_spec n 10); lia. }
  constructor; [apply H|]. constructor; [apply H|exact IH].
Qed.

Lemma resolved_job_by_id (w : world) (uid : Z) (jobId : value) :
  resolved_job w uid jobId VUndef = jobId.
Proof. unfold resolved_job, resolved_job_at. cbn [truthy]. rewrite andb_false_r. reflexivity. Qed.

Lemma resolved_job_by_conversation (w : world) (uid : Z) (c : value) (j : jsstring) :
  truthy c = true ->
  convJobMap w !! registry_key uid (VNum (ToNumber c)) = Some j ->
  resolved_job w uid VUndef c = VStr j.
Proof.
  intros Hc Hj. unfold resolved_job, resolved_job_at. cbn [truthy negb andb].
  rewrite Hc, Hj. reflexivity.
Qed.

(** A second start whose reference renders as the registry key reads. *)
Lemma supersede_registry cwd PB (w w2 : world) (uid : Z) (c c' : value)
    (random : list N) (j1 : jsstring) (body : value) :
  convJobMap w !! registry_key uid c = Some j1 ->
  Forall (fun x => x <> 47) j1 ->
  hex random <> j1 -> hex random <> [] ->
  process_start cwd PB uid c random w = (Ret (Json 200 body), w2) ->
  truthy c' = true -> converts c' = true ->
  registry_key uid (VNum (ToNumber c')) = registry_key uid c ->
  convJobMap w2 = <[registry_key uid c := hex random]> (convJobMap w)
  /\ files w2
     = <[progressFile cwd (VStr (hex random)) := JSON_stringify initial_record]>
         (files w)
  /\ process_progress cwd uid VUndef c' w2 = Ret (Json 200 initial_record)
  /\ process_progress cwd uid (VStr j1) VUndef w2
     = process_progress cwd uid (VStr j1) VUndef w.
Proof.
  intros Hreg Hj1 Hfresh Hne Hstart Hc' Hconv Hkey.
  pose proof (process_start_result cwd PB uid c random w) as Hres.
  rewrite Hstart in Hres. cbn [fst snd] in Hres.
  inversion Hres as [status b Hs | | d args Hlast]; subst; [congruence|].
  split; [reflexivity|]. split; [reflexivity|]. split.
  - unfold_progress. rewrite Hconv, andb_false_r.
    rewrite (resolved_job_by_conversation _ uid c' (hex random) Hc').
    2:{ cbn [convJobMap]. rewrite Hkey. apply lookup_insert_eq. }
    assert (Ht : truthy (VStr (hex random)) = true)
      by (destruct (hex random); [congruence|reflexivity]).
    rewrite Ht. cbn [negb converts files]. rewrite lookup_insert_eq.
    unfold JSON_stringify, initial_record. cbn [JSON_parse].
    rewrite jsonify_record. reflexivity.
  - unfold_progress. rewrite !resolved_job_by_id. cbn [files].
    rewrite lookup_insert_ne; [reflexivity|].
    intros Heq. apply progressFile_inj in Heq;
      [congruence|apply hex_no_slash|exact Hj1].
Qed.

(** *** Decimal text of an integer and back *)

Lemma digit_not_space (c : N) : is_digit c = true -> is_space c = false.
Proof.
  unfold is_digit. intros H. apply andb_true_iff in H. destruct H as [H1 H2].
  apply N.leb_le in H1. apply N.leb_le in H2. unfold is_space.
  repeat (apply orb_false_iff; split); try (apply N.eqb_neq; lia).
  apply andb_false_iff. left. apply N.leb_gt. lia.
Qed.

Lemma trim_no_space (s : jsstring) :
  Forall (fun c => is_space c = false) s -> trim s = s.
Proof.
  intros H. unfold trim.
  assert (Hs : forall t, Forall (fun c => is_space c = false) t -> trim_start t = t).
  { intros t [|c t' Hc _]; [reflexivity|]. apply trim_start_head, Hc. }
  rewrite (Hs s H). rewrite Hs; [apply rev_involutive|]. apply Forall_rev, H.
Qed.

Lemma digits_no_space (s : jsstring) :
  forallb is_digit s = true -> Forall (fun c => is_space c = false) s.
Proof.
  induction s as [|c s IH]; cbn [forallb]; intros H; constructor.
  - apply digit_not_space. apply andb_true_iff in H. tauto.
  - apply IH. apply andb_true_iff in H. tauto.
Qed.

Lemma uint_units_digits (d : Decimal.uint) : forallb is_digit (uint_units d) = true.
Proof. induction d; cbn [uint_units forallb]; try rewrite IHd; reflexivity. Qed.

Lemma uint_units_nonempty (d : Decimal.uint) :
  d <> Decimal.Nil -> nonempty (uint_units d) = true.
Proof. destruct d; [congruence|..]; reflexivity. Qed.

Lemma digits_value_acc (d : Decimal.uint) : forall acc : positive,
  fold_left (fun a c => a * 10 + (c - 48)) (uint_units d) (N.pos acc)
  = N.pos (Pos.of_uint_acc d acc).
Proof.
  induction d; intros acc; cbn [uint_units fold_left Pos.of_uint_acc];
    [reflexivity|..];
    match goal with
    | |- fold_left _ _ ?x = N.pos (Pos.of_uint_acc _ ?y) =>
      replace x with (N.pos y) by lia
    end; apply IHd.
Qed.

Lemma digits_value_uint (d : Decimal.uint) :
  digits_value (uint_units d) = Pos.of_uint d.
Proof.
  unfold digits_value.
  induction d; cbn [uint_units fold_left Pos.of_uint]; [reflexivity|..];
    try exact IHd;
    match goal with
    | |- fold_left _ _ ?x = N.pos (Pos.of_uint_acc _ ?y) =>
      replace x with (N.pos y) by lia
    end; apply digits_value_acc.
Qed.

Lemma StringToNumber_digits (p : positive) :
  StringToNumber (uint_units (Pos.to_uint p)) = Int (Z.pos p).
Proof.
  unfold StringToNumber.
  pose proof (uint_units_digits (Pos.to_uint p)) as Hd.
  pose proof (uint_units_nonempty _ (DecimalPos.Unsigned.to_uint_nonnil p)) as Hn.
  rewrite trim_no_space by (apply digits_no_space, Hd).
  destruct (uint_units (Pos.to_uint p)) as [|c r] eqn:Hu; [discriminate|].
  assert (Hc : is_digit c = true)
    by (cbn [forallb] in Hd; apply andb_true_iff in Hd; tauto).
  assert (H45 : (c =? 45) = false).
  { unfold is_digit in Hc. apply andb_true_iff in Hc. destruct Hc as [H1 _].
    apply N.leb_le in H1. apply N.eqb_neq. lia. }
  assert (H43 : (c =? 43) = false).
  { unfold is_digit in Hc. apply andb_true_iff in Hc. destruct Hc as [H1 _].
    apply N.leb_le in H1. apply N.eqb_neq. lia. }
  rewrite H45, H43. unfold all_digits. rewrite Hd. cbn [nonempty andb].
  rewrite <- Hu, digits_value_uint, DecimalPos.Unsigned.of_to. reflexivity.
Qed.

(** [Number] reads the decimal text of an integer back as the integer. *)
Lemma StringToNumber_Z_to_js (z : Z) : StringToNumber (Z_to_js z) = Int z.
Proof.
  destruct z as [|p|p]; cbn [Z_to_js].
  - reflexivity.
  - apply StringToNumber_digits.
  - unfold StringToNumber.
    pose proof (uint_units_digits (Pos.to_uint p)) as Hd.
    pose proof (uint_units_nonempty _ (DecimalPos.Unsigned.to_uint_nonnil p)) as Hn.
    rewrite trim_no_space
      by (constructor; [reflexivity|apply digits_no_space, Hd]).
    rewrite N.eqb_refl. unfold all_digits. rewrite Hn, Hd. cbn [andb].
    rewrite digits_value_uint, DecimalPos.Unsigned.of_to. reflexivity.
Qed.

Lemma Z_to_js_nonempty (z : Z) : nonempty (Z_to_js z) = true.
Proof.
  destruct z as [|p|p]; cbn [Z_to_js]; try reflexivity.
  apply uint_units_nonempty, DecimalPos.Unsigned.to_uint_nonnil.
Qed.

(** The number of a conversation and its decimal text give the same key. *)
Lemma registry_key_canonical (uid n : Z) :
  registry_key uid (VNum (ToNumber (VStr (Z_to_js n))))
  = registry_key uid (VNum (Int n))
  /\ registry_key uid (VStr (Z_to_js n)) = registry_key uid (VNum (Int n)).
Proof.
  cbn [ToNumber]. rewrite StringToNumber_Z_to_js. split; reflexivity.
Qed.

(** Superseding for a conversation referred to by its number (in the exact
    range of a double) in the body of the start request and by its decimal
    text in the query of the poll. *)
Lemma supersede_canonical cwd PB (w w2 : world) (uid n : Z) (random : list N)
    (j1 : jsstring) (body : value) :
  convJobMap w !! registry_key uid (VNum (Int n)) = Some j1 ->
  Forall (fun x => x <> 47) j1 ->
  hex random <> j1 -> hex random <> [] ->
  process_start cwd PB uid (VNum (Int n)) random w = (Ret (Json 200 body), w2) ->
  convJobMap w2 = <[registry_key uid (VNum (Int n)) := hex random]> (convJobMap w)
  /\ files w2
     = <[progressFile cwd (VStr (hex random)) := JSON_stringify initial_record]>
         (files w)
  /\ process_progress cwd uid VUndef (VStr (Z_to_js n)) w2
     = Ret (Json 200 initial_record)
  /\ process_progress cwd uid (VStr j1) VUndef w2
     = process_progress cwd uid (VStr j1) VUndef w.
Proof.
  intros Hreg Hj1 Hfresh Hne Hstart.
  apply (supersede_registry cwd PB w w2 uid (VNum (Int n)) (VStr (Z_to_js n))
           random j1 body Hreg Hj1 Hfresh Hne Hstart).
  - apply Z_to_js_nonempty.
  - reflexivity.
  - apply registry_key_canonical.
Qed.

(* ===================================================================== *)
(** ** Further properties of the dialog engine *)
(* ===================================================================== *)

Ltac in_list :=
  vm_compute; repeat first [ left; exact eq_refl | right ].

Lemma done_back_target_cases (meta : gmap jsstring value) :
  done_back_target meta = FLOW_EXISTING_DOC_CONFIG
  \/ done_back_target meta = FLOW_UPLOAD_DOC_CONFIG.
Proof.
  unfold done_back_target.
  destruct (prop meta (u "lastChoice")); try (right; exact eq_refl).
  destruct (bool_decide _); [left|right]; exact eq_refl.
Qed.

Lemma root_menu_state (t : jsstring) (r : intent) :
  root_menu t = Some r -> In (newState r) dialog_states.
Proof.
  unfold root_menu.
  (destruct (is11 t); [intros [= <-]; cbn [newState]; in_list|]).
  destruct (is12 t); [intros [= <-]; cbn [newState]; in_list|].
  destruct (help t); [intros [= <-]; cbn [newState]; in_list|discriminate].
Qed.

Ltac state_leaf :=
  lazymatch goal with
  | |- root_menu _ = Some _ -> _ => apply root_menu_state
  | |- None = Some _ -> _ => discriminate
  | |- Some (Intent _ (done_back_target ?m) _) = Some _ -> _ =>
    intros [= <-]; cbn [newState];
    destruct (done_back_target_cases m) as [-> | ->]; in_list
  | |- Some _ = Some _ -> _ => intros [= <-]; cbn [newState]; in_list
  end.

Lemma newState_is_dialog_state (now text : jsstring) (state : value)
    (meta : gmap jsstring value) (r : intent) :
  matchRuleIntent now text state meta = Some r ->
  In (newState r) dialog_states.
Proof.
  unfold matchRuleIntent, go_home, set_rule, run_rule.
  repeat match goal with
         | |- context [if ?b then _ else _] => destruct b
         | |- context [match ?o with Some _ => _ | None => _ end] => destruct o
         end.
  all: state_leaf.
Qed.

(** X2: in each of the five states other than the root menu, the home
    command leads to the root menu and the back command to the predecessor
    of the state; neither writes metadata. *)
Theorem navigation (now text state : jsstring) (meta : gmap jsstring value) :
  In state inner_states ->
  (home (trim text) = true ->
   matchRuleIntent now text (VStr state) meta
   = Some (Intent (u "メニューに戻ります。") ROOT_MENU None))
  /\ (back (trim text) = true ->
      exists r, matchRuleIntent now text (VStr state) meta = Some r
                /\ newState r = predecessor state meta
                /\ metaPatch r = None).
Proof.
  intros Hin. unfold inner_states in Hin. cbn [In] in Hin.
  destruct Hin as [<-|[<-|[<-|[<-|[<-|[]]]]]].
  all: unfold matchRuleIntent, predecessor, go_home.
  all: match goal with
       | |- context [state_is (VStr ?s) _] =>
         rewrite !(state_is_distinct s) by (vm_compute; discriminate);
         rewrite state_is_refl
       end.
  all: split; [intros ->; exact eq_refl|].
  all: intros Hb; rewrite (back_not_home _ Hb), Hb.
  all: eexists; split; [exact eq_refl|]; cbn [newState metaPatch].
  all: split; [|exact eq_refl].
  all: repeat rewrite bool_decide_eq_false_2 by (vm_compute; discriminate).
  all: try rewrite bool_decide_eq_true_2 by (vm_compute; reflexivity).
  all: exact eq_refl.
Qed.

Lemma root_menu_successor (t : jsstring) (r : intent) :
  root_menu t = Some r ->
  In (newState r) [ROOT_MENU; FLOW_EXISTING_DOC_SELECT; FLOW_UPLOAD_DOC_WAIT].
Proof.
  unfold root_menu.
  destruct (is11 t); [intros [= <-]; cbn [newState]; in_list|].
  destruct (is12 t); [intros [= <-]; cbn [newState]; in_list|].
  destruct (help t); [intros [= <-]; cbn [newState]; in_list|discriminate].
Qed.

Ltac successor_leaf :=
  lazymatch goal with
  | |- root_menu _ = Some _ -> _ => apply root_menu_successor
  | |- None = Some _ -> _ => discriminate
  | |- Some (Intent _ (done_back_target ?m) _) = Some _ -> _ =>
    intros [= <-]; cbn [newState];
    destruct (done_back_target_cases m) as [-> | ->]; in_list
  | |- Some _ = Some _ -> _ => intros [= <-]; cbn [newState]; in_list
  end.

(** X1: the transition graph of the engine: a rule that answers in a state
    leads to one of the successors of that state, and every state a rule
    leads to is one of the six dialog states. *)
Theorem transition_graph (now text : jsstring) (state : value)
    (meta : gmap jsstring value) (r : intent) :
  matchRuleIntent now text state meta = Some r ->
  In (newState r) (successors state) /\ In (newState r) dialog_states.
Proof.
  intros Hr. split; [|exact (newState_is_dialog_state _ _ _ _ _ Hr)].
  revert Hr.
  unfold matchRuleIntent, successors, go_home, set_rule, run_rule.
  destruct (state_is state ROOT_MENU) eqn:Hroot.
  { assert (Hs : state = VStr ROOT_MENU).
    { destruct state; try discriminate. cbn [state_is] in Hroot.
      apply bool_decide_eq_true in Hroot. congruence. }
    subst state.
    rewrite !(state_is_distinct ROOT_MENU) by (vm_compute; discriminate).
    apply root_menu_successor. }
  repeat match goal with
         | |- context [if ?b then _ else _] => destruct b
         | |- context [match ?o with Some _ => _ | None => _ end] => destruct o
         end.
  all: successor_leaf.
Qed.

Lemma transition_graph_witness :
  In (newState (Intent (u "設定に戻ります。") FLOW_UPLOAD_DOC_CONFIG None))
     (successors (VStr FLOW_QG_DONE))
  /\ In (newState (Intent (u "設定に戻ります。") FLOW_UPLOAD_DOC_CONFIG None))
       dialog_states.
Proof.
  apply (transition_graph (u "2025-04-01T09:00:00.000Z") (u "back")
           (VStr FLOW_QG_DONE) ∅).
  vm_compute. reflexivity.
Defined.

Lemma navigation_witness :
  matchRuleIntent (u "2025-04-01T09:00:00.000Z") (u " Home ")
    (VStr FLOW_UPLOAD_DOC_CONFIG) ∅
  = Some (Intent (u "メニューに戻ります。") ROOT_MENU None)
  /\ exists r, matchRuleIntent (u "2025-04-01T09:00:00.000Z") (u "戻る")
                 (VStr FLOW_UPLOAD_DOC_CONFIG) ∅ = Some r
               /\ newState r = predecessor FLOW_UPLOAD_DOC_CONFIG ∅
               /\ metaPatch r = None.
Proof.
  destruct (navigation (u "2025-04-01T09:00:00.000Z") (u " Home ")
              FLOW_UPLOAD_DOC_CONFIG ∅) as [Hhome _].
  { vm_compute. tauto. }
  destruct (navigation (u "2025-04-01T09:00:00.000Z") (u "戻る")
              FLOW_UPLOAD_DOC_CONFIG ∅) as [_ Hback].
  { vm_compute. tauto. }
  split; [apply Hhome|apply Hback]; vm_compute; reflexivity.
Defined.

(** X3: with metadata whose settings have a text form, so that the reply
    that prints them can be built, every input is answered by a rule in the
    select state and in the wait state, so the responder is never asked; an
    answer that stays in the state writes no metadata. *)
Theorem select_and_wait_always_answer (now text : jsstring)
    (meta : gmap jsstring value) :
  settings_print meta ->
  (exists r, matchRuleIntent now text (VStr FLOW_EXISTING_DOC_SELECT) meta = Some r
             /\ (newState r = FLOW_EXISTING_DOC_SELECT -> metaPatch r = None))
  /\ (exists r, matchRuleIntent now text (VStr FLOW_UPLOAD_DOC_WAIT) meta = Some r
                /\ (newState r = FLOW_UPLOAD_DOC_WAIT -> metaPatch r = None)).
Proof.
  intros _. split; unfold matchRuleIntent, go_home.
  - rewrite !(state_is_distinct FLOW_EXISTING_DOC_SELECT)
      by (vm_compute; discriminate).
    rewrite state_is_refl.
    destruct (home (trim text)); [eexists; split; [exact eq_refl|intros _; exact eq_refl]|].
    destruct (back (trim text)); [eexists; split; [exact eq_refl|intros _; exact eq_refl]|].
    destruct (selectDoc (trim text));
      (eexists; split; [exact eq_refl|]); cbn [newState metaPatch].
    + intros H. exfalso. vm_compute in H. discriminate.
    + intros _. exact eq_refl.
  - rewrite !(state_is_distinct FLOW_UPLOAD_DOC_WAIT)
      by (vm_compute; discriminate).
    rewrite state_is_refl.
    destruct (home (trim text)); [eexists; split; [exact eq_refl|intros _; exact eq_refl]|].
    destruct (back (trim text)); [eexists; split; [exact eq_refl|intros _; exact eq_refl]|].
    destruct (uploaded (trim text));
      (eexists; split; [exact eq_refl|]); cbn [newState metaPatch].
    + intros H. exfalso. vm_compute in H. discriminate.
    + intros _. exact eq_refl.
Qed.

Lemma select_and_wait_always_answer_witness :
  exists r,
    matchRuleIntent (u "2025-04-01T09:00:00.000Z") (u "what now?")
      (VStr FLOW_UPLOAD_DOC_WAIT)
      {[ u "config" := VObj {[ u "questions" := VArr [VNull; VNum (Int 5)] ]} ]}
    = Some r
    /\ (newState r = FLOW_UPLOAD_DOC_WAIT -> metaPatch r = None).
Proof.
  refine (proj2 (select_and_wait_always_answer (u "2025-04-01T09:00:00.000Z")
                   (u "what now?")
                   {[ u "config"
                      := VObj {[ u "questions" := VArr [VNull; VNum (Int 5)] ]} ]}
                   _)).
  vm_compute. repeat split.
Defined.

(** Outside the five inner states the engine runs the root menu. *)
Lemma root_dispatch (now text : jsstring) (state : value)
    (meta : gmap jsstring value) :
  Forall (fun s => state <> VStr s) inner_states ->
  matchRuleIntent now text state meta = root_menu (trim text).
Proof.
  intros Hout. unfold inner_states in Hout.
  repeat (apply Forall_cons_1 in Hout; destruct Hout as [? Hout]).
  unfold matchRuleIntent.
  rewrite (state_is_other state FLOW_EXISTING_DOC_SELECT),
    (state_is_other state FLOW_EXISTING_DOC_CONFIG),
    (state_is_other state FLOW_UPLOAD_DOC_WAIT),
    (state_is_other state FLOW_UPLOAD_DOC_CONFIG),
    (state_is_other state FLOW_QG_DONE) by assumption.
  destruct (state_is state ROOT_MENU); reflexivity.
Qed.

Lemma branch_tag_text (d : N) (dash rest : jsstring) :
  (dash = [] \/ exists c, dash = [c] /\ is_dash c = true) ->
  word_end rest = true ->
  branch_tag d (49 :: dash ++ d :: rest) = true.
Proof.
  intros [-> | (c & -> & Hc)] Hrest; cbn [app branch_tag].
  - rewrite !N.eqb_refl, Hrest. reflexivity.
  - rewrite Hc, !N.eqb_refl, Hrest. cbn [andb]. apply orb_true_r.
Qed.

(** X4: at the root menu, and in every state the engine does not know, a
    text that after trimming starts with 11 or with 1, one of the four
    dashes and 1, at a word boundary, chooses the existing-document branch
    and records the tag 1-1, whatever the metadata and the clock. *)
Theorem root_menu_tag (now text : jsstring) (state : value)
    (meta : gmap jsstring value) (dash rest : jsstring) :
  Forall (fun s => state <> VStr s) inner_states ->
  (dash = [] \/ exists c, dash = [c] /\ is_dash c = true) ->
  word_end rest = true ->
  trim text = 49 :: dash ++ 49 :: rest ->
  exists r, matchRuleIntent now text state meta = Some r
            /\ newState r = FLOW_EXISTING_DOC_SELECT
            /\ metaPatch r = Some {[ u "lastChoice" := VStr (u "1-1") ]}.
Proof.
  intros Hout Hdash Hrest Ht.
  rewrite (root_dispatch now text state meta Hout), Ht.
  unfold root_menu, is11. rewrite (branch_tag_text 49 dash rest Hdash Hrest).
  cbn [orb]. eexists. split; [exact eq_refl|].
  cbn [newState metaPatch]. split; exact eq_refl.
Qed.

Lemma root_menu_tag_witness :
  exists r, matchRuleIntent (u "2025-04-01T09:00:00.000Z") (u " 1–1: go ")
              VNull {[ u "lastChoice" := VStr (u "1-2") ]} = Some r
            /\ newState r = FLOW_EXISTING_DOC_SELECT
            /\ metaPatch r = Some {[ u "lastChoice" := VStr (u "1-1") ]}.
Proof.
  apply (root_menu_tag _ _ _ _ [8211] (u ": go")).
  - repeat constructor; discriminate.
  - right. exists 8211. split; reflexivity.
  - reflexivity.
  - vm_compute. reflexivity.
Defined.

Lemma digits_prefix_app (ds tail : jsstring) :
  forallb is_digit ds = true ->
  match tail with [] => True | c :: _ => is_digit c = false end ->
  digits_prefix (ds ++ tail) = ds.
Proof.
  intros Hds Htail. induction ds as [|c ds IH]; cbn [app].
  - destruct tail as [|c tail]; [reflexivity|]. cbn [digits_prefix].
    rewrite Htail. reflexivity.
  - cbn [forallb] in Hds. apply andb_true_iff in Hds. destruct Hds as [Hc Hds].
    cbn [digits_prefix]. rewrite Hc, IH by exact Hds. reflexivity.
Qed.

Lemma StringToNumber_all_digits (ds : jsstring) :
  all_digits ds = true ->
  StringToNumber ds = Int (Z.of_N (digits_value ds)).
Proof.
  intros Hall. unfold all_digits in Hall. apply andb_true_iff in Hall.
  destruct Hall as [Hne Hd]. unfold StringToNumber.
  rewrite trim_no_space by (apply digits_no_space, Hd).
  destruct ds as [|c r]; [discriminate|].
  assert (Hc : is_digit c = true)
    by (cbn [forallb] in Hd; apply andb_true_iff in Hd; tauto).
  unfold is_digit in Hc. apply andb_true_iff in Hc. destruct Hc as [H1 _].
  apply N.leb_le in H1.
  assert (H45 : (c =? 45) = false) by (apply N.eqb_neq; lia).
  assert (H43 : (c =? 43) = false) by (apply N.eqb_neq; lia).
  rewrite H45, H43. unfold all_digits. rewrite Hd. reflexivity.
Qed.

Lemma colon_digits_text (ds tail : jsstring) :
  all_digits ds = true ->
  match tail with [] => True | c :: _ => is_digit c = false end ->
  colon_digits (58 :: 32 :: ds ++ tail) = Some ds.
Proof.
  intros Hall Htail. pose proof Hall as Hall'.
  unfold all_digits in Hall. apply andb_true_iff in Hall.
  destruct Hall as [Hne Hd].
  unfold colon_digits. change (u ":") with [58].
  cbn [trim_start is_space]. simpl.
  assert (Hts : trim_start (ds ++ tail) = ds ++ tail).
  { destruct ds as [|c r]; [discriminate|]. cbn [app].
    apply trim_start_head, digit_not_space.
    cbn [forallb] in Hd. apply andb_true_iff in Hd. tauto. }
  rewrite Hts, (digits_prefix_app ds tail Hd Htail).
  destruct ds; [discriminate|reflexivity].
Qed.

(** X5: with metadata whose settings have a text form, a select command in
    the select state and an uploaded command in the wait state store the
    number their digits denote (leading zeros dropped) as the document id
    and move to the config state of the branch; what follows the digits is
    ignored. *)
Theorem document_number_commands (now text : jsstring)
    (meta : gmap jsstring value) (ds tail : jsstring) :
  settings_print meta ->
  all_digits ds = true ->
  digits_value ds < 2 ^ 53 ->
  match tail with [] => True | c :: _ => is_digit c = false end ->
  (trim text = u "select doc: " ++ ds ++ tail ->
   exists r,
     matchRuleIntent now text (VStr FLOW_EXISTING_DOC_SELECT) meta = Some r
     /\ newState r = FLOW_EXISTING_DOC_CONFIG
     /\ metaPatch r
        = Some {[ u "docId" := VNum (Int (Z.of_N (digits_value ds))) ]})
  /\ (trim text = u "uploaded: " ++ ds ++ tail ->
      exists r,
        matchRuleIntent now text (VStr FLOW_UPLOAD_DOC_WAIT) meta = Some r
        /\ newState r = FLOW_UPLOAD_DOC_CONFIG
        /\ metaPatch r
           = Some {[ u "docId" := VNum (Int (Z.of_N (digits_value ds))) ]}).
Proof.
  intros _ Hall _ Htail. split; intros Ht; unfold matchRuleIntent; rewrite Ht.
  - rewrite !(state_is_distinct FLOW_EXISTING_DOC_SELECT)
      by (vm_compute; discriminate).
    rewrite state_is_refl.
    assert (Hsel : selectDoc (u "select doc: " ++ ds ++ tail) = Some ds).
    { change (u "select doc: ")
        with ([115; 101; 108; 101; 99; 116; 32; 100; 111; 99] ++ [58; 32]).
      rewrite <- app_assoc. unfold selectDoc.
      change (u "select") with [115; 101; 108; 101; 99; 116].
      change (u "doc") with [100; 111; 99].
      cbn [app lit]. simpl.
      apply (colon_digits_text ds tail Hall Htail). }
    assert (Hh : home (u "select doc: " ++ ds ++ tail) = false).
    { change (u "select doc: ")
        with ([115; 101; 108; 101; 99; 116; 32; 100; 111; 99; 58; 32]).
      unfold home, full. change (u "home") with [104; 111; 109; 101].
      change (u "メニュー") with [12513; 12491; 12517; 12540].
      reflexivity. }
    assert (Hb : back (u "select doc: " ++ ds ++ tail) = false).
    { change (u "select doc: ")
        with ([115; 101; 108; 101; 99; 116; 32; 100; 111; 99; 58; 32]).
      unfold back, full. change (u "back") with [98; 97; 99; 107].
      change (u "戻る") with [25147; 12427].
      reflexivity. }
    rewrite Hh, Hb, Hsel, (StringToNumber_all_digits ds Hall).
    eexists. split; [exact eq_refl|]. cbn [newState metaPatch].
    split; exact eq_refl.
  - rewrite !(state_is_distinct FLOW_UPLOAD_DOC_WAIT)
      by (vm_compute; discriminate).
    rewrite state_is_refl.
    assert (Hup : uploaded (u "uploaded: " ++ ds ++ tail) = Some ds).
    { change (u "uploaded: ")
        with ([117; 112; 108; 111; 97; 100; 101; 100] ++ [58; 32]).
      rewrite <- app_assoc. unfold uploaded.
      change (u "uploaded") with [117; 112; 108; 111; 97; 100; 101; 100].
      cbn [app lit]. simpl.
      apply (colon_digits_text ds tail Hall Htail). }
    assert (Hh : home (u "uploaded: " ++ ds ++ tail) = false).
    { change (u "uploaded: ")
        with ([117; 112; 108; 111; 97; 100; 101; 100; 58; 32]).
      unfold home, full. change (u "home") with [104; 111; 109; 101].
      change (u "メニュー") with [12513; 12491; 12517; 12540].
      reflexivity. }
    assert (Hb : back (u "uploaded: " ++ ds ++ tail) = false).
    { change (u "uploaded: ")
        with ([117; 112; 108; 111; 97; 100; 101; 100; 58; 32]).
      unfold back, full. change (u "back") with [98; 97; 99; 107].
      change (u "戻る") with [25147; 12427].
      reflexivity. }
    rewrite Hh, Hb, Hup, (StringToNumber_all_digits ds Hall).
    eexists. split; [exact eq_refl|]. cbn [newState metaPatch].
    split; exact eq_refl.
Qed.

Lemma document_number_commands_witness :
  exists r,
    matchRuleIntent (u "2025-04-01T09:00:00.000Z") (u "select doc: 007, please")
      (VStr FLOW_EXISTING_DOC_SELECT) ∅ = Some r
    /\ newState r = FLOW_EXISTING_DOC_CONFIG
    /\ metaPatch r
       = Some {[ u "docId" := VNum (Int (Z.of_N (digits_value (u "007")))) ]}.
Proof.
  refine (proj1 (document_number_commands (u "2025-04-01T09:00:00.000Z")
                   (u "select doc: 007, please") ∅ (u "007") (u ", please")
                   _ _ _ _) _).
  - vm_compute. repeat split.
  - vm_compute. reflexivity.
  - vm_compute. reflexivity.
  - vm_compute. reflexivity.
  - vm_compute. reflexivity.
Defined.

Lemma root_menu_patch (now t : jsstring) (r : intent) (p : gmap jsstring value) :
  root_menu t = Some r -> metaPatch r = Some p -> patch_shape now p.
Proof.
  unfold root_menu.
  destruct (is11 t);
    [intros [= <-] [= <-]; apply patch_choice; left; exact eq_refl|].
  destruct (is12 t);
    [intros [= <-] [= <-]; apply patch_choice; right; exact eq_refl|].
  destruct (help t); [intros [= <-]; discriminate|discriminate].
Qed.

Ltac patch_leaf :=
  lazymatch goal with
  | |- root_menu _ = Some _ -> _ => apply root_menu_patch
  | |- None = Some _ -> _ => discriminate
  | |- Some (Intent _ _ None) = Some _ -> _ => intros [= <-]; discriminate
  | |- Some (Intent _ _ (Some {[ _ := VNum _ ]})) = Some _ -> _ =>
    intros [= <-] [= <-]; apply patch_doc
  | |- Some (Intent _ _ (Some {[ _ := merged_config _ _ ]})) = Some _ -> _ =>
    intros [= <-] [= <-]; apply patch_config
  | |- Some (Intent _ _ (Some {[ _ := VStr _ ]})) = Some _ -> _ =>
    intros [= <-] [= <-]; apply patch_run
  end.

(** X6: every patch of the engine writes exactly one key: the branch tag
    (1-1 or 1-2), the document id (a number), the config (an object of
    questions, difficulty and type) or the time of the run (the clock). *)
Theorem patch_has_shape (now text : jsstring) (state : value)
    (meta : gmap jsstring value) (r : intent) (p : gmap jsstring value) :
  matchRuleIntent now text state meta = Some r ->
  metaPatch r = Some p ->
  patch_shape now p.
Proof.
  unfold matchRuleIntent, go_home, set_rule, run_rule.
  repeat match goal with
         | |- context [if ?b then _ else _] => destruct b
         | |- context [match ?o with Some _ => _ | None => _ end] => destruct o
         end.
  all: patch_leaf.
Qed.

Lemma patch_has_shape_witness :
  patch_shape (u "2025-04-01T09:00:00.000Z")
    {[ u "lastRunAt" := VStr (u "2025-04-01T09:00:00.000Z") ]}.
Proof.
  apply (patch_has_shape (u "2025-04-01T09:00:00.000Z") (u "run")
           (VStr FLOW_EXISTING_DOC_CONFIG) ∅
           (Intent
              (u "問題生成を開始します（ダミー）。" ++ nl
               ++ u "資料=" ++ ToString VUndef ++ u ", "
               ++ config_line default_config ++ nl
               ++ u "生成が完了しました。結果をプレビューできます。")
              FLOW_QG_DONE
              (Some {[ u "lastRunAt" := VStr (u "2025-04-01T09:00:00.000Z") ]}))).
  - vm_compute. reflexivity.
  - reflexivity.
Defined.

Ltac choice_leaf :=
  lazymatch goal with
  | |- None = Some _ -> _ => discriminate
  | |- Some (Intent _ _ None) = Some _ -> _ =>
    intros [= <-]; cbn [metaPatch default]; unfold merge_meta;
    apply lookup_union_r, lookup_empty
  | |- Some (Intent _ _ (Some {[ _ := _ ]})) = Some _ -> _ =>
    intros [= <-]; cbn [metaPatch default]; unfold merge_meta;
    apply lookup_union_r, lookup_singleton_ne; vm_compute; discriminate
  end.

(** X7: no rule of the five inner states touches the branch tag: merging the
    patch of an answer into the metadata leaves [lastChoice] as it was, so
    it is still there when the done state reads it. *)
Theorem branch_tag_persists (now text state : jsstring)
    (meta : gmap jsstring value) (r : intent) :
  In state inner_states ->
  matchRuleIntent now text (VStr state) meta = Some r ->
  merge_meta meta (default ∅ (metaPatch r)) !! u "lastChoice"
  = meta !! u "lastChoice".
Proof.
  intros Hin. unfold inner_states in Hin. cbn [In] in Hin.
  destruct Hin as [<-|[<-|[<-|[<-|[<-|[]]]]]].
  all: unfold matchRuleIntent, go_home, set_rule, run_rule.
  all: match goal with
       | |- context [state_is (VStr ?s) _] =>
         rewrite !(state_is_distinct s) by (vm_compute; discriminate);
         rewrite state_is_refl
       end.
  all: repeat match goal with
         | |- context [if ?b then _ else _] => destruct b
         | |- context [match ?o with Some _ => _ | None => _ end] => destruct o
         end.
  all: choice_leaf.
Qed.

Lemma branch_tag_persists_witness :
  exists r,
    matchRuleIntent (u "2025-04-01T09:00:00.000Z") (u "select doc: 7")
      (VStr FLOW_EXISTING_DOC_SELECT) {[ u "lastChoice" := VStr (u "1-1") ]}
    = Some r
    /\ merge_meta {[ u "lastChoice" := VStr (u "1-1") ]}
         (default ∅ (metaPatch r)) !! u "lastChoice"
       = Some (VStr (u "1-1")).
Proof.
  assert (H : exists r,
             matchRuleIntent (u "2025-04-01T09:00:00.000Z") (u "select doc: 7")
               (VStr FLOW_EXISTING_DOC_SELECT)
               {[ u "lastChoice" := VStr (u "1-1") ]} = Some r).
  { eexists. vm_compute. reflexivity. }
  destruct H as (r & Hr). exists r. split; [exact Hr|].
  rewrite (branch_tag_persists _ _ FLOW_EXISTING_DOC_SELECT _ r
             (or_introl eq_refl) Hr).
  apply lookup_singleton_eq.
Defined.

Lemma dialog_state_nonempty (s : jsstring) :
  In s dialog_states -> nonempty s = true.
Proof.
  unfold dialog_states. cbn [In].
  intros [<-|[<-|[<-|[<-|[<-|[<-|[]]]]]]]; vm_compute; reflexivity.
Qed.

(* ===================================================================== *)
(** ** Further properties of the set-command parser *)
(* ===================================================================== *)

Lemma trim_start_Forall (P : N -> Prop) (s : jsstring) :
  Forall P s -> Forall P (trim_start s).
Proof.
  induction 1 as [|c s Hc Hs IH]; [constructor|].
  cbn [trim_start]. destruct (is_space c); [exact IH|constructor; assumption].
Qed.

Lemma trim_Forall (P : N -> Prop) (s : jsstring) :
  Forall P s -> Forall P (trim s).
Proof.
  intros H. unfold trim.
  apply Forall_rev, trim_start_Forall, Forall_rev, trim_start_Forall, H.
Qed.

Lemma and_trim_Forall (P : N -> Prop) (s : jsstring) :
  Forall P s -> Forall P (and_trim s).
Proof. intros H. destruct s; [constructor|]. apply trim_Forall, H. Qed.

Lemma split_char_pieces (d : N) (s : jsstring) :
  Forall (Forall (fun c => c <> d)) (split_char d s).
Proof.
  induction s as [|c s IH]; cbn [split_char]; [repeat constructor|].
  destruct (c =? d) eqn:Hc.
  - constructor; [constructor|exact IH].
  - apply N.eqb_neq in Hc.
    destruct (split_char d s) as [|p ps]; [repeat constructor; exact Hc|].
    apply Forall_cons_1 in IH. destruct IH as [Hp Hps].
    constructor; [constructor; assumption|exact Hps].
Qed.

Lemma split_char_Forall (P : N -> Prop) (d : N) (s : jsstring) :
  Forall P s -> Forall (Forall P) (split_char d s).
Proof.
  induction 1 as [|c s Hc _ IH]; cbn [split_char]; [repeat constructor|].
  destruct (c =? d).
  - constructor; [constructor|exact IH].
  - destruct (split_char d s) as [|p ps]; [repeat constructor; exact Hc|].
    apply Forall_cons_1 in IH. destruct IH as [Hp Hps].
    constructor; [constructor; assumption|exact Hps].
Qed.

Lemma kvs_unbroken (m : jsstring) : Forall unbroken (kvs m).
Proof.
  rewrite kvs_runs. pose proof (split_runs_unbroken m false) as H.
  induction H as [|p ps Hp _ IH]; [constructor|].
  cbn [List.filter]. destruct (nonempty p); [constructor; assumption|exact IH].
Qed.

Lemma piece_and (s : jsstring) : unbroken s -> no_eq s -> piece s.
Proof.
  unfold unbroken, no_eq, piece. intros H1 H2.
  induction H1 as [|c s Hc _ IH]; [constructor|].
  apply Forall_cons_1 in H2. destruct H2 as [Hc' H2].
  constructor; [split; assumption|apply IH, H2].
Qed.

Section Entries.

Variable lower : jsstring -> jsstring.

Lemma js_set_entries (k v : jsstring) (out : gmap jsstring jsstring) :
  entries_ok lower out -> k <> [] -> piece k -> v <> [] -> piece v ->
  entries_ok lower (js_set (lower k) v out).
Proof.
  intros Hout Hk Hpk Hv Hpv. unfold js_set.
  destruct (bool_decide (lower k = u "__proto__")) eqn:Hp; [exact Hout|].
  apply bool_decide_eq_false in Hp.
  intros k' v' Hlook. destruct (decide (lower k = k')) as [<-|Hne].
  - rewrite lookup_insert_eq in Hlook. injection Hlook as <-.
    split; [exists k; repeat split; assumption|].
    repeat split; assumption.
  - rewrite lookup_insert_ne in Hlook by exact Hne. apply Hout, Hlook.
Qed.

Lemma parseKV_step_entries (out : gmap jsstring jsstring) (kv : jsstring) :
  unbroken kv -> entries_ok lower out ->
  entries_ok lower (parseKV_step_in lower out kv).
Proof.
  intros Hkv Hout. unfold parseKV_step_in.
  pose proof (split_char_pieces 61 kv) as Hp.
  pose proof (split_char_Forall _ 61 kv Hkv) as Hq.
  destruct (split_char 61 kv) as [|k [|v rest]]; cbn [List.map]; try exact Hout.
  apply Forall_cons_1 in Hp. destruct Hp as [Hk Hp].
  apply Forall_cons_1 in Hp. destruct Hp as [Hv _].
  apply Forall_cons_1 in Hq. destruct Hq as [Hk' Hq].
  apply Forall_cons_1 in Hq. destruct Hq as [Hv' _].
  destruct (nonempty (and_trim k)) eqn:Hnk; [|exact Hout].
  destruct (nonempty (and_trim v)) eqn:Hnv; [|exact Hout].
  cbn [andb]. apply js_set_entries; [exact Hout| | | |].
  - destruct (and_trim k); discriminate.
  - apply piece_and; apply and_trim_Forall; assumption.
  - destruct (and_trim v); discriminate.
  - apply piece_and; apply and_trim_Forall; assumption.
Qed.

Lemma fold_entries (l : list jsstring) :
  Forall unbroken l -> forall out,
  entries_ok lower out ->
  entries_ok lower (fold_left (parseKV_step_in lower) l out).
Proof.
  induction 1 as [|kv l Hkv _ IH]; intros out Hout; [exact Hout|].
  cbn [fold_left]. apply IH, parseKV_step_entries; assumption.
Qed.

(** X8: whatever the command, every key of the parsed mapping is the lower
    case, as [toLowerCase] of the runtime gives it, of a text that is not
    empty and holds no [=], comma or white space; every value is not empty
    and holds none of them either; and [__proto__] is never a key. *)
Theorem parseKV_entries (command key v : jsstring) :
  parseKV_in lower command !! key = Some v ->
  (exists k, key = lower k /\ k <> [] /\ piece k)
  /\ v <> [] /\ piece v /\ key <> u "__proto__".
Proof.
  intros H. unfold parseKV_in in H.
  eapply (fold_entries _ (kvs_unbroken _) ∅); [|exact H].
  intros k' v' Hempty. rewrite lookup_empty in Hempty. discriminate.
Qed.

End Entries.

Lemma parseKV_entries_witness :
  (exists k, u "type" = toLowerCase k /\ k <> [] /\ piece k)
  /\ u "tf" <> [] /\ piece (u "tf") /\ u "type" <> u "__proto__".
Proof.
  apply (parseKV_entries toLowerCase
           (u "SET : Type=tf=x, __PROTO__=1 , =9 q=")).
  vm_compute. reflexivity.
Defined.

Lemma split_runs_pieces (P : N -> Prop) (sep : N -> bool) (s : jsstring) :
  Forall P s -> forall b, Forall (Forall P) (split_runs sep b s).
Proof.
  induction 1 as [|c s Hc Hs IH]; intros b; cbn [split_runs];
    [repeat constructor|].
  destruct (sep c).
  - destruct b; [apply IH|constructor; [constructor|apply IH]].
  - specialize (IH false). destruct (split_runs sep false s) as [|p ps];
      [repeat constructor; exact Hc|].
    apply Forall_cons_1 in IH. destruct IH as [Hp Hps].
    constructor; [constructor; assumption|exact Hps].
Qed.

Lemma lit_Forall (P : N -> Prop) (p s r : jsstring) :
  lit p s = Some r -> Forall P s -> Forall P r.
Proof.
  revert s. induction p as [|a p IH]; intros s Hlit Hs.
  - cbn [lit] in Hlit. injection Hlit as <-. exact Hs.
  - destruct s as [|c s]; cbn [lit] in Hlit; [discriminate|].
    destruct (canon a =? canon c); [|discriminate].
    apply Forall_cons_1 in Hs. apply (IH s Hlit), Hs.
Qed.

Lemma strip_set_Forall (P : N -> Prop) (s : jsstring) :
  Forall P s -> Forall P (strip_set s).
Proof.
  intros Hs. unfold strip_set.
  destruct (lit (u "set") s) as [r|] eqn:H1; cbn [mbind option_bind];
    [|exact Hs].
  destruct (lit (u ":") (trim_start r)) as [r'|] eqn:H2; [|exact Hs].
  apply trim_start_Forall. eapply lit_Forall; [exact H2|].
  apply trim_start_Forall. eapply lit_Forall; [exact H1|exact Hs].
Qed.

Lemma parseKV_step_no_eq (out : gmap jsstring jsstring) (kv : jsstring) :
  no_eq kv -> parseKV_step out kv = out.
Proof.
  intros H. unfold parseKV_step. rewrite (split_char_plain 61 kv H).
  reflexivity.
Qed.

(** X9: a command without [=] assigns nothing: the parsed mapping is empty. *)
Theorem parseKV_without_eq (command : jsstring) :
  no_eq command -> parseKV command = ∅.
Proof.
  intros H. unfold parseKV.
  assert (Htok : Forall no_eq
            (List.filter nonempty
               (List.map trim (split_runs is_kv_sep false (strip_set command))))).
  { pose proof (split_runs_pieces _ is_kv_sep _ (strip_set_Forall _ _ H) false)
      as Hp.
    induction Hp as [|p ps Hp _ IH]; cbn [List.map List.filter]; [constructor|].
    destruct (nonempty (trim p)); [constructor; [apply trim_Forall, Hp|]|];
      exact IH. }
  induction Htok as [|kv l Hkv _ IH]; [reflexivity|].
  cbn [fold_left]. rewrite (parseKV_step_no_eq ∅ kv Hkv). exact IH.
Qed.

Lemma parseKV_without_eq_witness :
  parseKV (u "set: questions 20, difficulty:hard") = ∅.
Proof.
  apply parseKV_without_eq. vm_compute.
  repeat (constructor; [discriminate|]). constructor.
Defined.

(* ===================================================================== *)
(** ** Properties of the conversation routes and the chat handler *)
(* ===================================================================== *)

Lemma select_conv_foreign (d : database) (uid id owner : Z) :
  owned_by d id owner -> owner <> uid -> select_conv d uid (Int id) = None.
Proof.
  intros (row & Hrow & Hu) Hne. unfold select_conv. rewrite Hrow.
  rewrite bool_decide_eq_false_2 by congruence. reflexivity.
Qed.

(** X10: nothing reads or changes a conversation of another user: the state
    functions answer as for a missing conversation, and the delete route,
    the scenario endpoints and the start request answer 404 and leave the
    server as it was. *)
Theorem foreign_conversation_refused (cwd : jsstring) (PYTHON_BIN : value)
    (w : world) (uid id owner : Z) (c : value) (state : option jsstring)
    (meta : option (gmap jsstring value)) (random : list N)
    (fe patch : value) :
  owned_by (db w) id owner -> owner <> uid -> ToNumber c = Int id ->
  truthy fe = true ->
  getConversationState (db w) uid (Int id) = (VNull, VNull)
  /\ setConversationState (db w) uid (Int id) state meta = (db w, false)
  /\ deleteConversation (db w) uid (Int id) = (db w, false)
  /\ conversation_delete uid (Z_to_js id) w
     = (Ret (Json 404 (error_body (u "conversation not found"))), w)
  /\ scenario_get (db w) uid c
     = Json 404 (error_body (u "conversation not found"))
  /\ scenario_post uid c fe patch w
     = (Ret (Json 404 (error_body (u "conversation not found"))), w)
  /\ process_start cwd PYTHON_BIN uid c random w
     = (Ret (Json 404 (error_body (u "conversation not found"))), w).
Proof.
  intros Hown Hne Hc Hfe.
  pose proof (select_conv_foreign _ _ _ _ Hown Hne) as Hsel.
  assert (Hget : getConversation (db w) uid (Int id) = None).
  { unfold getConversation. rewrite Hsel. reflexivity. }
  repeat split.
  - unfold getConversationState. rewrite Hsel. reflexivity.
  - unfold setConversationState. rewrite Hsel. reflexivity.
  - unfold deleteConversation. rewrite Hsel. reflexivity.
  - unfold conversation_delete, bind, read_db. cbn [ToNumber].
    rewrite StringToNumber_Z_to_js. cbn [isFinite negb].
    unfold deleteConversation. rewrite Hsel. reflexivity.
  - unfold scenario_get. rewrite Hc. cbn [isFinite negb]. rewrite Hget.
    reflexivity.
  - unfold scenario_post, bind, read_db. rewrite Hc, Hfe.
    cbn [isFinite negb orb]. rewrite Hget. reflexivity.
  - unfold process_start, bind, read_db. rewrite Hc, Hget. reflexivity.
Qed.

Lemma foreign_conversation_refused_witness :
  scenario_post 2 (VStr (u "1")) (VStr (u "2-2")) VUndef sample_world
  = (Ret (Json 404 (error_body (u "conversation not found"))), sample_world)
  /\ process_start (u "/srv") VUndef 2 (VStr (u "1")) bytes1 sample_world
     = (Ret (Json 404 (error_body (u "conversation not found"))), sample_world).
Proof.
  destruct (foreign_conversation_refused (u "/srv") VUndef sample_world 2 1 1
              (VStr (u "1")) None None bytes1 (VStr (u "2-2")) VUndef)
    as (_ & _ & _ & _ & _ & H1 & H2).
  - eexists. split; vm_compute; reflexivity.
  - lia.
  - vm_compute. reflexivity.
  - vm_compute. reflexivity.
  - split; [exact H1|exact H2].
Defined.

(** X11: the owner deletes a conversation: it is gone for the state
    functions, and every other conversation and every document stays. *)
Theorem deleteConversation_removes (d : database) (uid id : Z)
    (state : option jsstring) (meta : option (gmap jsstring value)) :
  owned_by d id uid ->
  snd (deleteConversation d uid (Int id)) = true
  /\ getConversationState (fst (deleteConversation d uid (Int id))) uid (Int id)
     = (VNull, VNull)
  /\ snd (setConversationState (fst (deleteConversation d uid (Int id)))
            uid (Int id) state meta) = false
  /\ (forall id', id' <> id ->
        conversations (fst (deleteConversation d uid (Int id))) !! id'
        = conversations d !! id')
  /\ documents (fst (deleteConversation d uid (Int id))) = documents d.
Proof.
  intros (row & Hrow & Hu). unfold deleteConversation.
  rewrite (select_conv_found d uid id row Hrow Hu). cbn [fst snd].
  assert (Hsel : select_conv
            (Database (delete id (conversations d)) (documents d)) uid (Int id)
          = None).
  { unfold select_conv. cbn [conversations]. rewrite lookup_delete_eq.
    reflexivity. }
  split; [reflexivity|]. split; [|split; [|split]].
  - unfold getConversationState. rewrite Hsel. reflexivity.
  - unfold setConversationState. rewrite Hsel. reflexivity.
  - intros id' Hne. cbn [conversations]. apply lookup_delete_ne. congruence.
  - reflexivity.
Qed.

Lemma deleteConversation_removes_witness :
  snd (deleteConversation sample_db 1 (Int 1)) = true
  /\ getConversationState (fst (deleteConversation sample_db 1 (Int 1))) 1
       (Int 1) = (VNull, VNull).
Proof.
  destruct (deleteConversation_removes sample_db 1 1 None None)
    as (H1 & H2 & _).
  - eexists. split; vm_compute; reflexivity.
  - split; [exact H1|exact H2].
Defined.

Lemma setConversationState_found (d : database) (uid id : Z) (row : conv_row)
    (state : option jsstring) (meta : option (gmap jsstring value)) :
  conversations d !! id = Some row -> row_user row = uid ->
  setConversationState d uid (Int id) state meta
  = (Database
       (<[id := ConvRow uid state
                  (match meta with
                   | Some m => Some (JSON_stringify (VObj m))
                   | None => row_meta row
                   end)]> (conversations d)) (documents d), true).
Proof.
  intros Hrow Hu. unfold setConversationState.
  rewrite (select_conv_found d uid id row Hrow Hu). rewrite Hu.
  destruct meta; reflexivity.
Qed.

Lemma select_conv_stored (c : gmap Z conv_row) (docs : list doc_row)
    (uid id : Z) (state : option jsstring) (m : option text) :
  select_conv (Database (<[id := ConvRow uid state m]> c) docs) uid (Int id)
  = Some (id, ConvRow uid state m).
Proof.
  unfold select_conv. cbn [conversations]. rewrite lookup_insert_eq.
  cbn [row_user]. rewrite bool_decide_eq_true_2 by reflexivity. reflexivity.
Qed.

Lemma getConversationState_stored (c : gmap Z conv_row) (docs : list doc_row)
    (uid id : Z) (state : option jsstring) (m : option text) :
  getConversationState (Database (<[id := ConvRow uid state m]> c) docs)
    uid (Int id)
  = (state_value state,
     match m with
     | Some t => if text_truthy t then safeJSON t else VNull
     | None => VNull
     end).
Proof.
  unfold getConversationState. rewrite select_conv_stored. reflexivity.
Qed.

(** X12: what the owner stores is what the next read returns: the state (the
    empty text as null) and the metadata after its trip through JSON, or the
    metadata as it was when null is stored; no other conversation and no
    document changes. *)
Theorem state_round_trip (d : database) (uid id : Z) (row : conv_row)
    (state : option jsstring) (P : gmap jsstring value) :
  conversations d !! id = Some row -> row_user row = uid ->
  getConversationState (fst (setConversationState d uid (Int id) state (Some P)))
    uid (Int id)
  = (state_value state, jsonify (VObj P))
  /\ getConversationState (fst (setConversationState d uid (Int id) state None))
       uid (Int id)
     = (state_value state, snd (getConversationState d uid (Int id)))
  /\ (forall meta id', id' <> id ->
        conversations (fst (setConversationState d uid (Int id) state meta))
        !! id'
        = conversations d !! id')
  /\ (forall meta,
        documents (fst (setConversationState d uid (Int id) state meta))
        = documents d).
Proof.
  intros Hrow Hu.
  split; [|split; [|split]].
  - rewrite (setConversationState_found d uid id row _ _ Hrow Hu). cbn [fst].
    rewrite getConversationState_stored. reflexivity.
  - rewrite (setConversationState_found d uid id row _ _ Hrow Hu). cbn [fst].
    rewrite getConversationState_stored.
    unfold getConversationState.
    rewrite (select_conv_found d uid id row Hrow Hu). reflexivity.
  - intros meta id' Hne.
    rewrite (setConversationState_found d uid id row _ _ Hrow Hu).
    cbn [fst conversations]. apply lookup_insert_ne. congruence.
  - intros meta.
    rewrite (setConversationState_found d uid id row _ _ Hrow Hu).
    reflexivity.
Qed.

Lemma state_round_trip_witness :
  getConversationState
    (fst (setConversationState sample_db 1 (Int 1) (Some [])
            (Some {[ u "n" := VNum NaN ]}))) 1 (Int 1)
  = (VNull, VObj {[ u "n" := VNull ]}).
Proof.
  destruct (state_round_trip sample_db 1 1
              (ConvRow 1 (Some FLOW_QG_DONE)
                 (Some (JsonText (VObj {[ u "a" := VNum (Int 1) ]}))))
              (Some []) {[ u "n" := VNum NaN ]}) as (H & _).
  - vm_compute. reflexivity.
  - reflexivity.
  - rewrite H. vm_compute. reflexivity.
Defined.

Lemma chat_rule_hit (now : jsstring) (d : database) (uid id : Z)
    (row : conv_row) (userMessage : jsstring) (hit : intent) :
  conversations d !! id = Some row -> row_user row = uid ->
  matchRuleIntent now userMessage
    (or_else (fst (getConversationState d uid (Int id))) (VStr ROOT_MENU))
    (props (or_else (snd (getConversationState d uid (Int id))) (VObj ∅)))
  = Some hit ->
  chat_rule now d uid id userMessage
  = (Database
       (<[id := ConvRow uid (Some (newState hit))
                  (Some (JSON_stringify
                           (VObj (merge_meta
                                    (props (or_else
                                       (snd (getConversationState d uid (Int id)))
                                       (VObj ∅)))
                                    (default ∅ (metaPatch hit))))))]>
          (conversations d)) (documents d),
     Some (reply hit)).
Proof.
  intros Hrow Hu Hhit.
  pose proof (dialog_state_nonempty _
                (newState_is_dialog_state _ _ _ _ _ Hhit)) as Hne.
  unfold chat_rule.
  destruct (getConversationState d uid (Int id)) as [st meta] eqn:Hst.
  cbn [fst snd] in Hhit. rewrite Hhit. cbn [fst snd].
  assert (Hcol : as_column (or_else (VStr (newState hit)) st)
                 = Some (newState hit)).
  { unfold or_else. cbn [truthy]. rewrite Hne. reflexivity. }
  rewrite Hcol, (setConversationState_found d uid id row _ _ Hrow Hu).
  reflexivity.
Qed.

Lemma state_value_nonempty (s : jsstring) :
  nonempty s = true -> state_value (Some s) = VStr s.
Proof.
  intros H. unfold state_value, or_else. cbn [truthy]. rewrite H. reflexivity.
Qed.



(* ===================================================================== *)
(** ** Properties of the scenario endpoints *)
(* ===================================================================== *)

Lemma tables_inverse :
  map_Forall (fun k s => BE_TO_FE !! s = Some k /\ nonempty k = true
                         /\ nonempty s = true) FE_TO_BE.
Proof. apply (bool_decide_unpack _). vm_compute. reflexivity. Qed.

Lemma table_key_truthy (id : value) (s : jsstring) :
  FE_TO_BE !! ToString id = Some s -> truthy id = true.
Proof.
  intros H. destruct id as [| |[|]|[|[|p|p]]|[|c r]|l|m]; try reflexivity.
  all: vm_compute in H; discriminate.
Qed.

Lemma jsonify_object (m : gmap jsstring value) :
  exists m', jsonify (VObj m) = VObj m'.
Proof. eexists. reflexivity. Qed.

Lemma getConversation_stored (c : gmap Z conv_row) (docs : list doc_row)
    (uid id : Z) (state : option jsstring) (m : option text) :
  getConversation (Database (<[id := ConvRow uid state m]> c) docs) uid (Int id)
  = Some (ConvRow uid state m).
Proof. unfold getConversation. rewrite select_conv_stored. reflexivity. Qed.

Lemma getConversation_found (d : database) (uid id : Z) (row : conv_row) :
  conversations d !! id = Some row -> row_user row = uid ->
  getConversation d uid (Int id) = Some row.
Proof.
  intros Hrow Hu. unfold getConversation.
  rewrite (select_conv_found d uid id row Hrow Hu). reflexivity.
Qed.

(** What [GET /api/scenario] answers after a state of the table is stored. *)
Lemma scenario_get_stored (c : gmap Z conv_row) (docs : list doc_row)
    (uid id : Z) (q : value) (s k : jsstring) (meta : gmap jsstring value) :
  ToNumber q = Int id -> nonempty s = true -> nonempty k = true ->
  BE_TO_FE !! s = Some k ->
  scenario_get
    (Database (<[id := ConvRow uid (Some s) (Some (JSON_stringify (VObj meta)))]> c)
              docs) uid q
  = Json 200 (scenario_body k (jsonify (VObj meta))).
Proof.
  intros Hq Hs Hk Hsk. unfold scenario_get. rewrite Hq. cbn [isFinite negb].
  rewrite getConversation_stored, getConversationState_stored.
  rewrite (state_value_nonempty s Hs). cbn [ToString].
  unfold table_get. rewrite Hsk.
  cbn [text_truthy JSON_stringify safeJSON JSON_parse default].
  destruct (jsonify_object meta) as [m' ->].
  unfold or_else. cbn [truthy]. rewrite Hk. reflexivity.
Qed.

(** X14: a front-end id of the table that is posted is the id the next read
    returns, with the merged metadata; the post changes the row of the
    conversation and nothing else. *)
Theorem scenario_round_trip (w : world) (uid cid : Z) (row : conv_row)
    (c id metaPatch : value) (s : jsstring) :
  conversations (db w) !! cid = Some row -> row_user row = uid ->
  ToNumber c = Int cid -> FE_TO_BE !! ToString id = Some s ->
  scenario_post uid c id metaPatch w
  = (Ret (Json 204 VUndef),
     stored w uid cid s (scenario_meta (db w) uid cid metaPatch))
  /\ scenario_get (db (snd (scenario_post uid c id metaPatch w))) uid c
     = Json 200 (scenario_body (ToString id)
                   (jsonify (VObj (scenario_meta (db w) uid cid metaPatch)))).
Proof.
  intros Hrow Hu Hc Hid.
  destruct (tables_inverse _ _ Hid) as (Hinv & Hk & Hs).
  assert (Hpost : scenario_post uid c id metaPatch w
                  = (Ret (Json 204 VUndef),
                     stored w uid cid s
                       (scenario_meta (db w) uid cid metaPatch))).
  { unfold scenario_post, bind, read_db, write_db, ret. rewrite Hc.
    rewrite (table_key_truthy id s Hid). cbn [isFinite negb orb].
    rewrite (getConversation_found _ _ _ _ Hrow Hu).
    unfold table_get. rewrite Hid.
    unfold or_else at 1. cbn [truthy]. rewrite Hs. cbn [as_column].
    rewrite (setConversationState_found _ _ _ row _ _ Hrow Hu).
    reflexivity. }
  split; [exact Hpost|].
  rewrite Hpost. cbn [snd stored db].
  apply scenario_get_stored; assumption.
Qed.

Lemma scenario_round_trip_witness :
  scenario_get
    (db (snd (scenario_post 1 (VNum (Int 1)) (VStr (u "2-1"))
                (VObj {[ u "courseName" := VStr (u "algebra") ]}) sample_world)))
    1 (VNum (Int 1))
  = Json 200
      (scenario_body (u "2-1")
         (VObj (<[u "courseName" := VStr (u "algebra")]>
                {[ u "a" := VNum (Int 1) ]}))).
Proof.
  destruct (scenario_round_trip sample_world 1 1
              (ConvRow 1 (Some FLOW_QG_DONE)
                 (Some (JsonText (VObj {[ u "a" := VNum (Int 1) ]}))))
              (VNum (Int 1)) (VStr (u "2-1"))
              (VObj {[ u "courseName" := VStr (u "algebra") ]})
              FLOW_UPLOAD_DOC_CONFIG) as [_ H].
  - vm_compute. reflexivity.
  - reflexivity.
  - reflexivity.
  - vm_compute. reflexivity.
  - rewrite H. vm_compute. reflexivity.
Defined.

(** X15: an id that has a text form, that the table does not know and that
    is no name of [Object.prototype] sends the conversation to the root
    menu, and the next read returns the id root. *)
Theorem scenario_unknown_id (w : world) (uid cid : Z) (row : conv_row)
    (c id metaPatch : value) :
  conversations (db w) !! cid = Some row -> row_user row = uid ->
  ToNumber c = Int cid -> truthy id = true -> converts id = true ->
  table_get FE_TO_BE (ToString id) = Absent ->
  scenario_post uid c id metaPatch w
  = (Ret (Json 204 VUndef),
     stored w uid cid ROOT_MENU (scenario_meta (db w) uid cid metaPatch))
  /\ scenario_get (db (snd (scenario_post uid c id metaPatch w))) uid c
     = Json 200 (scenario_body (u "root")
                   (jsonify (VObj (scenario_meta (db w) uid cid metaPatch)))).
Proof.
  intros Hrow Hu Hc Hid _ Habs.
  assert (Hpost : scenario_post uid c id metaPatch w
                  = (Ret (Json 204 VUndef),
                     stored w uid cid ROOT_MENU
                       (scenario_meta (db w) uid cid metaPatch))).
  { unfold scenario_post, bind, read_db, write_db, ret. rewrite Hc, Hid.
    cbn [isFinite negb orb].
    rewrite (getConversation_found _ _ _ _ Hrow Hu). rewrite Habs.
    cbn [as_column].
    rewrite (setConversationState_found _ _ _ row _ _ Hrow Hu).
    reflexivity. }
  split; [exact Hpost|].
  rewrite Hpost. cbn [snd stored db].
  apply scenario_get_stored; [exact Hc| | |]; vm_compute; reflexivity.
Qed.

Lemma scenario_unknown_id_witness :
  scenario_get
    (db (snd (scenario_post 1 (VNum (Int 1)) (VStr (u "3")) VNull sample_world)))
    1 (VNum (Int 1))
  = Json 200 (scenario_body (u "root") (VObj {[ u "a" := VNum (Int 1) ]})).
Proof.
  destruct (scenario_unknown_id sample_world 1 1
              (ConvRow 1 (Some FLOW_QG_DONE)
                 (Some (JsonText (VObj {[ u "a" := VNum (Int 1) ]}))))
              (VNum (Int 1)) (VStr (u "3")) VNull) as [_ H].
  - vm_compute. reflexivity.
  - reflexivity.
  - reflexivity.
  - reflexivity.
  - reflexivity.
  - vm_compute. reflexivity.
  - rewrite H. vm_compute. reflexivity.
Defined.

Lemma dialog_state_id (s : jsstring) :
  In s dialog_states ->
  exists k, BE_TO_FE !! s = Some k /\ nonempty k = true
            /\ In (k, s) FE_TO_BE_entries.
Proof.
  unfold dialog_states. cbn [In].
  intros [<-|[<-|[<-|[<-|[<-|[<-|[]]]]]]]; eexists.
  all: split; [vm_compute; reflexivity|split; [reflexivity|in_list]].
Qed.

(** X16: after a chat message that a rule answers, the scenario endpoint
    shows the front-end id the table lists for the state of the rule, and
    the merged metadata: every state the engine stores has an id. *)
Theorem scenario_after_chat (now : jsstring) (d : database) (uid id : Z)
    (row : conv_row) (userMessage : jsstring) (hit : intent) :
  conversations d !! id = Some row -> row_user row = uid ->
  matchRuleIntent now userMessage
    (or_else (fst (getConversationState d uid (Int id))) (VStr ROOT_MENU))
    (props (or_else (snd (getConversationState d uid (Int id))) (VObj ∅)))
  = Some hit ->
  exists fe,
    In (fe, newState hit) FE_TO_BE_entries
    /\ scenario_get (fst (chat_rule now d uid id userMessage)) uid (VNum (Int id))
       = Json 200
           (scenario_body fe
              (jsonify (VObj (merge_meta
                 (props (or_else (snd (getConversationState d uid (Int id)))
                                 (VObj ∅)))
                 (default ∅ (metaPatch hit)))))).
Proof.
  intros Hrow Hu Hhit.
  pose proof (newState_is_dialog_state _ _ _ _ _ Hhit) as Hin.
  destruct (dialog_state_id _ Hin) as (k & Hk & Hne & Hent).
  exists k. split; [exact Hent|].
  rewrite (chat_rule_hit now d uid id row userMessage hit Hrow Hu Hhit).
  cbn [fst].
  apply scenario_get_stored;
    [reflexivity|apply dialog_state_nonempty, Hin|exact Hne|exact Hk].
Qed.

Lemma scenario_after_chat_witness :
  exists fe,
    In (fe, FLOW_UPLOAD_DOC_CONFIG) FE_TO_BE_entries
    /\ scenario_get
         (fst (chat_rule (u "2025-04-01T09:00:00.000Z") sample_db 1 1 (u "back")))
         1 (VNum (Int 1))
       = Json 200 (scenario_body fe (VObj {[ u "a" := VNum (Int 1) ]})).
Proof.
  destruct (scenario_after_chat (u "2025-04-01T09:00:00.000Z") sample_db 1 1
              (ConvRow 1 (Some FLOW_QG_DONE)
                 (Some (JsonText (VObj {[ u "a" := VNum (Int 1) ]}))))
              (u "back")
              (Intent (u "設定に戻ります。") FLOW_UPLOAD_DOC_CONFIG None))
    as (fe & H1 & H2).
  - vm_compute. reflexivity.
  - reflexivity.
  - vm_compute. reflexivity.
  - exists fe. split; [exact H1|]. rewrite H2. vm_compute. reflexivity.
Defined.

(* ===================================================================== *)
(** ** Properties of the documents and the upload route *)
(* ===================================================================== *)

Lemma insert_by_perm before r l : insert_by before r l ≡ₚ r :: l.
Proof.
  induction l as [|x l IH]; cbn [insert_by]; [reflexivity|].
  destruct (before x r); [|reflexivity].
  rewrite IH. apply Permutation_swap.
Qed.

Lemma sort_by_perm before l : sort_by before l ≡ₚ l.
Proof.
  induction l as [|x l IH]; cbn [sort_by fold_right]; [reflexivity|].
  fold (sort_by before l). rewrite insert_by_perm, IH. reflexivity.
Qed.

Lemma insert_by_front before r l :
  Forall (fun y => before y r = false) l -> insert_by before r l = r :: l.
Proof.
  intros H. destruct H as [|x l Hx _]; cbn [insert_by]; [reflexivity|].
  rewrite Hx. reflexivity.
Qed.

Lemma insert_by_back before r l :
  Forall (fun y => before y r = true) l -> insert_by before r l = l ++ [r].
Proof.
  induction 1 as [|x l Hx _ IH]; cbn [insert_by]; [reflexivity|].
  rewrite Hx, IH. reflexivity.
Qed.

Lemma insert_desc_descending r l :
  descending l -> doc_id r ∉ List.map doc_id l ->
  descending (insert_by id_desc r l).
Proof.
  unfold descending. induction 1 as [|x l Hl IH Hx]; intros Hr;
    cbn [insert_by].
  - repeat constructor.
  - cbn [List.map] in Hr. apply not_elem_of_cons in Hr. destruct Hr as [Hrx Hrl].
    unfold id_desc at 1. destruct (Z.ltb_spec (doc_id r) (doc_id x)) as [Hlt|Hge].
    + constructor; [apply IH, Hrl|].
      rewrite insert_by_perm. constructor; [exact Hlt|exact Hx].
    + constructor; [constructor; assumption|].
      constructor; [lia|].
      eapply Forall_impl; [exact Hx|]. cbn. intros y Hy. lia.
Qed.

Lemma sort_desc_descending l :
  NoDup (List.map doc_id l) -> descending (sort_by id_desc l).
Proof.
  induction l as [|x l IH]; cbn [List.map sort_by fold_right]; intros Hnd.
  - constructor.
  - fold (sort_by id_desc l). apply NoDup_cons in Hnd. destruct Hnd as [Hx Hnd].
    apply insert_desc_descending; [apply IH, Hnd|].
    rewrite (sort_by_perm id_desc l). exact Hx.
Qed.

Lemma filter_insert_desc (P : doc_row -> bool) r l :
  descending l ->
  List.filter P (insert_by id_desc r l)
  = if P r then insert_by id_desc r (List.filter P l) else List.filter P l.
Proof.
  unfold descending. induction 1 as [|x l Hl IH Hx]; cbn [insert_by List.filter].
  - destruct (P r); reflexivity.
  - unfold id_desc at 1. destruct (Z.ltb_spec (doc_id r) (doc_id x)) as [Hlt|Hge].
    + cbn [List.filter]. rewrite IH.
      destruct (P x), (P r); cbn [insert_by]; try reflexivity.
      unfold id_desc at 2. destruct (Z.ltb_spec (doc_id r) (doc_id x)); [|lia].
      reflexivity.
    + cbn [List.filter]. destruct (P r); [|reflexivity].
      symmetry. apply (insert_by_front id_desc r (List.filter P (x :: l))).
      apply Forall_forall. intros y Hy. apply list_elem_of_In in Hy.
      apply List.filter_In in Hy. destruct Hy as [Hy _].
      unfold id_desc. apply Z.ltb_ge.
      destruct Hy as [<-|Hy]; [exact Hge|].
      rewrite Forall_forall in Hx. apply list_elem_of_In in Hy.
      specialize (Hx y Hy). cbn in Hx. lia.
Qed.

Lemma NoDup_ids_filter (P : doc_row -> bool) l :
  NoDup (List.map doc_id l) -> NoDup (List.map doc_id (List.filter P l)).
Proof.
  induction l as [|x l IH]; cbn [List.map List.filter]; intros Hnd; [constructor|].
  apply NoDup_cons in Hnd. destruct Hnd as [Hx Hnd].
  destruct (P x); [|apply IH, Hnd]. cbn [List.map]. apply NoDup_cons.
  split; [|apply IH, Hnd].
  intros Hin. apply Hx. apply list_elem_of_In in Hin. apply list_elem_of_In.
  apply List.in_map_iff in Hin. destruct Hin as (y & Hy & Hin).
  apply List.filter_In in Hin. apply List.in_map_iff. exists y. tauto.
Qed.

Lemma sort_desc_filter (P : doc_row -> bool) l :
  NoDup (List.map doc_id l) ->
  sort_by id_desc (List.filter P l) = List.filter P (sort_by id_desc l).
Proof.
  induction l as [|x l IH]; cbn [List.map List.filter sort_by fold_right];
    intros Hnd; [reflexivity|].
  fold (sort_by id_desc l). apply NoDup_cons in Hnd. destruct Hnd as [Hx Hnd].
  rewrite (filter_insert_desc P x _ (sort_desc_descending l Hnd)).
  rewrite <- (IH Hnd). destruct (P x); reflexivity.
Qed.

Lemma sort_asc_descending l :
  descending l -> sort_by id_asc l = rev l.
Proof.
  unfold descending. induction 1 as [|x l Hl IH Hx];
    cbn [sort_by fold_right rev]; [reflexivity|].
  fold (sort_by id_asc l). rewrite IH. apply insert_by_back.
  apply Forall_rev. eapply Forall_impl; [exact Hx|].
  cbn. intros y Hy. unfold id_asc. apply Z.ltb_lt. exact Hy.
Qed.

Lemma sort_desc_newest r l :
  Forall (fun y => (doc_id y < doc_id r)%Z) l ->
  sort_by id_desc (l ++ [r]) = r :: sort_by id_desc l.
Proof.
  induction 1 as [|x l Hx _ IH]; [reflexivity|].
  cbn [app sort_by fold_right]. fold (sort_by id_desc (l ++ [r])).
  fold (sort_by id_desc l). rewrite IH. cbn [insert_by].
  unfold id_desc at 1. destruct (Z.ltb_spec (doc_id x) (doc_id r)); [|lia].
  reflexivity.
Qed.

Lemma kept_cons uid row D x :
  kept uid (row :: D) x = survives (doc_id row) uid x && kept uid D x.
Proof. reflexivity. Qed.

Lemma filter_kept_cons uid row D l :
  List.filter (kept uid D) (List.filter (survives (doc_id row) uid) l)
  = List.filter (kept uid (row :: D)) l.
Proof.
  induction l as [|x l IH]; [reflexivity|]. cbn [List.filter].
  rewrite kept_cons.
  destruct (survives (doc_id row) uid x); cbn [List.filter andb];
    rewrite IH; reflexivity.
Qed.

Lemma filter_comm (P Q : doc_row -> bool) l :
  List.filter P (List.filter Q l) = List.filter Q (List.filter P l).
Proof.
  induction l as [|x l IH]; [reflexivity|]. cbn [List.filter].
  destruct (P x) eqn:HP, (Q x) eqn:HQ; cbn [List.filter];
    rewrite ?HP, ?HQ, IH; reflexivity.
Qed.

Lemma kept_other_user uid uid' D r :
  uid' <> uid -> of_user uid' r = true -> kept uid D r = true.
Proof.
  intros Hne Hr. apply bool_decide_eq_true in Hr.
  unfold kept. apply forallb_forall. intros row _. unfold survives.
  rewrite (bool_decide_eq_false_2 (doc_user r = uid)) by congruence.
  rewrite andb_false_r. reflexivity.
Qed.

Lemma filter_kept_other uid uid' D l :
  uid' <> uid ->
  List.filter (of_user uid') (List.filter (kept uid D) l)
  = List.filter (of_user uid') l.
Proof.
  intros Hne. induction l as [|x l IH]; [reflexivity|]. cbn [List.filter].
  destruct (of_user uid' x) eqn:Hx.
  - rewrite (kept_other_user uid uid' D x Hne Hx). cbn [List.filter].
    rewrite Hx, IH. reflexivity.
  - destruct (kept uid D x); cbn [List.filter]; rewrite ?Hx, IH; reflexivity.
Qed.

Lemma filter_kept_split uid a b :
  NoDup (List.map doc_id (a ++ b)) ->
  Forall (fun r => of_user uid r = true) b ->
  List.filter (kept uid (rev b)) (a ++ b) = a.
Proof.
  intros Hnd Hb. rewrite List.filter_app.
  rewrite List.map_app in Hnd. apply NoDup_app in Hnd.
  destruct Hnd as (_ & Hdis & _).
  assert (Ha : List.filter (kept uid (rev b)) a = a).
  { apply List.forallb_filter_id. apply forallb_forall. intros r Hr.
    unfold kept. apply forallb_forall. intros row Hrow.
    apply List.in_rev in Hrow. unfold survives.
    rewrite (bool_decide_eq_false_2 (doc_id r = doc_id row)); [reflexivity|].
    intros Heq. apply (Hdis (doc_id r)).
    - apply list_elem_of_In, List.in_map, Hr.
    - rewrite Heq. apply list_elem_of_In, List.in_map, Hrow. }
  assert (Hb' : List.filter (kept uid (rev b)) b = []).
  { assert (Hall : forall r, In r b -> kept uid (rev b) r = false).
    { intros r Hr. unfold kept. apply not_true_is_false. intros Hk.
      rewrite forallb_forall in Hk.
      specialize (Hk r (proj1 (List.in_rev b r) Hr)).
      unfold survives in Hk.
      rewrite Forall_forall in Hb.
      specialize (Hb r (proj2 (list_elem_of_In _ _) Hr)).
      unfold of_user in Hb. rewrite Hb in Hk.
      rewrite bool_decide_eq_true_2 in Hk by reflexivity. discriminate. }
    clear -Hall. revert Hall. generalize (kept uid (rev b)). intros K.
    induction b as [|x b IH]; intros Hall; [reflexivity|].
    cbn [List.filter]. rewrite (Hall x (or_introl eq_refl)).
    apply IH. intros r Hr. apply Hall. right. exact Hr. }
  rewrite Ha, Hb'. apply app_nil_r.
Qed.

Lemma bind_run {A B} (m : M A) (k : A -> M B) (w w1 : world) (a : A) :
  m w = (Ret a, w1) -> bind m k w = k a w1.
Proof. intros H. unfold bind. rewrite H. reflexivity. Qed.

Lemma loop_body_db uid cb row w :
  quiet cb ->
  fst (loop_body uid cb row w) = Ret tt
  /\ db (snd (loop_body uid cb row w))
     = Database (conversations (db w))
                (List.filter (survives (doc_id row) uid) (documents (db w))).
Proof.
  intros Hq. unfold loop_body, bind. destruct cb as [f|].
  - specialize (Hq f eq_refl row w). unfold try_catch.
    destruct (f row w) as [[[]|e] w1]; cbn [snd] in Hq; cbn [fst snd];
      unfold delete_document; cbn [fst snd db]; rewrite Hq; split; reflexivity.
  - unfold ret, delete_document. cbn [fst snd db]. split; reflexivity.
Qed.

Lemma for_each_db uid cb D : forall w,
  quiet cb ->
  fst (for_each D (loop_body uid cb) w) = Ret tt
  /\ db (snd (for_each D (loop_body uid cb) w))
     = Database (conversations (db w))
                (List.filter (kept uid D) (documents (db w))).
Proof.
  induction D as [|row D IH]; intros w Hq.
  - cbn [for_each]. unfold ret. cbn [fst snd]. split; [reflexivity|].
    unfold kept. cbn [forallb].
    rewrite List.forallb_filter_id; [destruct (db w); reflexivity|].
    apply forallb_forall. reflexivity.
  - cbn [for_each].
    destruct (loop_body_db uid cb row w Hq) as [H1 H2].
    destruct (loop_body uid cb row w) as [o w1] eqn:E. cbn [fst snd] in H1, H2.
    subst o. rewrite (bind_run _ _ _ _ _ E).
    destruct (IH w1 Hq) as [H3 H4].
    split; [exact H3|]. rewrite H4, H2. cbn [conversations documents].
    rewrite filter_kept_cons. reflexivity.
Qed.

Lemma deleteOld_unfold uid keep cb w :
  deleteOldDocumentsKeepLatest uid keep cb w
  = if (length (listDocumentsAll (db w) uid) <=? keep)%nat then (Ret [], w)
    else
      match for_each
              (take (length (listDocumentsAll (db w) uid) - keep)
                 (sort_by id_asc (listDocumentsAll (db w) uid)))
              (loop_body uid cb) w with
      | (Ret _, w') =>
        (Ret (take (length (listDocumentsAll (db w) uid) - keep)
                (sort_by id_asc (listDocumentsAll (db w) uid))), w')
      | (Throw e, w') => (Throw e, w')
      end.
Proof.
  unfold deleteOldDocumentsKeepLatest, bind at 1, read_db.
  destruct (length (listDocumentsAll (db w) uid) <=? keep)%nat; [reflexivity|].
  unfold bind at 1. reflexivity.
Qed.

Lemma listDocumentsAll_descending d uid :
  ids_unique d -> descending (listDocumentsAll d uid).
Proof.
  intros H. apply sort_desc_descending, NoDup_ids_filter, H.
Qed.

Lemma listDocumentsAll_user d uid :
  Forall (fun r => of_user uid r = true) (listDocumentsAll d uid).
Proof.
  unfold listDocumentsAll. rewrite sort_by_perm.
  apply Forall_forall. intros r Hr. apply list_elem_of_In in Hr.
  apply List.filter_In in Hr. tauto.
Qed.

Lemma listDocumentsAll_ids d uid :
  ids_unique d -> NoDup (List.map doc_id (listDocumentsAll d uid)).
Proof.
  intros H. unfold listDocumentsAll.
  rewrite (Permutation_map doc_id (sort_by_perm id_desc _)).
  apply NoDup_ids_filter, H.
Qed.

Lemma oldest_first (l : list doc_row) (keep : nat) :
  take (length l - keep) (rev l) = rev (drop keep l).
Proof.
  destruct (Nat.le_gt_cases keep (length l)) as [Hle|Hgt].
  - rewrite <- (take_drop keep l) at 2. rewrite rev_app_distr.
    rewrite take_app_length'; [reflexivity|].
    rewrite length_rev, length_drop. reflexivity.
  - rewrite drop_ge by lia. replace (length l - keep)%nat with 0%nat by lia.
    reflexivity.
Qed.

(** The outcome of [deleteOldDocumentsKeepLatest] for a quiet callback. *)
Lemma deleteOld_result uid keep cb w :
  ids_unique (db w) -> quiet cb ->
  fst (deleteOldDocumentsKeepLatest uid keep cb w)
  = Ret (rev (drop keep (listDocumentsAll (db w) uid)))
  /\ db (snd (deleteOldDocumentsKeepLatest uid keep cb w))
     = Database (conversations (db w))
         (List.filter
            (kept uid (rev (drop keep (listDocumentsAll (db w) uid))))
            (documents (db w))).
Proof.
  intros Hid Hq. rewrite deleteOld_unfold.
  destruct (Nat.leb_spec (length (listDocumentsAll (db w) uid)) keep) as [Hle|Hgt].
  - rewrite drop_ge by exact Hle. cbn [rev fst snd]. split; [reflexivity|].
    unfold kept. cbn [forallb].
    rewrite List.forallb_filter_id; [destruct (db w); reflexivity|].
    apply forallb_forall. reflexivity.
  - rewrite (sort_asc_descending _ (listDocumentsAll_descending _ uid Hid)).
    rewrite oldest_first.
    destruct (for_each_db uid cb
                (rev (drop keep (listDocumentsAll (db w) uid))) w Hq)
      as [H1 H2].
    destruct (for_each _ (loop_body uid cb) w) as [o w'].
    cbn [fst snd] in H1, H2. subst o. cbn [fst snd].
    split; [reflexivity|exact H2].
Qed.

Lemma listDocumentsAll_kept d uid keep c :
  ids_unique d ->
  listDocumentsAll
    (Database c
       (List.filter (kept uid (rev (drop keep (listDocumentsAll d uid))))
          (documents d))) uid
  = take keep (listDocumentsAll d uid).
Proof.
  intros Hid. unfold listDocumentsAll at 1. cbn [documents].
  rewrite filter_comm, sort_desc_filter by (apply NoDup_ids_filter, Hid).
  fold (listDocumentsAll d uid).
  rewrite <- (take_drop keep (listDocumentsAll d uid)) at 2.
  apply filter_kept_split.
  - rewrite take_drop. apply listDocumentsAll_ids, Hid.
  - apply Forall_drop, listDocumentsAll_user.
Qed.

Lemma listDocumentsAll_other d uid uid' D c :
  uid' <> uid ->
  listDocumentsAll (Database c (List.filter (kept uid D) (documents d))) uid'
  = listDocumentsAll d uid'.
Proof.
  intros Hne. unfold listDocumentsAll. cbn [documents].
  rewrite filter_kept_other by exact Hne. reflexivity.
Qed.

(** X17: [deleteOldDocumentsKeepLatest] returns the rows of the user beyond
    the [keep] latest, oldest first, and leaves the user exactly the [keep]
    latest; the documents of every other user and the conversations stay. *)
Theorem deleteOldDocumentsKeepLatest_keeps (w : world) (uid : Z) (keep : nat)
    (onBeforeDelete : option (doc_row -> M unit)) :
  ids_unique (db w) -> quiet onBeforeDelete ->
  fst (deleteOldDocumentsKeepLatest uid keep onBeforeDelete w)
  = Ret (rev (drop keep (listDocumentsAll (db w) uid)))
  /\ listDocumentsAll
       (db (snd (deleteOldDocumentsKeepLatest uid keep onBeforeDelete w))) uid
     = take keep (listDocumentsAll (db w) uid)
  /\ (forall uid', uid' <> uid ->
        listDocumentsAll
          (db (snd (deleteOldDocumentsKeepLatest uid keep onBeforeDelete w)))
          uid'
        = listDocumentsAll (db w) uid')
  /\ conversations
       (db (snd (deleteOldDocumentsKeepLatest uid keep onBeforeDelete w)))
     = conversations (db w).
Proof.
  intros Hid Hq.
  destruct (deleteOld_result uid keep onBeforeDelete w Hid Hq) as [H1 H2].
  split; [exact H1|]. rewrite H2. split; [|split].
  - apply listDocumentsAll_kept, Hid.
  - intros uid' Hne. apply listDocumentsAll_other, Hne.
  - reflexivity.
Qed.

Lemma deleteOldDocumentsKeepLatest_keeps_witness :
  fst (deleteOldDocumentsKeepLatest 1 2 None docs_world)
  = Ret [DocRow 1 1 (u "a.mp4") (u "1_1_a.mp4") (u "a.mp4")]
  /\ List.map doc_id
       (listDocumentsAll
          (db (snd (deleteOldDocumentsKeepLatest 1 2 None docs_world))) 1)
     = [4%Z; 3%Z].
Proof.
  destruct (deleteOldDocumentsKeepLatest_keeps docs_world 1 2 None)
    as (H1 & H2 & _).
  - apply (bool_decide_unpack _). vm_compute. exact I.
  - intros f Hf. discriminate Hf.
  - rewrite H1, H2. split; vm_compute; reflexivity.
Defined.

Lemma unlink_quiet cwd : quiet (Some (unlink_upload cwd)).
Proof. intros f Hf row w. injection Hf as <-. reflexivity. Qed.

Lemma for_each_files cwd uid D : forall w,
  files (snd (for_each D (loop_body uid (Some (unlink_upload cwd))) w))
  = unlink_all cwd D (files w).
Proof.
  induction D as [|row D IH]; intros w; [reflexivity|].
  cbn [for_each].
  rewrite (bind_run _ _ w
             (World (Database (conversations (db w))
                       (List.filter (survives (doc_id row) uid)
                          (documents (db w))))
                    (delete (stored_path cwd row) (files w))
                    (convJobMap w) (trace w)) tt) by reflexivity.
  rewrite IH. reflexivity.
Qed.

Lemma unlink_all_removed cwd D : forall fs row,
  In row D -> unlink_all cwd D fs !! stored_path cwd row = None.
Proof.
  induction D as [|x D IH] using rev_ind; intros fs row Hin; [destruct Hin|].
  unfold unlink_all. rewrite fold_left_app. cbn [fold_left].
  fold (unlink_all cwd D fs).
  apply List.in_app_iff in Hin. destruct Hin as [Hin|[<-|[]]].
  - destruct (decide (stored_path cwd x = stored_path cwd row)) as [->|Hne].
    + apply lookup_delete_eq.
    + rewrite lookup_delete_ne by exact Hne. apply IH, Hin.
  - apply lookup_delete_eq.
Qed.

Lemma unlink_all_other cwd D : forall fs p,
  (forall row, In row D -> stored_path cwd row <> p) ->
  unlink_all cwd D fs !! p = fs !! p.
Proof.
  induction D as [|x D IH]; intros fs p Hp; [reflexivity|].
  cbn [unlink_all fold_left]. fold (unlink_all cwd D (delete (stored_path cwd x) fs)).
  rewrite IH by (intros row Hrow; apply Hp; right; exact Hrow).
  apply lookup_delete_ne, Hp. left. reflexivity.
Qed.

Lemma deleteOld_files cwd uid keep w :
  ids_unique (db w) ->
  files (snd (deleteOldDocumentsKeepLatest uid keep
                (Some (unlink_upload cwd)) w))
  = unlink_all cwd (rev (drop keep (listDocumentsAll (db w) uid))) (files w).
Proof.
  intros Hid. rewrite deleteOld_unfold.
  destruct (Nat.leb_spec (length (listDocumentsAll (db w) uid)) keep) as [Hle|Hgt].
  - rewrite drop_ge by exact Hle. reflexivity.
  - rewrite (sort_asc_descending _ (listDocumentsAll_descending _ uid Hid)).
    rewrite oldest_first.
    pose proof (for_each_files cwd uid
                  (rev (drop keep (listDocumentsAll (db w) uid))) w) as Hf.
    destruct (for_each_db uid (Some (unlink_upload cwd))
                (rev (drop keep (listDocumentsAll (db w) uid))) w
                (unlink_quiet cwd)) as [H1 _].
    destruct (for_each _ (loop_body uid (Some (unlink_upload cwd))) w)
      as [o w'].
    cbn [fst snd] in H1, Hf. subst o. exact Hf.
Qed.

Lemma fresh_ids_unique (d : database) (id : Z) (row : doc_row) :
  ids_unique d -> fresh_id d id -> doc_id row = id ->
  ids_unique (Database (conversations d) (documents d ++ [row])).
Proof.
  unfold ids_unique, fresh_id. cbn [documents]. intros Hnd Hf Hrow.
  rewrite List.map_app. apply NoDup_app. split; [exact Hnd|].
  split; [|cbn [List.map]; apply NoDup_singleton].
  intros x Hx Hx'. cbn [List.map] in Hx'. apply list_elem_of_singleton in Hx'.
  apply list_elem_of_In, List.in_map_iff in Hx. destruct Hx as (y & Hy & Hin).
  rewrite Forall_forall in Hf. apply list_elem_of_In in Hin.
  specialize (Hf y Hin). cbn in Hf. lia.
Qed.

Lemma listDocumentsAll_inserted (d : database) (id uid : Z) (row : doc_row) :
  fresh_id d id -> doc_id row = id -> doc_user row = uid ->
  listDocumentsAll (Database (conversations d) (documents d ++ [row])) uid
  = row :: listDocumentsAll d uid.
Proof.
  intros Hf Hid Hu. unfold listDocumentsAll. cbn [documents].
  rewrite List.filter_app. cbn [List.filter]. unfold of_user at 2.
  rewrite bool_decide_eq_true_2 by exact Hu.
  apply sort_desc_newest.
  apply Forall_forall. intros y Hy. apply list_elem_of_In in Hy.
  apply List.filter_In in Hy. destruct Hy as [Hy _].
  unfold fresh_id in Hf. rewrite Forall_forall in Hf.
  apply list_elem_of_In in Hy. specialize (Hf y Hy). cbn in Hf. lia.
Qed.

Lemma listDocumentsAll_inserted_other (d : database) (uid uid' : Z)
    (row : doc_row) :
  doc_user row = uid -> uid' <> uid ->
  listDocumentsAll (Database (conversations d) (documents d ++ [row])) uid'
  = listDocumentsAll d uid'.
Proof.
  intros Hu Hne. unfold listDocumentsAll. cbn [documents].
  rewrite List.filter_app. cbn [List.filter]. unfold of_user at 2.
  rewrite bool_decide_eq_false_2 by congruence.
  rewrite app_nil_r. reflexivity.
Qed.

(** X18: an upload answers with the new document and the documents it
    removed; afterwards the user has the new document and the nine latest of
    before, the removed rows are the older ones, their stored files are
    unlinked and no other file is; the documents of every other user and the
    conversations stay. *)
Theorem upload_keeps_ten (cwd : jsstring) (w : world) (uid id : Z)
    (originalname filename : jsstring) :
  ids_unique (db w) -> fresh_id (db w) id ->
  fst (upload cwd uid id (Some (originalname, filename)) w)
  = Ret (Json 200
           (upload_body (uploaded_row id uid originalname filename)
              (rev (drop 9 (listDocumentsAll (db w) uid)))))
  /\ listDocumentsAll
       (db (snd (upload cwd uid id (Some (originalname, filename)) w))) uid
     = uploaded_row id uid originalname filename
       :: take 9 (listDocumentsAll (db w) uid)
  /\ (forall uid', uid' <> uid ->
        listDocumentsAll
          (db (snd (upload cwd uid id (Some (originalname, filename)) w))) uid'
        = listDocumentsAll (db w) uid')
  /\ conversations
       (db (snd (upload cwd uid id (Some (originalname, filename)) w)))
     = conversations (db w)
  /\ (forall row, In row (drop 9 (listDocumentsAll (db w) uid)) ->
        files (snd (upload cwd uid id (Some (originalname, filename)) w))
        !! stored_path cwd row = None)
  /\ (forall p,
        (forall row, In row (drop 9 (listDocumentsAll (db w) uid)) ->
                     stored_path cwd row <> p) ->
        files (snd (upload cwd uid id (Some (originalname, filename)) w)) !! p
        = files w !! p).
Proof.
  intros Hid Hfresh.
  set (new := uploaded_row id uid originalname filename).
  set (w1 := World (Database (conversations (db w)) (documents (db w) ++ [new]))
                   (files w) (convJobMap w) (trace w)).
  assert (Hid1 : ids_unique (db w1)).
  { apply (fresh_ids_unique (db w) id new Hid Hfresh). reflexivity. }
  assert (Hall : listDocumentsAll (db w1) uid
                 = new :: listDocumentsAll (db w) uid).
  { apply (listDocumentsAll_inserted (db w) id uid new Hfresh); reflexivity. }
  destruct (deleteOld_result uid 10 (Some (unlink_upload cwd)) w1 Hid1
              (unlink_quiet cwd)) as [H1 H2].
  pose proof (deleteOld_files cwd uid 10 w1 Hid1) as H3.
  rewrite Hall in H1, H3. cbn [drop] in H1, H3.
  assert (Hup : upload cwd uid id (Some (originalname, filename)) w
                = (Ret (Json 200
                          (upload_body new
                             (rev (drop 9 (listDocumentsAll (db w) uid))))),
                   snd (deleteOldDocumentsKeepLatest uid 10
                          (Some (unlink_upload cwd)) w1))).
  { unfold upload.
    rewrite (bind_run _ _ w w1 new) by reflexivity.
    destruct (deleteOldDocumentsKeepLatest uid 10 (Some (unlink_upload cwd)) w1)
      as [o w2] eqn:E.
    cbn [fst] in H1. subst o.
    rewrite (bind_run _ _ w1 w2 _ E). reflexivity. }
  rewrite Hup. cbn [fst snd].
  split; [reflexivity|]. rewrite H2, H3. cbn [conversations files w1].
  split; [|split; [|split; [reflexivity|split]]].
  - rewrite (listDocumentsAll_kept (db w1) uid 10 _ Hid1), Hall. reflexivity.
  - intros uid' Hne. rewrite listDocumentsAll_other by exact Hne.
    apply (listDocumentsAll_inserted_other (db w) uid uid' new);
      [reflexivity|exact Hne].
  - intros row Hrow. apply unlink_all_removed, List.in_rev.
    rewrite rev_involutive. exact Hrow.
  - intros p Hp. apply unlink_all_other. intros row Hrow.
    apply Hp, List.in_rev. exact Hrow.
Qed.

Lemma upload_keeps_ten_witness :
  List.map doc_id
    (listDocumentsAll
       (db (snd (upload (u "/srv") 1 5
                   (Some (u "e.mp4", u "1_5_e.mp4")) docs_world))) 1)
  = [5%Z; 4%Z; 3%Z; 1%Z].
Proof.
  destruct (upload_keeps_ten (u "/srv") docs_world 1 5 (u "e.mp4")
              (u "1_5_e.mp4")) as (_ & H & _).
  - apply (bool_decide_unpack _). vm_compute. exact I.
  - unfold fresh_id. repeat constructor.
  - rewrite H. vm_compute. reflexivity.
Defined.

Lemma largest_pick uid l :
  largest (List.filter (of_user uid) l) (fold_left (pick uid) l None).
Proof.
  induction l as [|x l IH] using rev_ind; [reflexivity|].
  rewrite fold_left_app, List.filter_app. cbn [fold_left List.filter].
  unfold pick at 1, of_user at 2.
  destruct (bool_decide (doc_user x = uid)); [|rewrite app_nil_r; exact IH].
  destruct (fold_left (pick uid) l None) as [b|]; cbn [largest] in IH |- *.
  - destruct IH as [Hin Hall].
    destruct (Z.ltb_spec (doc_id b) (doc_id x)) as [Hlt|Hge].
    + split; [apply List.in_app_iff; right; left; reflexivity|].
      apply Forall_app. split; [|repeat constructor; lia].
      eapply Forall_impl; [exact Hall|]. cbn. intros y Hy. lia.
    + split; [apply List.in_app_iff; left; exact Hin|].
      apply Forall_app. split; [exact Hall|repeat constructor; lia].
  - rewrite IH. split; [left; reflexivity|repeat constructor; lia].
Qed.

Lemma largest_head l :
  descending l -> largest l (head l).
Proof.
  intros H. destruct H as [|x l Hl Hx]; [reflexivity|].
  cbn [head largest]. split; [left; reflexivity|].
  constructor; [lia|]. eapply Forall_impl; [exact Hx|]. cbn. intros y Hy. lia.
Qed.

Lemma largest_perm l l' m : l ≡ₚ l' -> largest l m -> largest l' m.
Proof.
  intros Hp. destruct m as [r|]; cbn [largest].
  - intros [Hin Hall]. split.
    + apply list_elem_of_In. rewrite <- Hp. apply list_elem_of_In, Hin.
    + rewrite <- Hp. exact Hall.
  - intros ->. symmetry in Hp. apply Permutation_nil_r in Hp. exact Hp.
Qed.

Lemma ids_injective l a b :
  NoDup (List.map doc_id l) -> In a l -> In b l -> doc_id a = doc_id b -> a = b.
Proof.
  induction l as [|x l IH]; cbn [List.map]; intros Hnd Ha Hb Heq; [destruct Ha|].
  apply NoDup_cons in Hnd. destruct Hnd as [Hx Hnd].
  destruct Ha as [<-|Ha], Hb as [<-|Hb]; [reflexivity| | |apply IH; assumption].
  - exfalso. apply Hx. rewrite Heq. apply list_elem_of_In, List.in_map, Hb.
  - exfalso. apply Hx. rewrite <- Heq. apply list_elem_of_In, List.in_map, Ha.
Qed.

Lemma largest_unique l m m' :
  NoDup (List.map doc_id l) -> largest l m -> largest l m' -> m = m'.
Proof.
  intros Hnd. destruct m as [r|], m' as [r'|]; cbn [largest].
  - intros [Hin Hall] [Hin' Hall']. f_equal.
    apply (ids_injective l); try assumption.
    rewrite Forall_forall in Hall, Hall'.
    pose proof (Hall r' (proj2 (list_elem_of_In _ _) Hin')) as H1.
    pose proof (Hall' r (proj2 (list_elem_of_In _ _) Hin)) as H2.
    cbn in H1, H2. lia.
  - intros [Hin _] ->. destruct Hin.
  - intros -> [Hin _]. destruct Hin.
  - reflexivity.
Qed.

(** The row the start request falls back to is the first row of
    [listDocuments(user_id, 1)]. *)
Lemma latest_document_head (d : database) (uid : Z) :
  ids_unique d -> latest_document d uid = head (listDocuments d uid 1).
Proof.
  intros Hid.
  assert (Hh : head (listDocuments d uid 1) = head (listDocumentsAll d uid)).
  { unfold listDocuments. destruct (listDocumentsAll d uid); reflexivity. }
  rewrite Hh.
  apply (largest_unique (List.filter (of_user uid) (documents d))).
  - apply NoDup_ids_filter, Hid.
  - apply (largest_pick uid (documents d)).
  - apply (largest_perm (listDocumentsAll d uid)).
    + apply sort_by_perm.
    + apply largest_head, listDocumentsAll_descending, Hid.
Qed.

(* ===================================================================== *)
(** ** Further properties of the orchestrator *)
(* ===================================================================== *)

Lemma hex_nonempty (random : list N) : random <> [] -> hex random <> [].
Proof. destruct random; [congruence|discriminate]. Qed.

Lemma poll_record cwd (w : world) (uid n : Z) (jobId s m : jsstring) :
  jobId <> [] ->
  convJobMap w !! registry_key uid (VNum (Int n)) = Some jobId ->
  files w !! progressFile cwd (VStr jobId) = Some (JSON_stringify (record s m)) ->
  poll cwd uid n w = Ret (Json 200 (record s m)).
Proof.
  intros Hid Hreg Hfile. unfold poll; unfold_progress.
  rewrite (resolved_job_by_conversation w uid (VStr (Z_to_js n)) jobId).
  - assert (Ht : truthy (VStr jobId) = true)
      by (destruct jobId; [congruence|reflexivity]).
    rewrite Ht. cbn [negb]. rewrite Hfile.
    unfold JSON_stringify. cbn [JSON_parse]. rewrite jsonify_record.
    reflexivity.
  - apply Z_to_js_nonempty.
  - rewrite (proj1 (registry_key_canonical uid n)). exact Hreg.
Qed.

Lemma deliver_w1_success cwd PB w j :
  exists args,
    deliver cwd PB w (W1Exit j (Some 0%Z))
    = World (db w)
        (<[progPath j := JSON_stringify (record (u "qa") (u "問題生成: 開始"))]>
           (files w))
        (convJobMap w)
        (trace w ++ [Wrote (progPath j) (record (u "qa") (u "問題生成: 開始"));
                     Spawned (pyBin PB) args]).
Proof.
  eexists. cbv beta iota zeta delta [deliver w1_on_exit bind writeFileSync launch].
  rewrite bool_decide_eq_true_2 by reflexivity.
  cbn [snd db files convJobMap trace]. rewrite <- app_assoc. reflexivity.
Qed.

Lemma deliver_qa_exit cwd PB w j code :
  deliver cwd PB w (QaExit j code)
  = World (db w)
      (<[progPath j :=
           JSON_stringify
             (if bool_decide (code = Some 0%Z) then record (u "done") (u "完了")
              else record (u "error") (u "qa exit " ++ code_text code))]>
         (files w))
      (convJobMap w)
      (trace w ++ [Wrote (progPath j)
                     (if bool_decide (code = Some 0%Z)
                      then record (u "done") (u "完了")
                      else record (u "error") (u "qa exit " ++ code_text code))]).
Proof. reflexivity. Qed.

(** X19: the life of a job as the poll of its conversation sees it: after
    the start the record of the analysis, after stage 1 exits with 0 the
    record of stage qa, after stage 2 exits with 0 the record done, and
    after stage 2 exits otherwise or fails to run the record error with the
    diagnostic. *)
Theorem job_life_cycle (cwd : jsstring) (PYTHON_BIN : value) (w w1 : world)
    (uid n : Z) (random : list N) (body : value) (j : job) :
  process_start cwd PYTHON_BIN uid (VNum (Int n)) random w
  = (Ret (Json 200 body), w1) ->
  random <> [] -> job_of cwd random j ->
  body = VObj (<[u "ok" := VBool true]> (<[u "jobId" := VStr (hex random)]> ∅))
  /\ poll cwd uid n w1
     = Ret (Json 200 (record (u "analysis") (u "内容分析処理: OCRを開始")))
  /\ poll cwd uid n (deliver cwd PYTHON_BIN w1 (W1Exit j (Some 0%Z)))
     = Ret (Json 200 (record (u "qa") (u "問題生成: 開始")))
  /\ poll cwd uid n
       (run_events cwd PYTHON_BIN w1
          [W1Exit j (Some 0%Z); QaExit j (Some 0%Z)])
     = Ret (Json 200 (record (u "done") (u "完了")))
  /\ (forall code, code <> Some 0%Z ->
        poll cwd uid n
          (run_events cwd PYTHON_BIN w1 [W1Exit j (Some 0%Z); QaExit j code])
        = Ret (Json 200 (record (u "error") (u "qa exit " ++ code_text code))))
  /\ (forall e,
        poll cwd uid n
          (run_events cwd PYTHON_BIN w1 [W1Exit j (Some 0%Z); QaError j e])
        = Ret (Json 200 (record (u "error") e))).
Proof.
  intros Hstart Hr Hj. unfold job_of in Hj.
  pose proof (hex_nonempty random Hr) as Hne.
  pose proof (process_start_result cwd PYTHON_BIN uid (VNum (Int n)) random w)
    as Hres.
  rewrite Hstart in Hres. cbn [fst snd] in Hres.
  inversion Hres as [status b Hs | | d args Hlast]; subst; [congruence|].
  split; [reflexivity|].
  split.
  { apply (poll_record cwd _ uid n (hex random)); [exact Hne| |].
    - cbn [convJobMap]. apply lookup_insert_eq.
    - cbn [files]. apply lookup_insert_eq. }
  cbn [run_events fold_left].
  match goal with
  | |- context [deliver cwd PYTHON_BIN ?w0 (W1Exit j (Some 0%Z))] =>
    destruct (deliver_w1_success cwd PYTHON_BIN w0 j) as [args2 ->]
  end.
  cbn [db files convJobMap trace].
  split.
  { apply (poll_record cwd _ uid n (hex random)); [exact Hne| |].
    - cbn [convJobMap]. apply lookup_insert_eq.
    - cbn [files]. rewrite <- Hj. apply lookup_insert_eq. }
  split; [|split].
  - rewrite deliver_qa_exit. rewrite bool_decide_eq_true_2 by reflexivity.
    apply (poll_record cwd _ uid n (hex random)); [exact Hne| |].
    + cbn [convJobMap]. apply lookup_insert_eq.
    + cbn [files]. rewrite <- Hj. apply lookup_insert_eq.
  - intros code Hcode. rewrite deliver_qa_exit.
    rewrite bool_decide_eq_false_2 by exact Hcode.
    apply (poll_record cwd _ uid n (hex random)); [exact Hne| |].
    + cbn [convJobMap]. apply lookup_insert_eq.
    + cbn [files]. rewrite <- Hj. apply lookup_insert_eq.
  - intros e.
    apply (poll_record cwd _ uid n (hex random)); [exact Hne| |].
    + cbn [convJobMap]. apply lookup_insert_eq.
    + cbn [deliver qa_on_error writeFileSync snd files]. rewrite <- Hj.
      apply lookup_insert_eq.
Qed.

Lemma job_life_cycle_witness :
  poll (u "/srv") 1 5
    (run_events (u "/srv") VUndef
       (snd (process_start (u "/srv") VUndef 1 (VNum (Int 5)) bytes1 ready_world))
       [W1Exit job1 (Some 0%Z); QaExit job1 (Some 0%Z)])
  = Ret (Json 200 (record (u "done") (u "完了"))).
Proof.
  destruct (job_life_cycle (u "/srv") VUndef ready_world
              (snd (process_start (u "/srv") VUndef 1 (VNum (Int 5)) bytes1
                      ready_world))
              1 5 bytes1
              (VObj (<[u "ok" := VBool true]>
                     (<[u "jobId" := VStr (hex bytes1)]> ∅))) job1)
    as (_ & _ & _ & H & _).
  - vm_compute. reflexivity.
  - discriminate.
  - vm_compute. reflexivity.
  - exact H.
Defined.

(** X20: a start request that the handler answers with a status other
    than 200 is answered 404, for a conversation the user does not have, or
    400, when neither the conversation names a stored file nor the user has
    a document; such a request writes no file, registers no job, launches
    nothing and leaves the database as it was. *)
Theorem refused_start_changes_nothing (cwd : jsstring) (PYTHON_BIN : value)
    (w : world) (uid : Z) (c : value) (random : list N) (status : N)
    (body : value) :
  fst (process_start cwd PYTHON_BIN uid c random w) = Ret (Json status body) ->
  status <> 200 ->
  snd (process_start cwd PYTHON_BIN uid c random w) = w
  /\ ((status = 404 /\ getConversation (db w) uid (ToNumber c) = None)
      \/ (status = 400 /\ latest_document (db w) uid = None
          /\ truthy (get (or_else (snd (getConversationState (db w) uid
                                          (ToNumber c))) (VObj ∅))
                       (u "stored_filename")) = false)).
Proof.
  cbv beta iota zeta delta [process_start bind read_db ret throw writeFileSync
    convJobMap_set spawn launch path_join_value write_db].
  destruct (getConversation (db w) uid (ToNumber c)) as [conv|].
  2:{ cbn [fst snd]. intros [= <- _] _. split; [reflexivity|].
      left. split; reflexivity. }
  set (meta := or_else (snd (getConversationState (db w) uid (ToNumber c)))
                       (VObj ∅)).
  destruct (truthy (get meta (u "stored_filename"))).
  - destruct (get meta (u "stored_filename")) as [| |b|k|s|l|m];
      cbn [fst snd]; try (intros H Hs; discriminate H).
    destruct (spawn_rejects _ _); cbn [fst snd]; intros H Hs;
      [discriminate H|].
    injection H as <- _. congruence.
  - destruct (latest_document (db w) uid) as [latest|]; cbn [fst snd].
    + destruct (spawn_rejects _ _); cbn [fst snd]; intros H Hs;
        [discriminate H|].
      injection H as <- _. congruence.
    + intros [= <- _] _. split; [reflexivity|]. right. repeat split.
Qed.

Lemma refused_start_changes_nothing_witness :
  snd (process_start (u "/srv") VUndef 1 (VNum (Int 1)) bytes1 sample_world)
  = sample_world.
Proof.
  refine (proj1 (refused_start_changes_nothing (u "/srv") VUndef sample_world 1
                   (VNum (Int 1)) bytes1 400
                   (error_body (u "no uploaded document found for the user"))
                   _ _)).
  - vm_compute. reflexivity.
  - discriminate.
Defined.





Lemma deliver_files cwd PB w ev (p : jsstring) :
  target cwd ev <> p ->
  files (deliver cwd PB w ev) !! p = files w !! p.
Proof.
  destruct ev as [uid c r|j e|j code|j e|j code|p' t]; cbn [target deliver];
    intros Hne.
  - pose proof (process_start_result cwd PB uid c r w) as Hres.
    destruct (process_start cwd PB uid c r w) as [o w'].
    cbn [fst snd] in Hres |- *.
    inversion Hres as [status b Hs| e d| d args Hlast]; subst.
    + reflexivity.
    + cbn [files]. apply lookup_insert_ne. exact Hne.
    + cbn [files]. apply lookup_insert_ne. exact Hne.
  - cbn [w1_on_error writeFileSync snd files]. apply lookup_insert_ne, Hne.
  - unfold w1_on_exit.
    destruct (bool_decide (code = Some 0%Z));
      cbv beta iota zeta delta [bind writeFileSync launch];
      cbn [snd files]; apply lookup_insert_ne, Hne.
  - cbn [qa_on_error writeFileSync snd files]. apply lookup_insert_ne, Hne.
  - cbn [qa_on_exit writeFileSync snd files]. apply lookup_insert_ne, Hne.
  - cbn [files]. apply lookup_insert_ne, Hne.
Qed.

(** X21: what is read for a job changes only by the events of that job:
    after any events that write other progress files, paths being compared
    as [path.join] normalizes them, a poll by the id of the job answers as
    before. *)
Theorem other_jobs_leave_progress (cwd : jsstring) (PYTHON_BIN : value)
    (w : world) (evs : list event) (uid : Z) (jobId : jsstring) :
  Forall (fun ev => target cwd ev <> progressFile cwd (VStr jobId)) evs ->
  files (run_events cwd PYTHON_BIN w evs) !! progressFile cwd (VStr jobId)
  = files w !! progressFile cwd (VStr jobId)
  /\ process_progress cwd uid (VStr jobId) VUndef
       (run_events cwd PYTHON_BIN w evs)
     = process_progress cwd uid (VStr jobId) VUndef w.
Proof.
  intros Hevs.
  assert (Hfiles : files (run_events cwd PYTHON_BIN w evs)
                   !! progressFile cwd (VStr jobId)
                   = files w !! progressFile cwd (VStr jobId)).
  { revert w. induction Hevs as [|ev evs Hev _ IH]; intros w; [reflexivity|].
    cbn [run_events fold_left]. fold (run_events cwd PYTHON_BIN).
    unfold run_events in IH |- *. rewrite IH.
    apply deliver_files, Hev. }
  split; [exact Hfiles|].
  unfold_progress. rewrite !resolved_job_by_id, Hfiles. reflexivity.
Qed.

Lemma other_jobs_leave_progress_witness :
  process_progress (u "/srv") 1 (VStr (u "0badc0de")) VUndef
    (run_events (u "/srv") VUndef idle_world
       [Start 1 (VNum (Int 1)) bytes1; W1Exit job1 None;
        StageWrote (u "/srv/progress/0123456789abcdef.json")
          (JsonText (record (u "ocr") (u "12/40")))])
  = process_progress (u "/srv") 1 (VStr (u "0badc0de")) VUndef idle_world.
Proof.
  refine (proj2 (other_jobs_leave_progress (u "/srv") VUndef idle_world _ 1
                   (u "0badc0de") _)).
  repeat constructor; vm_compute; discriminate.
Defined.



Lemma state_value_column (rs : option jsstring) :
  state_value (as_column (state_value rs)) = state_value rs.
Proof.
  destruct rs as [s|]; [|reflexivity].
  destruct (nonempty s) eqn:Hs.
  - rewrite (state_value_nonempty s Hs). cbn [as_column].
    apply state_value_nonempty, Hs.
  - assert (H : state_value (Some s) = VNull).
    { unfold state_value, or_else. cbn [truthy]. rewrite Hs. reflexivity. }
    rewrite H. reflexivity.
Qed.

Lemma getConversationState_found (d : database) (uid id : Z) (row : conv_row) :
  conversations d !! id = Some row -> row_user row = uid ->
  fst (getConversationState d uid (Int id)) = state_value (row_state row).
Proof.
  intros Hrow Hu. unfold getConversationState.
  rewrite (select_conv_found d uid id row Hrow Hu). reflexivity.
Qed.

(** X23: a start for a conversation whose metadata names no stored file
    falls back to the latest document of the user, the first row of
    [listDocuments(user_id, 1)]: its name and file are written into the
    metadata of the conversation, the state of the conversation reads as
    before, and, where the handler answers, the answer is 200 with the job
    id and the job was launched on the stored file of that document. *)
Theorem start_falls_back_to_latest (cwd : jsstring) (PYTHON_BIN : value)
    (w : world) (uid n : Z) (row : conv_row) (latest : doc_row)
    (random : list N) :
  conversations (db w) !! n = Some row -> row_user row = uid ->
  ids_unique (db w) ->
  truthy (get (meta_or_empty (db w) uid n) (u "stored_filename")) = false ->
  head (listDocuments (db w) uid 1) = Some latest ->
  getConversationState
    (db (snd (process_start cwd PYTHON_BIN uid (VNum (Int n)) random w)))
    uid (Int n)
  = (fst (getConversationState (db w) uid (Int n)),
     jsonify (VObj (<[u "docTitle" := fallback_name latest]>
                    (<[u "stored_filename"
                       := VStr (doc_stored_filename latest)]>
                     (props (meta_or_empty (db w) uid n))))))
  /\ forall r : response,
       fst (process_start cwd PYTHON_BIN uid (VNum (Int n)) random w) = Ret r ->
       r = Json 200 (VObj (<[u "ok" := VBool true]>
                           (<[u "jobId" := VStr (hex random)]> ∅)))
       /\ trace (snd (process_start cwd PYTHON_BIN uid (VNum (Int n)) random w))
          = trace w
            ++ [Wrote (progressFile cwd (VStr (hex random))) initial_record;
                Spawned (pyBin PYTHON_BIN)
                  (worker_args cwd uid
                     (or_else (get (meta_or_empty (db w) uid n)
                                   (u "courseName"))
                              (VStr (u "未設定")))
                     (fallback_name latest)
                     (path_join (UPLOAD_DIR cwd) (doc_stored_filename latest))
                     (progressFile cwd (VStr (hex random))))].
Proof.
  intros Hrow Hu Hid Hmeta Hlatest.
  rewrite <- (latest_document_head (db w) uid Hid) in Hlatest.
  unfold meta_or_empty in *.
  cbv beta iota zeta delta [process_start bind read_db ret throw writeFileSync
    convJobMap_set spawn launch path_join_value write_db].
  cbn [ToNumber].
  rewrite (getConversation_found (db w) uid n row Hrow Hu).
  rewrite Hmeta, Hlatest.
  rewrite (setConversationState_found (db w) uid n row _ _ Hrow Hu).
  fold (worker_args cwd uid
          (or_else (get (or_else (snd (getConversationState (db w) uid (Int n)))
                                 (VObj ∅)) (u "courseName"))
                   (VStr (u "未設定")))
          (fallback_name latest)
          (path_join (UPLOAD_DIR cwd) (doc_stored_filename latest))
          (progressFile cwd (VStr (hex random)))).
  destruct (spawn_rejects _ _); cbn [fst snd db files convJobMap trace].
  - split; [|intros r Hr; discriminate Hr].
    rewrite getConversationState_stored.
    rewrite (getConversationState_found (db w) uid n row Hrow Hu).
    rewrite state_value_column. reflexivity.
  - split.
    + rewrite getConversationState_stored.
      rewrite (getConversationState_found (db w) uid n row Hrow Hu).
      rewrite state_value_column. reflexivity.
    + intros r Hr. injection Hr as <-. split; [reflexivity|].
      rewrite <- app_assoc. reflexivity.
Qed.

Lemma start_falls_back_to_latest_witness :
  snd (getConversationState
         (db (snd (process_start (u "/srv") VUndef 1 (VNum (Int 1)) bytes1
                     fallback_world))) 1 (Int 1))
  = VObj (<[u "docTitle" := VStr (u "d.mp4")]>
          (<[u "stored_filename" := VStr (u "1_4_d.mp4")]>
           {[ u "a" := VNum (Int 1) ]}))
  /\ fst (process_start (u "/srv") VUndef 1 (VNum (Int 1)) bytes1
            fallback_world)
     = Ret (Json 200 (VObj (<[u "ok" := VBool true]>
                            (<[u "jobId" := VStr (hex bytes1)]> ∅)))).
Proof.
  destruct (start_falls_back_to_latest (u "/srv") VUndef fallback_world 1 1
              (ConvRow 1 (Some FLOW_QG_DONE)
                 (Some (JsonText (VObj {[ u "a" := VNum (Int 1) ]}))))
              (DocRow 4 1 (u "d.mp4") (u "1_4_d.mp4") (u "d.mp4")) bytes1)
    as (H & Hr).
  - vm_compute. reflexivity.
  - reflexivity.
  - apply (bool_decide_unpack _). vm_compute. exact I.
  - vm_compute. reflexivity.
  - vm_compute. reflexivity.
  - split; [rewrite H; vm_compute; reflexivity|].
    destruct (fst (process_start (u "/srv") VUndef 1 (VNum (Int 1)) bytes1
                     fallback_world)) as [r|e] eqn:E.
    + destruct (Hr r eq_refl) as [-> _]. reflexivity.
    + vm_compute in E. discriminate E.
Defined.

(* ===================================================================== *)
(** ** Properties of names, job ids and the materials list *)
(* ===================================================================== *)

(** X24: [sanitizeName] keeps the length of a name and every character the
    pattern allows, leaves no path separator and no NUL in it, and changes
    nothing when applied again. *)
Theorem sanitizeName_safe (name : jsstring) :
  length (sanitizeName name) = length name
  /\ Forall (fun c => name_char c = true /\ c <> 47 /\ c <> 92 /\ c <> 0)
       (sanitizeName name)
  /\ sanitizeName (sanitizeName name) = sanitizeName name
  /\ (Forall (fun c => name_char c = true) name -> sanitizeName name = name).
Proof.
  unfold sanitizeName. split; [apply length_map|].
  assert (Hsep : forall c, name_char c = true -> c <> 47 /\ c <> 92 /\ c <> 0).
  { intros c Hc. repeat split; intros ->; vm_compute in Hc; discriminate. }
  split; [|split].
  - induction name as [|c name IH]; cbn [List.map]; constructor; [|exact IH].
    destruct (name_char c) eqn:Hc.
    + split; [exact Hc|apply Hsep, Hc].
    + split; [reflexivity|repeat split; discriminate].
  - rewrite List.map_map. apply List.map_ext. intros c.
    destruct (name_char c) eqn:Hc; [rewrite Hc; reflexivity|reflexivity].
  - induction 1 as [|c name' Hc _ IH]; cbn [List.map]; [reflexivity|].
    rewrite Hc, IH. reflexivity.
Qed.

Lemma hex_digit_inj (a b : N) :
  a < 16 -> b < 16 -> hex_digit a = hex_digit b -> a = b.
Proof.
  unfold hex_digit. intros Ha Hb.
  destruct (N.ltb_spec a 10), (N.ltb_spec b 10); lia.
Qed.

Lemma hex_digit_is_hex (a : N) : a < 16 -> is_hex (hex_digit a) = true.
Proof.
  unfold hex_digit, is_hex, is_digit. intros Ha.
  destruct (N.ltb_spec a 10).
  - apply orb_true_iff. left. apply andb_true_iff.
    split; apply N.leb_le; lia.
  - apply orb_true_iff. right. apply andb_true_iff.
    split; apply N.leb_le; lia.
Qed.

Lemma hex_cons (b : N) (l : list N) :
  hex (b :: l) = hex_digit (b / 16 mod 16) :: hex_digit (b mod 16) :: hex l.
Proof. reflexivity. Qed.

Lemma hex_inj (a : list N) : forall b,
  bytes a -> bytes b -> hex a = hex b -> a = b.
Proof.
  unfold bytes. induction a as [|x a IH]; intros [|y b] Ha Hb H.
  - reflexivity.
  - rewrite hex_cons in H. discriminate H.
  - rewrite hex_cons in H. discriminate H.
  - rewrite !hex_cons in H. injection H as H1 H2 H3.
    apply Forall_cons_1 in Ha. destruct Ha as [Hx Ha].
    apply Forall_cons_1 in Hb. destruct Hb as [Hy Hb].
    apply hex_digit_inj in H1; [|apply N.mod_lt; lia|apply N.mod_lt; lia].
    apply hex_digit_inj in H2; [|apply N.mod_lt; lia|apply N.mod_lt; lia].
    f_equal; [|apply IH; assumption].
    rewrite (N.mod_small (x / 16) 16) in H1
      by (apply N.Div0.div_lt_upper_bound; lia).
    rewrite (N.mod_small (y / 16) 16) in H1
      by (apply N.Div0.div_lt_upper_bound; lia).
    rewrite (N.div_mod x 16), (N.div_mod y 16) by lia. rewrite H1, H2.
    reflexivity.
Qed.

(** X25: the id of a job is two lower-case hexadecimal digits for each
    random byte, and different bytes give different ids and different
    progress files. *)
Theorem job_id_of_bytes (cwd : jsstring) (a b : list N) :
  bytes a -> bytes b ->
  length (hex a) = (2 * length a)%nat
  /\ Forall (fun c => is_hex c = true) (hex a)
  /\ (progressFile cwd (VStr (hex a)) = progressFile cwd (VStr (hex b)) ->
      a = b).
Proof.
  intros Ha Hb. split; [|split].
  - clear. induction a as [|x a IH]; [reflexivity|].
    rewrite hex_cons. cbn [length]. rewrite IH. lia.
  - clear b Hb. induction Ha as [|x a Hx _ IH]; [constructor|].
    rewrite hex_cons.
    constructor; [apply hex_digit_is_hex, N.mod_lt; lia|].
    constructor; [apply hex_digit_is_hex, N.mod_lt; lia|exact IH].
  - intros H. apply progressFile_inj in H; [|apply hex_no_slash..].
    apply hex_inj; assumption.
Qed.

Lemma job_id_of_bytes_witness :
  length (hex bytes1) = 16%nat
  /\ Forall (fun c => is_hex c = true) (hex bytes1).
Proof.
  destruct (job_id_of_bytes (u "/srv") bytes1 bytes2) as (H1 & H2 & _).
  - repeat constructor.
  - repeat constructor.
  - split; [exact H1|exact H2].
Defined.

Lemma material_name_nonempty (r : doc_row) :
  exists s, material_name r = VStr s /\ s <> [].
Proof.
  unfold material_name, material, get, prop.
  rewrite lookup_insert_ne by (vm_compute; discriminate).
  rewrite lookup_insert_eq. cbn [default].
  unfold or_else. cbn [truthy].
  destruct (nonempty (doc_title r)) eqn:Ht; cbn [truthy].
  - rewrite Ht. eexists. split; [reflexivity|].
    destruct (doc_title r); [discriminate|discriminate].
  - destruct (nonempty (doc_original_name r)) eqn:Ho; cbn [truthy].
    + eexists. split; [reflexivity|].
      destruct (doc_original_name r); discriminate.
    + eexists. split; [reflexivity|].
      change (u "doc-") with [100; 111; 99; 45]. discriminate.
Qed.

Lemma descending_take (n : nat) (l : list doc_row) :
  descending l -> descending (take n l).
Proof.
  unfold descending. intros H. revert n.
  induction H as [|x l Hl IH Hx]; intros [|n]; cbn [take]; try constructor.
  - apply IH.
  - apply Forall_take, Hx.
Qed.

(** X26: the materials list shows documents of the user and of no other, at
    most ten, the newest first, each under a name that is not empty; its
    first entry is the document a start request falls back to. *)
Theorem materials_list (d : database) (uid : Z) :
  ids_unique d ->
  materials d uid = Json 200 (VArr (List.map material (listDocuments d uid 10)))
  /\ (length (listDocuments d uid 10) <= 10)%nat
  /\ descending (listDocuments d uid 10)
  /\ Forall (fun r => In r (documents d) /\ doc_user r = uid
                      /\ exists s, material_name r = VStr s /\ s <> [])
       (listDocuments d uid 10)
  /\ head (listDocuments d uid 10) = latest_document d uid.
Proof.
  intros Hid. split; [reflexivity|]. unfold listDocuments.
  split; [rewrite length_take; lia|]. split; [|split].
  - apply descending_take, listDocumentsAll_descending, Hid.
  - apply Forall_take. unfold listDocumentsAll. rewrite sort_by_perm.
    apply Forall_forall. intros r Hr. apply list_elem_of_In in Hr.
    apply List.filter_In in Hr. destruct Hr as [Hin Hu].
    split; [exact Hin|].
    split; [apply bool_decide_eq_true in Hu; exact Hu|].
    apply material_name_nonempty.
  - rewrite (latest_document_head d uid Hid). unfold listDocuments.
    destruct (listDocumentsAll d uid); reflexivity.
Qed.

Lemma materials_list_witness :
  materials (Database ∅ sample_docs) 1
  = Json 200 (VArr (List.map material (listDocuments (Database ∅ sample_docs) 1 10)))
  /\ head (listDocuments (Database ∅ sample_docs) 1 10)
     = latest_document (Database ∅ sample_docs) 1.
Proof.
  destruct (materials_list (Database ∅ sample_docs) 1) as (H1 & _ & _ & _ & H2).
  - apply (bool_decide_unpack _). vm_compute. exact I.
  - split; [exact H1|exact H2].
Defined.
